(** * Olimpia MQTT / IR bridge: a shallow embedding of the sketch and its
    verified properties.

    The sketch (Olimpia IR Bridge.ino, config.h, secrets.h) is a single
    cooperative loop on an ESP32.  It is embedded here as a state monad over a
    [World] (the sketch's global variables plus the part of the platform the
    sketch observes) that also returns the ordered list of calls the code makes
    on the hardware and on the libraries ([Event]).

    Modelling conventions.
    - [uint32_t] values are [Z] with the wrap-around written out ([wrap32]).
      The field [clock] counts milliseconds since power-up; [millis()]
      returns it modulo 2^32.
    - [delay n] advances the clock by exactly [n].  No other call advances
      it inside one pass of [loop]: in particular the time [irsend.sendNEC]
      blocks while it sends a frame is not counted, so that the durations
      stated below are the delays the code asks for, added up, and a lower
      bound of the time the device takes.  Between two passes the
      environment may let any amount of time go by ([Stimulus]).
    - The link status, the button level, the broker's answer to a connection
      request and the queue of inbound messages are read from the platform
      part of the world.  They change between two passes of [loop]
      ([apply_stimulus]); inside one pass the session state changes only
      through the sketch's own [mqtt.connect].
    - [waitMsWithYield] is a [while] loop; it is run with fuel and returns
      [None] when the fuel is exhausted, hence the option in the monad.
    - Arduino [String] is [string], a NUL character included when a payload
      holds one.  [==] between a [String] and a literal is [strcmp] on the
      buffers, which stops at the first NUL character ([equals]), and
      [toLowerCase] stops there too; [trim], [print] and [println] go by the
      length. *)

From Stdlib Require Import ZArith List String Ascii Bool Lia.
From Stdlib Require Import DecimalString HexadecimalString.
From Stdlib Require Strings.Byte.
Import ListNotations.

Open Scope Z_scope.

Infix "+++" := String.append (at level 60, right associativity).

(* ------------------------------------------------------------------ *)
(** ** Machine integers *)

Definition wrap32 (x : Z) : Z := x mod 2 ^ 32.

(** [String(n)] on an integer: its decimal text. *)
Definition dec (n : Z) : string :=
  DecimalString.NilZero.string_of_int (Z.to_int n).

(** [String(n, HEX)] on an unsigned integer. *)
Definition hex (n : Z) : string :=
  HexadecimalString.NilZero.string_of_uint (N.to_hex_uint (Z.to_N n)).

(** The double-quote character of the JSON payloads. *)
Definition dq : string := String (ascii_of_nat 34) EmptyString.

(* ------------------------------------------------------------------ *)
(** ** Platform types *)

(** [esp_reset_reason_t] of the platform header esp_system.h: the nine reasons
    the sketch names, the two others of the header the sketch was written
    against, and [ESP_RST_OTHER] for any value a later header adds. *)
Inductive esp_reset_reason_t : Type :=
| ESP_RST_UNKNOWN
| ESP_RST_POWERON
| ESP_RST_EXT
| ESP_RST_SW
| ESP_RST_PANIC
| ESP_RST_INT_WDT
| ESP_RST_TASK_WDT
| ESP_RST_WDT
| ESP_RST_DEEPSLEEP
| ESP_RST_BROWNOUT
| ESP_RST_SDIO
| ESP_RST_OTHER (value : Z).

(** What an over-the-air session reports to the callbacks of [setupOTA]. *)
Inductive ota_event : Type :=
| OtaStart
| OtaEnd
| OtaError (error : Z).

(** Pin levels of [digitalRead]: [HIGH] is [true]. *)
Definition HIGH : bool := true.
Definition LOW : bool := false.

(* ------------------------------------------------------------------ *)
(** ** Compile-time configuration (config.h and secrets.h) *)

Record Config : Type := mkConfig {
  DEVICE_AREA : string;
  DEVICE_NAME_MQTT : string;
  PIN_IR_TX : Z;
  PIN_BTN_RESTORE : Z;
  BOOT_DELAY_MS : Z;
  MANUAL_DELAY_MS : Z;
  TEMP_STEPS_TO_45 : Z;
  IR_GAP_MS : Z;
  WIFI_SSID : string;
  WIFI_PASS : string;
  MQTT_HOST : string;
  MQTT_PORT : Z;
  MQTT_USER : string;
  MQTT_PASS : string;
  OTA_HOSTNAME : string;
  OTA_PASSWORD : string
}.

(** The values of config.h and of secrets.example.h. *)
Definition shipped_config : Config := {|
  DEVICE_AREA := "bathroom";
  DEVICE_NAME_MQTT := "geyser";
  PIN_IR_TX := 18;
  PIN_BTN_RESTORE := 27;
  BOOT_DELAY_MS := 15000;
  MANUAL_DELAY_MS := 500;
  TEMP_STEPS_TO_45 := 20;
  IR_GAP_MS := 180;
  WIFI_SSID := "YOUR_WIFI_SSID";
  WIFI_PASS := "YOUR_WIFI_PASSWORD";
  MQTT_HOST := "MQTT_BROKER_IP";
  MQTT_PORT := 1883;
  MQTT_USER := "MQTT_USERNAME";
  MQTT_PASS := "MQTT_PASSWORD";
  OTA_HOSTNAME := "esp32-olimpia-ir";
  OTA_PASSWORD := "OTA_PASSWORD"
|}.

(* ------------------------------------------------------------------ *)
(** ** Constants of the sketch *)

Definition HA_DISCOVERY_PREFIX : string := "homeassistant".
Definition AVAIL_ONLINE : string := "online".
Definition AVAIL_OFFLINE : string := "offline".

Definition DEVICE_IDENT : string := "olimpia_ir_esp32_01".
Definition DEVICE_NAME : string := "IR Heater ESP32 (bathroom)".
Definition DEVICE_MODEL : string := "ESP32 IR Bridge".
Definition DEVICE_MFR : string := "DIY".

Definition IR_POWER_TOGGLE : Z := 0xFF807F.
Definition IR_POWER_LEVEL : Z := 0xFF00FF.
Definition IR_OSCILLATION_TOGGLE : Z := 0xFF20DF.
Definition IR_SLEEP_TIMER : Z := 0xFF30CF.
Definition IR_TEMP_MODE : Z := 0xFFB04F.
Definition IR_TEMP_UP : Z := 0xFF906F.
Definition IR_TEMP_DOWN : Z := 0xFF10EF.

Definition DEBOUNCE_MS : Z := 80.
Definition WIFI_RETRY_MS : Z := 5000.
Definition MQTT_RETRY_MS : Z := 3000.

(* ------------------------------------------------------------------ *)
(** ** The world *)

(** The part of the platform and of the libraries the sketch observes. *)
Record Platform : Type := mkPlatform {
  clock : Z;                         (* milliseconds since power-up *)
  wifi_connected : bool;             (* WiFi.status() == WL_CONNECTED *)
  mqtt_connected : bool;             (* mqtt.connected() *)
  btn_pin : bool;                    (* digitalRead(PIN_BTN_RESTORE) *)
  broker_accepts : bool;             (* what mqtt.connect will return *)
  publish_ok : bool;                 (* what mqtt.publish will return *)
  inbox : list (list Byte.byte);     (* payloads mqtt.loop will deliver *)
  ota_pending : option ota_event;    (* what ArduinoOTA.handle will report *)
  reset_reason : esp_reset_reason_t; (* esp_reset_reason() *)
  wifi_ip : string;
  wifi_gateway : string;
  wifi_rssi : Z;
  mqtt_state : Z;
  efuse_mac : Z
}.

(** The global and static variables of the sketch, with their names. *)
Record Globals : Type := mkGlobals {
  mqttTopicCmd : string;
  mqttTopicStatus : string;
  mqttTopicAvail : string;
  lastBtnState : bool;
  lastBtnChangeMs : Z;
  lastWifiAttemptMs : Z;
  lastMqttAttemptMs : Z;
  discoveryPublished : bool;
  otaStarted : bool;
  bootRestoreScheduled : bool;
  bootRestoreAtMs : Z;
  tAlive : Z
}.

Record World : Type := mkWorld {
  hw : Platform;
  gv : Globals
}.

(** The variables as their initialisers leave them. *)
Definition initial_globals : Globals := {|
  mqttTopicCmd := EmptyString;
  mqttTopicStatus := EmptyString;
  mqttTopicAvail := EmptyString;
  lastBtnState := true;
  lastBtnChangeMs := 0;
  lastWifiAttemptMs := 0;
  lastMqttAttemptMs := 0;
  discoveryPublished := false;
  otaStarted := false;
  bootRestoreScheduled := false;
  bootRestoreAtMs := 0;
  tAlive := 0
|}.

Definition set_clock (t : Z) (p : Platform) : Platform :=
  mkPlatform t (wifi_connected p) (mqtt_connected p) (btn_pin p)
    (broker_accepts p) (publish_ok p) (inbox p) (ota_pending p)
    (reset_reason p) (wifi_ip p) (wifi_gateway p) (wifi_rssi p)
    (mqtt_state p) (efuse_mac p).

Definition set_mqtt_connected (b : bool) (p : Platform) : Platform :=
  mkPlatform (clock p) (wifi_connected p) b (btn_pin p)
    (broker_accepts p) (publish_ok p) (inbox p) (ota_pending p)
    (reset_reason p) (wifi_ip p) (wifi_gateway p) (wifi_rssi p)
    (mqtt_state p) (efuse_mac p).

Definition set_inbox (l : list (list Byte.byte)) (p : Platform) : Platform :=
  mkPlatform (clock p) (wifi_connected p) (mqtt_connected p) (btn_pin p)
    (broker_accepts p) (publish_ok p) l (ota_pending p)
    (reset_reason p) (wifi_ip p) (wifi_gateway p) (wifi_rssi p)
    (mqtt_state p) (efuse_mac p).

Definition set_ota_pending (o : option ota_event) (p : Platform) : Platform :=
  mkPlatform (clock p) (wifi_connected p) (mqtt_connected p) (btn_pin p)
    (broker_accepts p) (publish_ok p) (inbox p) o
    (reset_reason p) (wifi_ip p) (wifi_gateway p) (wifi_rssi p)
    (mqtt_state p) (efuse_mac p).

Definition set_topics (c s a : string) (g : Globals) : Globals :=
  mkGlobals c s a (lastBtnState g) (lastBtnChangeMs g)
    (lastWifiAttemptMs g) (lastMqttAttemptMs g) (discoveryPublished g)
    (otaStarted g) (bootRestoreScheduled g) (bootRestoreAtMs g) (tAlive g).

Definition set_button (level : bool) (at_ms : Z) (g : Globals) : Globals :=
  mkGlobals (mqttTopicCmd g) (mqttTopicStatus g) (mqttTopicAvail g)
    level at_ms
    (lastWifiAttemptMs g) (lastMqttAttemptMs g) (discoveryPublished g)
    (otaStarted g) (bootRestoreScheduled g) (bootRestoreAtMs g) (tAlive g).

Definition set_lastWifiAttemptMs (t : Z) (g : Globals) : Globals :=
  mkGlobals (mqttTopicCmd g) (mqttTopicStatus g) (mqttTopicAvail g)
    (lastBtnState g) (lastBtnChangeMs g)
    t (lastMqttAttemptMs g) (discoveryPublished g)
    (otaStarted g) (bootRestoreScheduled g) (bootRestoreAtMs g) (tAlive g).

Definition set_lastMqttAttemptMs (t : Z) (g : Globals) : Globals :=
  mkGlobals (mqttTopicCmd g) (mqttTopicStatus g) (mqttTopicAvail g)
    (lastBtnState g) (lastBtnChangeMs g)
    (lastWifiAttemptMs g) t (discoveryPublished g)
    (otaStarted g) (bootRestoreScheduled g) (bootRestoreAtMs g) (tAlive g).

Definition set_discoveryPublished (b : bool) (g : Globals) : Globals :=
  mkGlobals (mqttTopicCmd g) (mqttTopicStatus g) (mqttTopicAvail g)
    (lastBtnState g) (lastBtnChangeMs g)
    (lastWifiAttemptMs g) (lastMqttAttemptMs g) b
    (otaStarted g) (bootRestoreScheduled g) (bootRestoreAtMs g) (tAlive g).

Definition set_otaStarted (b : bool) (g : Globals) : Globals :=
  mkGlobals (mqttTopicCmd g) (mqttTopicStatus g) (mqttTopicAvail g)
    (lastBtnState g) (lastBtnChangeMs g)
    (lastWifiAttemptMs g) (lastMqttAttemptMs g) (discoveryPublished g)
    b (bootRestoreScheduled g) (bootRestoreAtMs g) (tAlive g).

Definition set_bootRestore (scheduled : bool) (at_ms : Z) (g : Globals)
  : Globals :=
  mkGlobals (mqttTopicCmd g) (mqttTopicStatus g) (mqttTopicAvail g)
    (lastBtnState g) (lastBtnChangeMs g)
    (lastWifiAttemptMs g) (lastMqttAttemptMs g) (discoveryPublished g)
    (otaStarted g) scheduled at_ms (tAlive g).

Definition set_tAlive (t : Z) (g : Globals) : Globals :=
  mkGlobals (mqttTopicCmd g) (mqttTopicStatus g) (mqttTopicAvail g)
    (lastBtnState g) (lastBtnChangeMs g)
    (lastWifiAttemptMs g) (lastMqttAttemptMs g) (discoveryPublished g)
    (otaStarted g) (bootRestoreScheduled g) (bootRestoreAtMs g) t.

Definition on_hw (f : Platform -> Platform) (w : World) : World :=
  mkWorld (f (hw w)) (gv w).

Definition on_gv (f : Globals -> Globals) (w : World) : World :=
  mkWorld (hw w) (f (gv w)).

(** The world [d] milliseconds later, nothing else changed. *)
Definition later (d : Z) (w : World) : World :=
  on_hw (fun p => set_clock (clock p + d) p) w.

(* ------------------------------------------------------------------ *)
(** ** Events: the calls the sketch makes on the hardware and the libraries *)

Inductive Event : Type :=
| EIrSendNEC (code bits : Z)                    (* irsend.sendNEC *)
| EDelay (ms : Z)                               (* delay *)
| EYield                                        (* yield *)
| EPrint (s : string)                           (* Serial.print *)
| EPrintln (s : string)                         (* Serial.println *)
| EMqttPublish (topic payload : string) (retain : bool)
| EMqttSubscribe (topic : string)
| EMqttConnect (clientId user pass willTopic : string) (willQos : Z)
    (willRetain : bool) (willMessage : string)
| EMqttLoop
| EMqttSetServer (host : string) (port : Z)
| EMqttSetCallback
| EMqttSetBufferSize (size : Z)
| EWifiMode
| EWifiBegin (ssid pass : string)
| EOtaSetHostname (hostname : string)
| EOtaSetPassword (password : string)
| EOtaBegin
| EOtaHandle
| ESerialBegin (baud : Z)
| EPinMode (pin : Z)
| EIrBegin.

(* ------------------------------------------------------------------ *)
(** ** The monad: state, emitted events, and [None] for exhausted fuel *)

Definition M (A : Type) : Type := World -> option (A * World * list Event).

Definition ret {A : Type} (a : A) : M A := fun w => Some (a, w, []).

Definition bind {A B : Type} (m : M A) (k : A -> M B) : M B :=
  fun w =>
    match m w with
    | None => None
    | Some (a, w1, e1) =>
        match k a w1 with
        | None => None
        | Some (b, w2, e2) => Some (b, w2, e1 ++ e2)
        end
    end.

Notation "x <- m ;; k" := (bind m (fun x => k))
  (at level 61, m at next level, right associativity).
Notation "m ;; k" := (bind m (fun _ => k))
  (at level 61, right associativity).

Definition emit (e : Event) : M unit := fun w => Some (tt, w, [e]).
Definition read_hw {A : Type} (f : Platform -> A) : M A :=
  fun w => Some (f (hw w), w, []).
Definition read_gv {A : Type} (f : Globals -> A) : M A :=
  fun w => Some (f (gv w), w, []).
Definition write_gv (f : Globals -> Globals) : M unit :=
  fun w => Some (tt, on_gv f w, []).
Definition write_hw (f : Platform -> Platform) : M unit :=
  fun w => Some (tt, on_hw f w, []).
Definition out_of_fuel {A : Type} : M A := fun _ => None.

Definition when (b : bool) (m : M unit) : M unit := if b then m else ret tt.

(** [for (i = 0; i < n; i++) body] *)
Fixpoint repeatM (n : nat) (body : M unit) : M unit :=
  match n with
  | O => ret tt
  | S n' => body ;; repeatM n' body
  end.

(** The events of a run, and its final world. *)
Definition events {A : Type} (m : M A) (w : World) : list Event :=
  match m w with Some (_, _, e) => e | None => [] end.

Definition final {A : Type} (m : M A) (w : World) : option World :=
  match m w with Some (_, w', _) => Some w' | None => None end.

(* ------------------------------------------------------------------ *)
(** ** Platform calls *)

Definition millis : M Z := read_hw (fun p => wrap32 (clock p)).

Definition delay (ms : Z) : M unit :=
  fun w => Some (tt, later ms w, [EDelay ms]).

Definition yield : M unit := emit EYield.

Definition Serial_print (s : string) : M unit := emit (EPrint s).
Definition Serial_println (s : string) : M unit := emit (EPrintln s).

Definition irsend_sendNEC (code bits : Z) : M unit :=
  emit (EIrSendNEC code bits).

Definition mqtt_connected_ : M bool := read_hw mqtt_connected.
Definition WiFi_connected : M bool := read_hw wifi_connected.

(** [mqtt.publish]: the call is recorded; it reports success when the session
    is up and the platform accepts the write. *)
Definition mqtt_publish (topic payload : string) (retain : bool) : M bool :=
  fun w => Some (mqtt_connected (hw w) && publish_ok (hw w), w,
                 [EMqttPublish topic payload retain]).

(** [mqtt.connect]: the broker's answer becomes the session state. *)
Definition mqtt_connect (clientId user pass willTopic : string) (willQos : Z)
    (willRetain : bool) (willMessage : string) : M bool :=
  fun w =>
    let ok := broker_accepts (hw w) in
    Some (ok, on_hw (set_mqtt_connected ok) w,
          [EMqttConnect clientId user pass willTopic willQos willRetain
             willMessage]).

Definition digitalRead_btn : M bool := read_hw btn_pin.

(** [mqtt.subscribe] *)
Definition mqtt_subscribe (topic : string) : M unit :=
  emit (EMqttSubscribe topic).

(* ------------------------------------------------------------------ *)
(** ** Arduino String operations used by the sketch *)

(** [isspace] in the C locale: space, and tab to carriage return. *)
Definition isspace (c : ascii) : bool :=
  let n := nat_of_ascii c in
  (n =? 32)%nat || ((9 <=? n)%nat && (n <=? 13)%nat).

(** [tolower] in the C locale. *)
Definition tolower (c : ascii) : ascii :=
  let n := nat_of_ascii c in
  if (65 <=? n)%nat && (n <=? 90)%nat then ascii_of_nat (n + 32) else c.

Fixpoint skip_leading_space (s : string) : string :=
  match s with
  | EmptyString => EmptyString
  | String c r => if isspace c then skip_leading_space r else s
  end.

Fixpoint drop_trailing_space (s : string) : string :=
  match s with
  | EmptyString => EmptyString
  | String c r =>
      match drop_trailing_space r with
      | EmptyString => if isspace c then EmptyString else String c EmptyString
      | r' => String c r'
      end
  end.

(** [String::trim]: leading, then trailing white space removed. *)
Definition trim (s : string) : string :=
  drop_trailing_space (skip_leading_space s).

(** [String::toLowerCase]: the library walks the buffer as a C string and
    applies [tolower] to each character, so it stops at the first NUL
    character; what follows is left as it is. *)
Fixpoint toLowerCase (s : string) : string :=
  match s with
  | EmptyString => EmptyString
  | String c r =>
      if Ascii.eqb c Ascii.zero then s
      else String (tolower c) (toLowerCase r)
  end.

(** [String::c_str] as C reads it: the text before the first NUL
    character. *)
Fixpoint c_str (s : string) : string :=
  match s with
  | EmptyString => EmptyString
  | String c r =>
      if Ascii.eqb c Ascii.zero then EmptyString else String c (c_str r)
  end.

(** [String::equals] on a C string, which is the [==] of a [String] and a
    literal: [strcmp(buffer, cstr) == 0]. *)
Definition equals (s cstr : string) : bool :=
  String.eqb (c_str s) (c_str cstr).

(** [for (i = 0; i < length; i++) msg += (char)payload[i]] *)
Fixpoint string_of_payload (payload : list Byte.byte) : string :=
  match payload with
  | [] => EmptyString
  | b :: r => String (ascii_of_byte b) (string_of_payload r)
  end.

(* ------------------------------------------------------------------ *)
(** ** Reset reason helpers *)

Definition resetReasonToString (r : esp_reset_reason_t) : string :=
  match r with
  | ESP_RST_POWERON => "POWERON"
  | ESP_RST_BROWNOUT => "BROWNOUT"
  | ESP_RST_EXT => "EXT_RESET(EN)"
  | ESP_RST_SW => "SW_RESET"
  | ESP_RST_PANIC => "PANIC"
  | ESP_RST_INT_WDT => "INT_WDT"
  | ESP_RST_TASK_WDT => "TASK_WDT"
  | ESP_RST_WDT => "OTHER_WDT"
  | ESP_RST_DEEPSLEEP => "DEEPSLEEP"
  | _ => "UNKNOWN"
  end.

Definition reset_reason_eqb (a b : esp_reset_reason_t) : bool :=
  match a, b with
  | ESP_RST_UNKNOWN, ESP_RST_UNKNOWN
  | ESP_RST_POWERON, ESP_RST_POWERON
  | ESP_RST_EXT, ESP_RST_EXT
  | ESP_RST_SW, ESP_RST_SW
  | ESP_RST_PANIC, ESP_RST_PANIC
  | ESP_RST_INT_WDT, ESP_RST_INT_WDT
  | ESP_RST_TASK_WDT, ESP_RST_TASK_WDT
  | ESP_RST_WDT, ESP_RST_WDT
  | ESP_RST_DEEPSLEEP, ESP_RST_DEEPSLEEP
  | ESP_RST_BROWNOUT, ESP_RST_BROWNOUT
  | ESP_RST_SDIO, ESP_RST_SDIO => true
  | ESP_RST_OTHER a, ESP_RST_OTHER b => Z.eqb a b
  | _, _ => false
  end.

Definition shouldRunRestoreOnBoot (r : esp_reset_reason_t) : bool :=
  reset_reason_eqb r ESP_RST_POWERON || reset_reason_eqb r ESP_RST_BROWNOUT.

(* ------------------------------------------------------------------ *)
(** ** The sketch *)

Section Sketch.

Variable cfg : Config.

Definition buildMqttTopics : M unit :=
  let base := "hvac/" +++ DEVICE_AREA cfg +++ "/" +++ DEVICE_NAME_MQTT cfg in
  write_gv (set_topics (base +++ "/command") (base +++ "/status")
              (base +++ "/availability")).

(** *** MQTT helpers *)

Definition mqttPublish (topic payload : string) (retain : bool) : M unit :=
  ok <- mqtt_publish topic payload retain ;;
  when (negb ok)
    (Serial_print "MQTT publish FAILED topic=" ;;
     Serial_print topic ;;
     Serial_print " len=" ;;
     Serial_println (dec (Z.of_nat (String.length payload)))).

(** The declaration gives [retain] the default [true]; every call of the
    sketch relies on it. *)
Definition publishStatus (msg : string) (retain : bool) : M unit :=
  c <- mqtt_connected_ ;;
  when c
    (topic <- read_gv mqttTopicStatus ;;
     _ <- mqtt_publish topic msg retain ;;
     ret tt).

Definition setAvailability (state : string) : M unit :=
  c <- mqtt_connected_ ;;
  when c
    (topic <- read_gv mqttTopicAvail ;;
     _ <- mqtt_publish topic state true ;;
     ret tt).

(** *** OTA *)

Definition newline : string := String (ascii_of_nat 10) EmptyString.

Definition ota_onStart : M unit :=
  Serial_println "OTA: start" ;;
  publishStatus "ota:start" true.

Definition ota_onEnd : M unit :=
  Serial_println "OTA: end" ;;
  publishStatus "ota:end" true.

Definition ota_onError (error : Z) : M unit :=
  Serial_print ("OTA: error[" +++ dec error +++ "]" +++ newline) ;;
  publishStatus ("ota:error:" +++ dec error) true.

Definition setupOTA : M unit :=
  emit (EOtaSetHostname (OTA_HOSTNAME cfg)) ;;
  emit (EOtaSetPassword (OTA_PASSWORD cfg)) ;;
  emit EOtaBegin ;;
  Serial_println "OTA: ready".

(** [ArduinoOTA.handle()]: runs the callback of what the session reports. *)
Definition ArduinoOTA_handle : M unit :=
  emit EOtaHandle ;;
  p <- read_hw ota_pending ;;
  match p with
  | None => ret tt
  | Some ev =>
      write_hw (set_ota_pending None) ;;
      match ev with
      | OtaStart => ota_onStart
      | OtaEnd => ota_onEnd
      | OtaError error => ota_onError error
      end
  end.

(** *** IR helpers *)

Definition sendNEC (code : Z) : M unit :=
  irsend_sendNEC code 32 ;;
  delay 50 ;;
  irsend_sendNEC code 32 ;;
  yield.

Definition sendCmd (code : Z) (tag : string) : M unit :=
  sendNEC code ;;
  delay (IR_GAP_MS cfg) ;;
  publishStatus ("sent:" +++ tag) true ;;
  Serial_println ("IR sent: " +++ tag) ;;
  yield ;;
  delay 1.

(** [while (millis() - start < ms) { delay(5); yield(); }] *)
Fixpoint waitLoop (fuel : nat) (start ms : Z) : M unit :=
  match fuel with
  | O => out_of_fuel
  | S fuel' =>
      now <- millis ;;
      if wrap32 (now - start) <? ms
      then delay 5 ;; yield ;; waitLoop fuel' start ms
      else ret tt
  end.

(** The fuel, [ms / 5 + 2] rounds, is enough whenever [ms <= 2^32 - 5]: the
    elapsed time then reaches [ms] before it can wrap around. *)
Definition waitMsWithYield (ms : Z) : M unit :=
  start <- millis ;;
  waitLoop (Z.to_nat (ms / 5) + 2) start ms.

(** *** Restore macro *)

Definition restoreTo45AndOff (triggerTag : string) (preDelayMs : Z) : M unit :=
  publishStatus ("restore:start:" +++ triggerTag) true ;;
  Serial_println ("restore:start:" +++ triggerTag) ;;
  when (preDelayMs >? 0) (waitMsWithYield preDelayMs) ;;
  sendCmd IR_POWER_TOGGLE "power_toggle_on" ;;
  sendCmd IR_TEMP_MODE "temp_mode" ;;
  repeatM (Z.to_nat (TEMP_STEPS_TO_45 cfg))
    (sendCmd IR_TEMP_UP "temp_up" ;;
     yield ;;
     delay 1) ;;
  sendCmd IR_POWER_TOGGLE "power_toggle_off" ;;
  publishStatus ("restore:done:" +++ triggerTag) true ;;
  Serial_println ("restore:done:" +++ triggerTag).

(** *** Home Assistant discovery helpers *)

(** A JSON string literal: [s] between double quotes. *)
Definition quoted (s : string) : string := dq +++ s +++ dq.

Definition deviceBlockJson : string :=
  "{" +++
  quoted "identifiers" +++ ":[" +++ quoted DEVICE_IDENT +++ "]," +++
  quoted "name" +++ ":" +++ quoted DEVICE_NAME +++ "," +++
  quoted "manufacturer" +++ ":" +++ quoted DEVICE_MFR +++ "," +++
  quoted "model" +++ ":" +++ quoted DEVICE_MODEL +++
  "}".

(** The JSON text [j] of [publishButtonDiscovery]. *)
Definition buttonDiscoveryJson
    (cmdTopic availTopic object_id name payload_press : string) : string :=
  "{" +++
  quoted "name" +++ ":" +++ quoted name +++ "," +++
  quoted "command_topic" +++ ":" +++ quoted cmdTopic +++ "," +++
  quoted "payload_press" +++ ":" +++ quoted payload_press +++ "," +++
  quoted "availability_topic" +++ ":" +++ quoted availTopic +++ "," +++
  quoted "payload_available" +++ ":" +++ quoted AVAIL_ONLINE +++ "," +++
  quoted "payload_not_available" +++ ":" +++ quoted AVAIL_OFFLINE +++ "," +++
  quoted "unique_id" +++ ":" +++ quoted object_id +++ "," +++
  quoted "device" +++ ":" +++ deviceBlockJson +++
  "}".

Definition publishButtonDiscovery (object_id name payload_press : string)
  : M unit :=
  let topic := HA_DISCOVERY_PREFIX +++ "/button/" +++ object_id +++ "/config" in
  cmdTopic <- read_gv mqttTopicCmd ;;
  availTopic <- read_gv mqttTopicAvail ;;
  let j :=
    buttonDiscoveryJson cmdTopic availTopic object_id name payload_press in
  mqttPublish topic j true.

(** The JSON text [j] of [publishStatusSensorDiscovery]. *)
Definition statusSensorDiscoveryJson (statusTopic availTopic object_id : string)
  : string :=
  "{" +++
  quoted "name" +++ ":" +++ quoted "IR Heater Status" +++ "," +++
  quoted "state_topic" +++ ":" +++ quoted statusTopic +++ "," +++
  quoted "availability_topic" +++ ":" +++ quoted availTopic +++ "," +++
  quoted "payload_available" +++ ":" +++ quoted AVAIL_ONLINE +++ "," +++
  quoted "payload_not_available" +++ ":" +++ quoted AVAIL_OFFLINE +++ "," +++
  quoted "unique_id" +++ ":" +++ quoted object_id +++ "," +++
  quoted "device" +++ ":" +++ deviceBlockJson +++
  "}".

Definition publishStatusSensorDiscovery : M unit :=
  let object_id := "olimpia_ir_status_01"%string in
  let topic := HA_DISCOVERY_PREFIX +++ "/sensor/" +++ object_id +++ "/config" in
  statusTopic <- read_gv mqttTopicStatus ;;
  availTopic <- read_gv mqttTopicAvail ;;
  let j := statusSensorDiscoveryJson statusTopic availTopic object_id in
  mqttPublish topic j true.

Definition publishAllDiscovery : M unit :=
  publishStatusSensorDiscovery ;;
  publishButtonDiscovery "ir_btn_power_toggle_01" "IR Power Toggle"
    "power_toggle" ;;
  publishButtonDiscovery "ir_btn_power_level_01" "IR Power Level"
    "power_level" ;;
  publishButtonDiscovery "ir_btn_osc_toggle_01" "IR Oscillation Toggle"
    "oscillation_toggle" ;;
  publishButtonDiscovery "ir_btn_sleep_timer_01" "IR Sleep Timer"
    "sleep_timer" ;;
  publishButtonDiscovery "ir_btn_temp_mode_01" "IR Temp Mode" "temp_mode" ;;
  publishButtonDiscovery "ir_btn_temp_up_01" "IR Temp Up" "temp_up" ;;
  publishButtonDiscovery "ir_btn_temp_down_01" "IR Temp Down" "temp_down" ;;
  publishButtonDiscovery "ir_btn_restore_45_off_01" "Restore 45C + OFF"
    "restore_state" ;;
  publishStatus "discovery:published" true ;;
  Serial_println "HA discovery published (retained).".

(** *** MQTT command handler *)

Definition handleCommand (cmd : string) : M unit :=
  Serial_print "MQTT cmd: " ;;
  Serial_println cmd ;;
  if equals cmd "power_toggle" then
    sendCmd IR_POWER_TOGGLE "power_toggle"
  else if equals cmd "power_level" then
    sendCmd IR_POWER_LEVEL "power_level"
  else if equals cmd "oscillation_toggle" then
    sendCmd IR_OSCILLATION_TOGGLE "oscillation_toggle"
  else if equals cmd "sleep_timer" then
    sendCmd IR_SLEEP_TIMER "sleep_timer"
  else if equals cmd "temp_mode" then
    sendCmd IR_TEMP_MODE "temp_mode"
  else if equals cmd "temp_up" then
    sendCmd IR_TEMP_UP "temp_up"
  else if equals cmd "temp_down" then
    sendCmd IR_TEMP_DOWN "temp_down"
  else if equals cmd "restore_state" then
    restoreTo45AndOff "mqtt" (MANUAL_DELAY_MS cfg)
  else
    (publishStatus "error:unknown_cmd" true ;;
     Serial_println "error:unknown_cmd").

Definition mqttCallback (topic : string) (payload : list Byte.byte) : M unit :=
  let msg := string_of_payload payload in
  let msg := trim msg in
  let msg := toLowerCase msg in
  handleCommand msg.

(** [mqtt.loop()]: hands the next inbound message, when there is one, to the
    callback registered in [setup]. *)
Definition mqtt_loop : M unit :=
  emit EMqttLoop ;;
  q <- read_hw inbox ;;
  match q with
  | [] => ret tt
  | payload :: rest =>
      write_hw (set_inbox rest) ;;
      topic <- read_gv mqttTopicCmd ;;
      mqttCallback topic payload
  end.

(** *** Button polling *)

Definition pollRestoreButton : M unit :=
  cur <- digitalRead_btn ;;
  last <- read_gv lastBtnState ;;
  now <- millis ;;
  changed_at <- read_gv lastBtnChangeMs ;;
  when (negb (Bool.eqb cur last) && (wrap32 (now - changed_at) >? DEBOUNCE_MS))
    (now' <- millis ;;
     write_gv (set_button cur now') ;;
     when (Bool.eqb cur LOW)
       (publishStatus "button:restore_pressed" true ;;
        Serial_println "button:restore_pressed" ;;
        restoreTo45AndOff "button" (MANUAL_DELAY_MS cfg))).

(** *** WiFi / MQTT (non-blocking reconnect) *)

Definition ensureWiFiNonBlocking : M unit :=
  up <- WiFi_connected ;;
  if up then ret tt else
  now <- millis ;;
  last <- read_gv lastWifiAttemptMs ;;
  if wrap32 (now - last) <? WIFI_RETRY_MS then ret tt else
  write_gv (set_lastWifiAttemptMs now) ;;
  Serial_print "WiFi: connecting to " ;;
  Serial_println (WIFI_SSID cfg) ;;
  emit EWifiMode ;;
  emit (EWifiBegin (WIFI_SSID cfg) (WIFI_PASS cfg)).

Definition ensureMQTTNonBlocking : M unit :=
  up <- WiFi_connected ;;
  if negb up then ret tt else
  c <- mqtt_connected_ ;;
  if c then ret tt else
  now <- millis ;;
  last <- read_gv lastMqttAttemptMs ;;
  if wrap32 (now - last) <? MQTT_RETRY_MS then ret tt else
  write_gv (set_lastMqttAttemptMs now) ;;
  Serial_print "MQTT: connecting to " ;;
  Serial_print (MQTT_HOST cfg) ;;
  Serial_print ":" ;;
  Serial_println (dec (MQTT_PORT cfg)) ;;
  mac <- read_hw efuse_mac ;;
  let clientId := "esp32-ir-" +++ hex (wrap32 mac) in
  availTopic <- read_gv mqttTopicAvail ;;
  ok <- mqtt_connect clientId (MQTT_USER cfg) (MQTT_PASS cfg) availTopic 0 true
          AVAIL_OFFLINE ;;
  if ok then
    Serial_println "MQTT: connected" ;;
    cmdTopic <- read_gv mqttTopicCmd ;;
    mqtt_subscribe cmdTopic ;;
    setAvailability AVAIL_ONLINE ;;
    publishStatus "online" true ;;
    write_gv (set_discoveryPublished false)
  else
    Serial_print "MQTT: FAILED, state=" ;;
    st <- read_hw mqtt_state ;;
    Serial_println (dec st).

(** *** Arduino lifecycle *)

Definition setup : M unit :=
  emit (ESerialBegin 115200) ;;
  delay 200 ;;
  Serial_println EmptyString ;;
  Serial_println "SETUP: start" ;;
  buildMqttTopics ;;
  tc <- read_gv mqttTopicCmd ;;
  ts <- read_gv mqttTopicStatus ;;
  ta <- read_gv mqttTopicAvail ;;
  Serial_print "MQTT topics: " ;;
  Serial_print tc ;;
  Serial_print " | " ;;
  Serial_print ts ;;
  Serial_print " | " ;;
  Serial_println ta ;;
  emit (EPinMode (PIN_BTN_RESTORE cfg)) ;;
  emit EIrBegin ;;
  emit (EMqttSetServer (MQTT_HOST cfg) (MQTT_PORT cfg)) ;;
  emit EMqttSetCallback ;;
  emit (EMqttSetBufferSize 2048) ;;
  r <- read_hw reset_reason ;;
  Serial_print "boot:reset_reason:" ;;
  Serial_println (resetReasonToString r) ;;
  when (shouldRunRestoreOnBoot r)
    (now <- millis ;;
     write_gv (set_bootRestore true (wrap32 (now + BOOT_DELAY_MS cfg))) ;;
     Serial_print "boot:powerloss restore scheduled at +ms=" ;;
     Serial_println (dec (BOOT_DELAY_MS cfg))) ;;
  ensureWiFiNonBlocking.

(** The alive log of [loop] (every 10 seconds). *)
Definition loop_alive : M unit :=
  now <- millis ;;
  t <- read_gv tAlive ;;
  when (wrap32 (now - t) >? 10000)
    (now' <- millis ;;
     write_gv (set_tAlive now') ;;
     Serial_print "LOOP: alive | WiFi=" ;;
     up <- WiFi_connected ;;
     Serial_print (if up then "OK" else "NO") ;;
     Serial_print " | MQTT=" ;;
     c <- mqtt_connected_ ;;
     Serial_println (if c then "OK" else "NO")).

(** Start OTA once WiFi is connected, then service it. *)
Definition loop_ota : M unit :=
  up <- WiFi_connected ;;
  started <- read_gv otaStarted ;;
  when (up && negb started)
    (write_gv (set_otaStarted true) ;;
     Serial_print "WiFi: OK, IP=" ;;
     ip <- read_hw wifi_ip ;;
     Serial_println ip ;;
     Serial_print "WiFi gateway: " ;;
     gw <- read_hw wifi_gateway ;;
     Serial_println gw ;;
     Serial_print "WiFi RSSI: " ;;
     rssi <- read_hw wifi_rssi ;;
     Serial_println (dec rssi) ;;
     setupOTA) ;;
  started' <- read_gv otaStarted ;;
  when started' ArduinoOTA_handle.

(** Publish HA discovery once per session (retained). *)
Definition loop_discovery : M unit :=
  published <- read_gv discoveryPublished ;;
  when (negb published)
    (publishAllDiscovery ;;
     write_gv (set_discoveryPublished true) ;;
     r <- read_hw reset_reason ;;
     publishStatus ("boot:reset_reason:" +++ resetReasonToString r) true ;;
     publishStatus "ready" true).

(** The [if (mqtt.connected())] block of [loop]: session upkeep, then the
    discovery publication. *)
Definition loop_session : M unit :=
  c <- mqtt_connected_ ;;
  when c (mqtt_loop ;; loop_discovery).

(** Run the scheduled macro after the power-loss delay. *)
Definition loop_bootRestore : M unit :=
  scheduled <- read_gv bootRestoreScheduled ;;
  now <- millis ;;
  fire_at <- read_gv bootRestoreAtMs ;;
  when (scheduled && (now >=? fire_at))
    (write_gv (fun g => set_bootRestore false (bootRestoreAtMs g) g) ;;
     c <- mqtt_connected_ ;;
     when c (publishStatus "boot:powerloss_restore:run" true) ;;
     restoreTo45AndOff "boot_powerloss" 0).

Definition loop : M unit :=
  loop_alive ;;
  ensureWiFiNonBlocking ;;
  loop_ota ;;
  ensureMQTTNonBlocking ;;
  loop_session ;;
  loop_bootRestore ;;
  pollRestoreButton ;;
  delay 1.

(* ------------------------------------------------------------------ *)
(** ** The environment between two passes of [loop] *)

Record Stimulus : Type := mkStimulus {
  s_elapsed : N;                      (* time gone by since the last pass *)
  s_wifi : bool;                      (* the link is up *)
  s_session_lost : bool;              (* the session was closed *)
  s_broker_accepts : bool;
  s_publish_ok : bool;
  s_btn : bool;                       (* level of the button pin *)
  s_arrivals : list (list Byte.byte); (* messages received *)
  s_ota : option ota_event
}.

Definition apply_stimulus (s : Stimulus) (p : Platform) : Platform :=
  mkPlatform (clock p + Z.of_N (s_elapsed s)) (s_wifi s)
    (mqtt_connected p && negb (s_session_lost s)) (s_btn s)
    (s_broker_accepts s) (s_publish_ok s) (inbox p ++ s_arrivals s)
    (s_ota s) (reset_reason p) (wifi_ip p) (wifi_gateway p) (wifi_rssi p)
    (mqtt_state p) (efuse_mac p).

(** One pass of the supervisor, after the environment has moved. *)
Definition pass (s : Stimulus) : M unit :=
  write_hw (apply_stimulus s) ;; loop.

(** The device after [setup], through the passes the stimuli drive. *)
Fixpoint passes (ss : list Stimulus) : M unit :=
  match ss with
  | [] => ret tt
  | s :: ss' => pass s ;; passes ss'
  end.

Definition boot (ss : list Stimulus) : M unit := setup ;; passes ss.

End Sketch.

(** The world at power-up: the clock at zero, no link, no session. *)
Definition power_up (reason : esp_reset_reason_t) : World :=
  mkWorld
    (mkPlatform 0 false false HIGH false true [] None reason
       "0.0.0.0" "0.0.0.0" 0 (-1) 0)
    initial_globals.

(* ------------------------------------------------------------------ *)
(** ** Expected traces, written out *)

(** What [publishStatus msg] sends in world [w]: one retained message on the
    status topic while the session is up, nothing otherwise. *)
Definition status_event (w : World) (msg : string) : list Event :=
  if mqtt_connected (hw w)
  then [EMqttPublish (mqttTopicStatus (gv w)) msg true]
  else [].

(** One invocation of the transmitter: the code twice, 50 ms apart. *)
Definition transmit_trace (code : Z) : list Event :=
  [EIrSendNEC code 32; EDelay 50; EIrSendNEC code 32; EYield].

(** One labelled invocation: transmit, gap, status, log. *)
Definition labelled_trace (cfg : Config) (w : World) (code : Z) (tag : string)
  : list Event :=
  transmit_trace code ++ [EDelay (IR_GAP_MS cfg)] ++
  status_event w ("sent:" +++ tag) ++
  [EPrintln ("IR sent: " +++ tag); EYield; EDelay 1].

(** The delays of one labelled invocation, added up. *)
Definition labelled_ms (cfg : Config) : Z := 50 + IR_GAP_MS cfg + 1.

(** The number of 5 ms rounds [waitMsWithYield ms] makes. *)
Definition wait_rounds (ms : Z) : nat := Z.to_nat ((ms + 4) / 5).

Definition wait_trace (ms : Z) : list Event :=
  List.concat (repeat [EDelay 5; EYield] (wait_rounds ms)).

(** The whole macro, for trigger [tag] and pre-delay [pre]. *)
Definition macro_trace (cfg : Config) (w : World) (tag : string) (pre : Z)
  : list Event :=
  status_event w ("restore:start:" +++ tag) ++
  [EPrintln ("restore:start:" +++ tag)] ++
  wait_trace pre ++
  labelled_trace cfg w IR_POWER_TOGGLE "power_toggle_on" ++
  labelled_trace cfg w IR_TEMP_MODE "temp_mode" ++
  List.concat
    (repeat (labelled_trace cfg w IR_TEMP_UP "temp_up" ++ [EYield; EDelay 1])
       (Z.to_nat (TEMP_STEPS_TO_45 cfg))) ++
  labelled_trace cfg w IR_POWER_TOGGLE "power_toggle_off" ++
  status_event w ("restore:done:" +++ tag) ++
  [EPrintln ("restore:done:" +++ tag)].

(** The delays of one run of the macro, added up. *)
Definition macro_ms (cfg : Config) (pre : Z) : Z :=
  5 * Z.of_nat (wait_rounds pre) +
  labelled_ms cfg * 2 +
  (labelled_ms cfg + 1) * Z.of_nat (Z.to_nat (TEMP_STEPS_TO_45 cfg)) +
  labelled_ms cfg.

(** The IR codes of a trace, in the order they are sent. *)
Fixpoint ir_codes (evs : list Event) : list Z :=
  match evs with
  | [] => []
  | EIrSendNEC code _ :: r => code :: ir_codes r
  | _ :: r => ir_codes r
  end.

(** The payloads published on topic [t], in order. *)
Fixpoint published_on (t : string) (evs : list Event) : list string :=
  match evs with
  | [] => []
  | EMqttPublish topic payload _ :: r =>
      if String.eqb topic t then payload :: published_on t r
      else published_on t r
  | _ :: r => published_on t r
  end.

(** The number of [mqtt.publish] calls in a trace. *)
Fixpoint publish_count (evs : list Event) : nat :=
  match evs with
  | [] => O
  | EMqttPublish _ _ _ :: r => S (publish_count r)
  | _ :: r => publish_count r
  end.

(** The configuration keeps [waitMsWithYield] within its fuel: the manual
    pre-delay is a [uint32_t] that does not wrap within one 5 ms round. *)
Definition wf_config (cfg : Config) : Prop :=
  0 <= MANUAL_DELAY_MS cfg <= 2 ^ 32 - 5.

(** The documented mapping of the single-code commands: token, IR code. *)
Definition command_table : list (string * Z) :=
  [ ("power_toggle"%string, IR_POWER_TOGGLE);
    ("power_level"%string, IR_POWER_LEVEL);
    ("oscillation_toggle"%string, IR_OSCILLATION_TOGGLE);
    ("sleep_timer"%string, IR_SLEEP_TIMER);
    ("temp_mode"%string, IR_TEMP_MODE);
    ("temp_up"%string, IR_TEMP_UP);
    ("temp_down"%string, IR_TEMP_DOWN) ].

(** The recognized command set. *)
Definition recognized : list string :=
  map fst command_table ++ ["restore_state"%string].

(** The echo of the command on the serial log. *)
Definition echo_trace (cmd : string) : list Event :=
  [EPrint "MQTT cmd: "; EPrintln cmd].

(** White space only. *)
Fixpoint all_space (s : string) : bool :=
  match s with
  | EmptyString => true
  | String c r => isspace c && all_space r
  end.

(** No white space at all. *)
Fixpoint no_space (s : string) : bool :=
  match s with
  | EmptyString => true
  | String c r => negb (isspace c) && no_space r
  end.


(** The text [handleCommand] receives for a payload. *)
Definition normalize (payload : list Byte.byte) : string :=
  toLowerCase (trim (string_of_payload payload)).

(** Each code of a list sent twice in a row, as the transmitter does. *)
Definition twice (codes : list Z) : list Z :=
  flat_map (fun c => [c; c]) codes.

(** The codes of the macro, one per transmitter invocation. *)
Definition macro_codes (cfg : Config) : list Z :=
  [IR_POWER_TOGGLE; IR_TEMP_MODE] ++
  repeat IR_TEMP_UP (Z.to_nat (TEMP_STEPS_TO_45 cfg)) ++
  [IR_POWER_TOGGLE].

(** The status tokens of the macro for trigger [tag]. *)
Definition macro_status (cfg : Config) (tag : string) : list string :=
  ["restore:start:" +++ tag; "sent:power_toggle_on"; "sent:temp_mode"]%string
  ++ repeat "sent:temp_up"%string (Z.to_nat (TEMP_STEPS_TO_45 cfg)) ++
  ["sent:power_toggle_off"; "restore:done:" +++ tag]%string.

(** A run with the events [es] put in front of its trace. *)
Definition prefix {A : Type} (es : list Event)
    (r : option (A * World * list Event)) : option (A * World * list Event) :=
  match r with
  | Some (a, w, e) => Some (a, w, es ++ e)
  | None => None
  end.

(** *** Connectivity *)

(** A link connection attempt is due: not connected, and the cooldown since
    the last attempt is over. *)
Definition wifi_due (w : World) : bool :=
  negb (wifi_connected (hw w)) &&
  negb (wrap32 (wrap32 (clock (hw w)) - lastWifiAttemptMs (gv w))
        <? WIFI_RETRY_MS).

Definition wifi_attempt_trace (cfg : Config) : list Event :=
  [EPrint "WiFi: connecting to "; EPrintln (WIFI_SSID cfg); EWifiMode;
   EWifiBegin (WIFI_SSID cfg) (WIFI_PASS cfg)].

(** A session connection attempt is due: the link is up, the session is not,
    and the cooldown since the last attempt is over. *)
Definition mqtt_due (w : World) : bool :=
  wifi_connected (hw w) && negb (mqtt_connected (hw w)) &&
  negb (wrap32 (wrap32 (clock (hw w)) - lastMqttAttemptMs (gv w))
        <? MQTT_RETRY_MS).

(** The connection request, with the last will on the availability topic. *)
Definition connect_event (cfg : Config) (w : World) : Event :=
  EMqttConnect ("esp32-ir-" +++ hex (wrap32 (efuse_mac (hw w))))
    (MQTT_USER cfg) (MQTT_PASS cfg) (mqttTopicAvail (gv w)) 0 true
    AVAIL_OFFLINE.

Definition mqtt_attempt_trace (cfg : Config) (w : World) : list Event :=
  [EPrint "MQTT: connecting to "; EPrint (MQTT_HOST cfg); EPrint ":";
   EPrintln (dec (MQTT_PORT cfg)); connect_event cfg w] ++
  (if broker_accepts (hw w)
   then [EPrintln "MQTT: connected";
         EMqttSubscribe (mqttTopicCmd (gv w));
         EMqttPublish (mqttTopicAvail (gv w)) AVAIL_ONLINE true;
         EMqttPublish (mqttTopicStatus (gv w)) "online" true]
   else [EPrint "MQTT: FAILED, state="; EPrintln (dec (mqtt_state (hw w)))]).

(** The world after a session connection attempt. *)
Definition after_mqtt_attempt (w : World) : World :=
  let ok := broker_accepts (hw w) in
  let w1 :=
    on_hw (set_mqtt_connected ok)
      (on_gv (set_lastMqttAttemptMs (wrap32 (clock (hw w)))) w) in
  if ok then on_gv (set_discoveryPublished false) w1 else w1.

(** Time going by, nothing else. *)
Definition idle (ms : Z) : M unit := fun w => Some (tt, later ms w, []).

(** The connection requests of a trace. *)
Fixpoint connect_attempts (evs : list Event) : nat :=
  match evs with
  | [] => O
  | EMqttConnect _ _ _ _ _ _ _ :: r => S (connect_attempts r)
  | _ :: r => connect_attempts r
  end.

Fixpoint wifi_attempts (evs : list Event) : nat :=
  match evs with
  | [] => O
  | EWifiBegin _ _ :: r => S (wifi_attempts r)
  | _ :: r => wifi_attempts r
  end.

(** *** Button *)

(** The poll accepts the level it reads: it differs from the last accepted
    level, and more than [DEBOUNCE_MS] have gone by since that one was
    accepted. *)
Definition button_accepts (w : World) : bool :=
  negb (Bool.eqb (btn_pin (hw w)) (lastBtnState (gv w))) &&
  (wrap32 (wrap32 (clock (hw w)) - lastBtnChangeMs (gv w)) >? DEBOUNCE_MS).

(** The world with the accepted level recorded. *)
Definition button_recorded (w : World) : World :=
  on_gv (set_button (btn_pin (hw w)) (wrap32 (clock (hw w)))) w.

(** *** Boot trigger *)

Definition boot_due (w : World) : bool :=
  bootRestoreScheduled (gv w) &&
  (wrap32 (clock (hw w)) >=? bootRestoreAtMs (gv w)).

(** The world with the trigger cleared. *)
Definition boot_cleared (w : World) : World :=
  on_gv (fun g => set_bootRestore false (bootRestoreAtMs g) g) w.

(** *** Startup *)

(** The world [setup] leaves. *)
Definition after_setup (cfg : Config) (w : World) : World :=
  let base := "hvac/" +++ DEVICE_AREA cfg +++ "/" +++ DEVICE_NAME_MQTT cfg in
  let w1 :=
    on_gv (set_topics (base +++ "/command") (base +++ "/status")
             (base +++ "/availability"))
      (later 200 w) in
  let w2 :=
    if shouldRunRestoreOnBoot (reset_reason (hw w))
    then on_gv (set_bootRestore true
                  (wrap32 (wrap32 (clock (hw w) + 200) + BOOT_DELAY_MS cfg)))
           w1
    else w1 in
  if wifi_due w2
  then on_gv (set_lastWifiAttemptMs (wrap32 (clock (hw w) + 200))) w2
  else w2.

(* ------------------------------------------------------------------ *)
(** ** Trace monitors

    A monitor reads a trace event by event and refuses ([None]) the traces
    that break the property it watches. *)

Fixpoint monitor {S : Type} (step : S -> Event -> option S) (s : S)
    (evs : list Event) : option S :=
  match evs with
  | [] => Some s
  | e :: r =>
      match step s e with
      | Some s' => monitor step s' r
      | None => None
      end
  end.

(** [m] keeps the monitor going and the relation [R] between the monitor and
    the world, whenever it returns. *)
Definition respects {S A : Type} (step : S -> Event -> option S)
    (R : S -> World -> Prop) (m : M A) : Prop :=
  forall (s : S) (w w' : World) (a : A) (evs : list Event),
    R s w -> m w = Some (a, w', evs) ->
    exists s', monitor step s evs = Some s' /\ R s' w'.

(** Events that are neither a publication nor a subscription. *)
Definition quiet (e : Event) : bool :=
  match e with
  | EMqttPublish _ _ _ | EMqttSubscribe _ => false
  | _ => true
  end.

(** [m] returns from every world. *)
Definition terminates {A : Type} (m : M A) : Prop :=
  forall w : World, exists a w' evs, m w = Some (a, w', evs).

(* ------------------------------------------------------------------ *)
(** ** The discovery set *)

Definition sensor_config_topic : string :=
  "homeassistant/sensor/olimpia_ir_status_01/config".

Definition button_config_topic (object_id : string) : string :=
  "homeassistant/button/" +++ object_id +++ "/config".

(** What [mqttPublish topic payload] does in world [w]: the publication, and
    the log of its failure when the platform reports one. *)
Definition config_publish (w : World) (topic payload : string) : list Event :=
  EMqttPublish topic payload true ::
  (if mqtt_connected (hw w) && publish_ok (hw w) then []
   else [EPrint "MQTT publish FAILED topic="; EPrint topic; EPrint " len=";
         EPrintln (dec (Z.of_nat (String.length payload)))]).

Definition button_publish (w : World) (object_id name payload_press : string)
  : list Event :=
  config_publish w (button_config_topic object_id)
    (buttonDiscoveryJson (mqttTopicCmd (gv w)) (mqttTopicAvail (gv w))
       object_id name payload_press).

(** The full discovery set: the status sensor, the eight buttons, then the
    status token and the log line. *)
Definition discovery_trace (w : World) : list Event :=
  config_publish w sensor_config_topic
    (statusSensorDiscoveryJson (mqttTopicStatus (gv w))
       (mqttTopicAvail (gv w)) "olimpia_ir_status_01") ++
  button_publish w "ir_btn_power_toggle_01" "IR Power Toggle" "power_toggle" ++
  button_publish w "ir_btn_power_level_01" "IR Power Level" "power_level" ++
  button_publish w "ir_btn_osc_toggle_01" "IR Oscillation Toggle"
    "oscillation_toggle" ++
  button_publish w "ir_btn_sleep_timer_01" "IR Sleep Timer" "sleep_timer" ++
  button_publish w "ir_btn_temp_mode_01" "IR Temp Mode" "temp_mode" ++
  button_publish w "ir_btn_temp_up_01" "IR Temp Up" "temp_up" ++
  button_publish w "ir_btn_temp_down_01" "IR Temp Down" "temp_down" ++
  button_publish w "ir_btn_restore_45_off_01" "Restore 45C + OFF"
    "restore_state" ++
  status_event w "discovery:published" ++
  [EPrintln "HA discovery published (retained)."].

(** The discovery block of a pass in which it publishes. *)
Definition discovery_block_trace (w : World) : list Event :=
  discovery_trace w ++
  status_event w
    ("boot:reset_reason:" +++ resetReasonToString (reset_reason (hw w))) ++
  status_event w "ready".

(** The topics as [buildMqttTopics] sets them. *)
Definition topics_built (cfg : Config) (g : Globals) : Prop :=
  let base := "hvac/" +++ DEVICE_AREA cfg +++ "/" +++ DEVICE_NAME_MQTT cfg in
  mqttTopicCmd g = base +++ "/command" /\
  mqttTopicStatus g = base +++ "/status" /\
  mqttTopicAvail g = base +++ "/availability".

(** The session monitor.  Its state says whether the discovery set has been
    published in the current session.  The subscription to the command topic,
    which the sketch makes exactly when a connection has just succeeded, opens
    a new session; the first message of the discovery set is refused when the
    set has already been published in the session. *)
Definition session_step (published : bool) (e : Event) : option bool :=
  match e with
  | EMqttSubscribe _ => Some false
  | EMqttPublish topic _ _ =>
      if String.eqb topic sensor_config_topic
      then if published then None else Some true
      else Some published
  | _ => Some published
  end.

Definition session_rel (cfg : Config) (published : bool) (w : World) : Prop :=
  published = discoveryPublished (gv w) /\ topics_built cfg (gv w).

(** The boot-status monitor: it refuses the publication of the two status
    tokens that only the boot run of the macro produces. *)
Definition not_boot_status (msg : string) : bool :=
  negb (String.eqb msg "restore:start:boot_powerloss") &&
  negb (String.eqb msg "restore:done:boot_powerloss").

Definition boot_status_step (s : unit) (e : Event) : option unit :=
  match e with
  | EMqttPublish _ payload _ =>
      if not_boot_status payload then Some s else None
  | _ => Some s
  end.

Definition trigger_off (_ : unit) (w : World) : Prop :=
  bootRestoreScheduled (gv w) = false.

(** The frame monitor: it accepts everything; its relation fixes the boot
    trigger. *)
Definition any_step (s : unit) (_ : Event) : option unit := Some s.

Definition trigger_is (scheduled : bool) (fire_at : Z) (_ : unit) (w : World)
  : Prop :=
  bootRestoreScheduled (gv w) = scheduled /\ bootRestoreAtMs (gv w) = fire_at.

(** The relation of the frame monitor that fixes the discovery flag. *)
Definition discovery_flag_is (published : bool) (_ : unit) (w : World)
  : Prop :=
  discoveryPublished (gv w) = published.

(** *** One pass, around the test of the boot trigger *)

Definition before_boot_check (cfg : Config) (s : Stimulus) : M unit :=
  write_hw (apply_stimulus s) ;;
  loop_alive ;;
  ensureWiFiNonBlocking cfg ;;
  loop_ota cfg ;;
  ensureMQTTNonBlocking cfg ;;
  loop_session cfg.

Definition after_boot_check (cfg : Config) : M unit :=
  pollRestoreButton cfg ;; delay 1.

(** The number of passes of a run in which the boot trigger fires. *)
Fixpoint boot_firings (cfg : Config) (ss : list Stimulus) (w : World) : nat :=
  match ss with
  | [] => O
  | s :: ss' =>
      match before_boot_check cfg s w with
      | None => O
      | Some (_, wc, _) =>
          ((if boot_due wc then 1 else 0) +
           match (loop_bootRestore cfg ;; after_boot_check cfg) wc with
           | None => O
           | Some (_, w', _) => boot_firings cfg ss' w'
           end)%nat
      end
  end.

(** *** Stimuli and worlds of the examples *)

(** The link and the broker are up, the button released, nothing received. *)
Definition link_and_broker_up (elapsed : N) : Stimulus :=
  mkStimulus elapsed true false true true HIGH [] None.

(** Nothing is reachable. *)
Definition nothing_up (elapsed : N) : Stimulus :=
  mkStimulus elapsed false false false true HIGH [] None.

(** The device just after [setup], following a software reset. *)
Definition after_soft_reset : World :=
  after_setup shipped_config (power_up ESP_RST_SW).

(** The device just after [setup], following a brownout. *)
Definition after_brownout : World :=
  after_setup shipped_config (power_up ESP_RST_BROWNOUT).

(** The button held down, nothing reachable. *)
Definition button_pressed (elapsed : N) : Stimulus :=
  mkStimulus elapsed false false false true LOW [] None.

(** The link is up, the broker refuses. *)
Definition broker_down (elapsed : N) : Stimulus :=
  mkStimulus elapsed true false false true HIGH [] None.

(** What a pass sees after stimulus [s]. *)
Definition seen_after (s : Stimulus) (w : World) : World :=
  on_hw (apply_stimulus s) w.

(** One second after power-up, at the first poll that reads the pin pressed
    (the poll one millisecond before read it released). *)
Definition glitch_at_1000 : World :=
  seen_after (button_pressed 800) after_soft_reset.

(** Five seconds after power-up: the link is up, the broker refuses. *)
Definition broker_down_at_5000 : World :=
  seen_after (broker_down 4800) after_soft_reset.

(** Five seconds after power-up, the session established and the discovery
    set published. *)
Definition session_up : World :=
  on_gv (set_discoveryPublished true)
    (after_mqtt_attempt
       (seen_after (link_and_broker_up 4800) after_soft_reset)).

(** The brownout scenario: passes at 15199 ms, at 15200 ms (the fire-at time,
    [setup] having armed the trigger at 200 ms) and one second later. *)
Definition brownout_scenario : list Stimulus :=
  [nothing_up 14999; nothing_up 0; nothing_up 1000].
(* ------------------------------------------------------------------ *)
(** ** The other blocks of the sketch, written out *)

(** *** The alive log of [loop] *)

(** The alive log is due: more than 10 seconds since the last one. *)
Definition alive_due (w : World) : bool :=
  wrap32 (wrap32 (clock (hw w)) - tAlive (gv w)) >? 10000.

Definition alive_trace (w : World) : list Event :=
  [EPrint "LOOP: alive | WiFi=";
   EPrint (if wifi_connected (hw w) then "OK" else "NO");
   EPrint " | MQTT=";
   EPrintln (if mqtt_connected (hw w) then "OK" else "NO")].

(** *** The OTA block of [loop] *)

(** OTA is to be started: the link is up and OTA has not been started. *)
Definition ota_due (w : World) : bool :=
  wifi_connected (hw w) && negb (otaStarted (gv w)).

Definition ota_start_trace (cfg : Config) (w : World) : list Event :=
  [EPrint "WiFi: OK, IP="; EPrintln (wifi_ip (hw w));
   EPrint "WiFi gateway: "; EPrintln (wifi_gateway (hw w));
   EPrint "WiFi RSSI: "; EPrintln (dec (wifi_rssi (hw w)));
   EOtaSetHostname (OTA_HOSTNAME cfg); EOtaSetPassword (OTA_PASSWORD cfg);
   EOtaBegin; EPrintln "OTA: ready"].

(** The status token of what an over-the-air session reports. *)
Definition ota_token (ev : ota_event) : string :=
  match ev with
  | OtaStart => "ota:start"
  | OtaEnd => "ota:end"
  | OtaError error => "ota:error:" +++ dec error
  end.

Definition ota_log (ev : ota_event) : Event :=
  match ev with
  | OtaStart => EPrintln "OTA: start"
  | OtaEnd => EPrintln "OTA: end"
  | OtaError error => EPrint ("OTA: error[" +++ dec error +++ "]" +++ newline)
  end.

(** One call of [ArduinoOTA.handle()] in world [w]. *)
Definition ota_handle_trace (w : World) : list Event :=
  EOtaHandle ::
  match ota_pending (hw w) with
  | None => []
  | Some ev => ota_log ev :: status_event w (ota_token ev)
  end.

(** The world with the pending report, if any, consumed. *)
Definition ota_serviced (w : World) : World :=
  match ota_pending (hw w) with
  | None => w
  | Some _ => on_hw (set_ota_pending None) w
  end.

(** The calls of [ArduinoOTA.begin] in a trace. *)
Fixpoint ota_begins (evs : list Event) : nat :=
  match evs with
  | [] => O
  | EOtaBegin :: r => S (ota_begins r)
  | _ :: r => ota_begins r
  end.

(** The OTA monitor.  Its state says whether OTA has been started.  It
    refuses a second start, a configuration call after the start, and a
    service call before the start. *)
Definition ota_step (started : bool) (e : Event) : option bool :=
  match e with
  | EOtaSetHostname _ | EOtaSetPassword _ =>
      if started then None else Some started
  | EOtaBegin => if started then None else Some true
  | EOtaHandle => if started then Some started else None
  | _ => Some started
  end.

Definition ota_rel (started : bool) (w : World) : Prop :=
  started = otaStarted (gv w).

(** *** Topics *)

Definition topic_base (cfg : Config) : string :=
  "hvac/" +++ DEVICE_AREA cfg +++ "/" +++ DEVICE_NAME_MQTT cfg.

Definition command_topic (cfg : Config) : string :=
  topic_base cfg +++ "/command".

Definition status_topic (cfg : Config) : string :=
  topic_base cfg +++ "/status".

Definition availability_topic (cfg : Config) : string :=
  topic_base cfg +++ "/availability".

(** The buttons [publishAllDiscovery] announces: object id, name, and the
    payload a press sends to the command topic. *)
Definition discovery_buttons : list (string * string * string) :=
  [ ("ir_btn_power_toggle_01", "IR Power Toggle", "power_toggle");
    ("ir_btn_power_level_01", "IR Power Level", "power_level");
    ("ir_btn_osc_toggle_01", "IR Oscillation Toggle", "oscillation_toggle");
    ("ir_btn_sleep_timer_01", "IR Sleep Timer", "sleep_timer");
    ("ir_btn_temp_mode_01", "IR Temp Mode", "temp_mode");
    ("ir_btn_temp_up_01", "IR Temp Up", "temp_up");
    ("ir_btn_temp_down_01", "IR Temp Down", "temp_down");
    ("ir_btn_restore_45_off_01", "Restore 45C + OFF", "restore_state")
  ]%string.

Definition button_id (b : string * string * string) : string := fst (fst b).
Definition button_name (b : string * string * string) : string :=
  snd (fst b).
Definition button_press (b : string * string * string) : string := snd b.

(** The topics the device publishes on. *)
Definition publish_topics (cfg : Config) : list string :=
  [status_topic cfg; availability_topic cfg; sensor_config_topic] ++
  map (fun b => button_config_topic (button_id b)) discovery_buttons.

(** The MQTT monitor.  It refuses a publication that is not retained or not
    on one of [publish_topics], a publication on the availability topic of
    anything but [online], a subscription to another topic than the command
    topic, and a connection request whose last will is not the retained
    [offline] on the availability topic. *)
Definition mqtt_step (cfg : Config) (s : unit) (e : Event) : option unit :=
  match e with
  | EMqttPublish topic payload retain =>
      if retain && existsb (String.eqb topic) (publish_topics cfg) &&
         (negb (String.eqb topic (availability_topic cfg)) ||
          String.eqb payload AVAIL_ONLINE)
      then Some s else None
  | EMqttSubscribe topic =>
      if String.eqb topic (command_topic cfg) then Some s else None
  | EMqttConnect _ _ _ willTopic willQos willRetain willMessage =>
      if String.eqb willTopic (availability_topic cfg) && (willQos =? 0) &&
         willRetain && String.eqb willMessage AVAIL_OFFLINE
      then Some s else None
  | _ => Some s
  end.

Definition topics_rel (cfg : Config) (_ : unit) (w : World) : Prop :=
  topics_built cfg (gv w).

(** *** The device at rest *)

(** The monitor that refuses every IR transmission. *)
Definition no_ir_step (s : unit) (e : Event) : option unit :=
  match e with
  | EIrSendNEC _ _ => None
  | _ => Some s
  end.

(** Nothing asks for a transmission: the boot trigger is off, the button is
    released and was last seen released, and no message waits. *)
Definition at_rest (_ : unit) (w : World) : Prop :=
  bootRestoreScheduled (gv w) = false /\
  lastBtnState (gv w) = HIGH /\
  btn_pin (hw w) = HIGH /\
  inbox (hw w) = [].

(** The environment leaves the button released and delivers no message. *)
Definition calm_stimulus (s : Stimulus) : bool :=
  Bool.eqb (s_btn s) HIGH &&
  match s_arrivals s with [] => true | _ => false end.

(** *** Discovery messages *)

(** The size of the text parts of a discovery message. *)
Definition message_size (topic payload : string) : Z :=
  Z.of_nat (String.length topic) + Z.of_nat (String.length payload).

(** The status sensor message: topic and payload. *)
Definition sensor_message (w : World) : string * string :=
  (sensor_config_topic,
   statusSensorDiscoveryJson (mqttTopicStatus (gv w)) (mqttTopicAvail (gv w))
     "olimpia_ir_status_01").

(** The message that announces button [b]. *)
Definition button_message (w : World) (b : string * string * string)
  : string * string :=
  (button_config_topic (button_id b),
   buttonDiscoveryJson (mqttTopicCmd (gv w)) (mqttTopicAvail (gv w))
     (button_id b) (button_name b) (button_press b)).

(** The nine messages of the discovery set, in the order they are sent. *)
Definition discovery_messages (w : World) : list (string * string) :=
  sensor_message w :: map (button_message w) discovery_buttons.

(** The [command_topic] and [payload_press] members of a button's JSON. *)
Definition press_members (cmdTopic payload_press : string) : string :=
  quoted "command_topic" +++ ":" +++ quoted cmdTopic +++ "," +++
  quoted "payload_press" +++ ":" +++ quoted payload_press +++ ",".

(** *** Startup, written out *)

(** The calls [setup] makes, from world [w]. *)
Definition setup_trace (cfg : Config) (w : World) : list Event :=
  [ESerialBegin 115200; EDelay 200; EPrintln EmptyString;
   EPrintln "SETUP: start";
   EPrint "MQTT topics: "; EPrint (command_topic cfg); EPrint " | ";
   EPrint (status_topic cfg); EPrint " | ";
   EPrintln (availability_topic cfg);
   EPinMode (PIN_BTN_RESTORE cfg); EIrBegin;
   EMqttSetServer (MQTT_HOST cfg) (MQTT_PORT cfg); EMqttSetCallback;
   EMqttSetBufferSize 2048;
   EPrint "boot:reset_reason:";
   EPrintln (resetReasonToString (reset_reason (hw w)))] ++
  (if shouldRunRestoreOnBoot (reset_reason (hw w))
   then [EPrint "boot:powerloss restore scheduled at +ms=";
         EPrintln (dec (BOOT_DELAY_MS cfg))]
   else []) ++
  (if wifi_due (later 200 w) then wifi_attempt_trace cfg else []).

(** *** One pass, around the OTA block *)

Definition before_ota (cfg : Config) (s : Stimulus) : M unit :=
  write_hw (apply_stimulus s) ;;
  loop_alive ;;
  ensureWiFiNonBlocking cfg.

Definition after_ota (cfg : Config) : M unit :=
  ensureMQTTNonBlocking cfg ;;
  loop_session cfg ;;
  loop_bootRestore cfg ;;
  pollRestoreButton cfg ;;
  delay 1.

(** The relation of the frame monitor that fixes the OTA flag and the state
    of the link. *)
Definition ota_frame (started link : bool) (_ : unit) (w : World) : Prop :=
  otaStarted (gv w) = started /\ wifi_connected (hw w) = link.

(** *** Service calls *)

(** The calls of [mqtt.loop] and of [ArduinoOTA.handle] in a trace. *)
Fixpoint service_calls (evs : list Event) : nat :=
  match evs with
  | [] => O
  | EMqttLoop :: r | EOtaHandle :: r => S (service_calls r)
  | _ :: r => service_calls r
  end.

(** The failures [mqttPublish] logs in a trace. *)
Fixpoint publish_failures (evs : list Event) : nat :=
  match evs with
  | [] => O
  | EPrint s :: r =>
      if String.eqb s "MQTT publish FAILED topic="
      then S (publish_failures r) else publish_failures r
  | _ :: r => publish_failures r
  end.

(** The session is up, the discovery set is to be published, and the client
    refuses every publication. *)
Definition publish_refused : World :=
  on_gv (set_discoveryPublished false)
    (seen_after (mkStimulus 1000 true false true false HIGH [] None)
       session_up).

(** *** The status vocabulary *)

Definition reset_reason_texts : list string :=
  ["POWERON"; "BROWNOUT"; "EXT_RESET(EN)"; "SW_RESET"; "PANIC"; "INT_WDT";
   "TASK_WDT"; "OTHER_WDT"; "DEEPSLEEP"; "UNKNOWN"]%string.

(** The tags of the labelled transmissions. *)
Definition sent_tags : list string :=
  ["power_toggle"; "power_level"; "oscillation_toggle"; "sleep_timer";
   "temp_mode"; "temp_up"; "temp_down"; "power_toggle_on";
   "power_toggle_off"]%string.

(** The trigger tags of the macro. *)
Definition macro_tags : list string :=
  ["mqtt"; "button"; "boot_powerloss"]%string.

(** The status tokens the sketch can build, those of an OTA error apart. *)
Definition status_tokens : list string :=
  (["online"; "discovery:published"; "ready"; "error:unknown_cmd";
    "button:restore_pressed"; "boot:powerloss_restore:run";
    "ota:start"; "ota:end"]%string ++
   map (String.append "sent:") sent_tags ++
   map (String.append "restore:start:") macro_tags ++
   map (String.append "restore:done:") macro_tags ++
   map (String.append "boot:reset_reason:") reset_reason_texts).

(** [s] starts with [p]. *)
Fixpoint starts_with (p s : string) : bool :=
  match p with
  | EmptyString => true
  | String a p' =>
      match s with
      | EmptyString => false
      | String b s' => Ascii.eqb a b && starts_with p' s'
      end
  end.

(** A status token of the sketch: one of [status_tokens], or [ota:error:]
    followed by the error code. *)
Definition status_token (msg : string) : bool :=
  existsb (String.eqb msg) status_tokens || starts_with "ota:error:" msg.

(** The vocabulary monitor: it refuses a publication on the status topic of
    anything but a status token. *)
Definition vocabulary_step (cfg : Config) (s : unit) (e : Event)
  : option unit :=
  match e with
  | EMqttPublish topic payload _ =>
      if String.eqb topic (status_topic cfg) && negb (status_token payload)
      then None else Some s
  | _ => Some s
  end.

(** The members of a discovery payload that every entity shares: the
    availability topic with its two payloads. *)
Definition availability_members (availTopic : string) : string :=
  quoted "availability_topic" +++ ":" +++ quoted availTopic +++ "," +++
  quoted "payload_available" +++ ":" +++ quoted AVAIL_ONLINE +++ "," +++
  quoted "payload_not_available" +++ ":" +++ quoted AVAIL_OFFLINE +++ ",".

(** The end of a discovery payload: the object id as unique id, then the
    device block. *)
Definition identity_members (object_id : string) : string :=
  quoted "unique_id" +++ ":" +++ quoted object_id +++ "," +++
  quoted "device" +++ ":" +++ deviceBlockJson +++ "}".

(** *** Delays and the dispatcher, written out *)

(** The arguments of the [delay] calls of a trace, added up. *)
Fixpoint delay_total (evs : list Event) : Z :=
  match evs with
  | [] => 0
  | EDelay ms :: r => ms + delay_total r
  | _ :: r => delay_total r
  end.

(** The IR code of a single-code token. *)
Definition command_code (key : string) : option Z :=
  match find (fun entry => String.eqb (fst entry) key) command_table with
  | Some entry => Some (snd entry)
  | None => None
  end.
(* ------------------------------------------------------------------ *)
(** ** Basic facts *)

Lemma wrap32_range (x : Z) : 0 <= wrap32 x < 2 ^ 32.
Proof. unfold wrap32. apply Z.mod_pos_bound. lia. Qed.

Lemma wrap32_small (x : Z) : 0 <= x < 2 ^ 32 -> wrap32 x = x.
Proof. intros H. unfold wrap32. apply Z.mod_small. exact H. Qed.

Lemma wrap32_elapsed (c d : Z) :
  wrap32 (wrap32 (c + d) - wrap32 c) = wrap32 d.
Proof.
  unfold wrap32.
  rewrite Zminus_mod_idemp_l, Zminus_mod_idemp_r.
  f_equal. lia.
Qed.

Lemma later_later (a b : Z) (w : World) :
  later a (later b w) = later (b + a) w.
Proof.
  unfold later, on_hw, set_clock. cbn. f_equal. f_equal. lia.
Qed.

Lemma later_0 (w : World) : later 0 w = w.
Proof.
  destruct w as [p g]. destruct p. unfold later, on_hw, set_clock. cbn.
  rewrite Z.add_0_r. reflexivity.
Qed.

Lemma status_event_later (d : Z) (w : World) (msg : string) :
  status_event (later d w) msg = status_event w msg.
Proof. reflexivity. Qed.

Lemma bind_run {A B : Type} (m : M A) (k : A -> M B) (w w1 : World) (a : A)
    (e1 : list Event) :
  m w = Some (a, w1, e1) ->
  bind m k w =
  match k a w1 with
  | None => None
  | Some (b, w2, e2) => Some (b, w2, e1 ++ e2)
  end.
Proof. intros H. unfold bind. rewrite H. reflexivity. Qed.

Lemma publishStatus_run (msg : string) (w : World) :
  publishStatus msg true w = Some (tt, w, status_event w msg).
Proof.
  unfold publishStatus, status_event, bind, mqtt_connected_, read_hw, when.
  destruct (mqtt_connected (hw w)); reflexivity.
Qed.

Lemma sendNEC_run (code : Z) (w : World) :
  sendNEC code w = Some (tt, later 50 w, transmit_trace code).
Proof. reflexivity. Qed.

Lemma delay_run (ms : Z) (w : World) :
  delay ms w = Some (tt, later ms w, [EDelay ms]).
Proof. reflexivity. Qed.

Lemma emit_run (e : Event) (w : World) : emit e w = Some (tt, w, [e]).
Proof. reflexivity. Qed.

Lemma run_eq (a b : Z) (w : World) (e1 e2 : list Event) :
  a = b -> e1 = e2 ->
  @Some (unit * World * list Event) (tt, later a w, e1) =
  Some (tt, later b w, e2).
Proof. intros -> ->. reflexivity. Qed.

(** Rewrite the first action of a sequence with its run lemma. *)
Ltac run_with H := rewrite (bind_run _ _ _ _ _ _ H); cbv beta iota.

Lemma sendCmd_run (cfg : Config) (code : Z) (tag : string) (w : World) :
  sendCmd cfg code tag w =
  Some (tt, later (labelled_ms cfg) w, labelled_trace cfg w code tag).
Proof.
  unfold sendCmd.
  run_with (sendNEC_run code w).
  run_with (delay_run (IR_GAP_MS cfg) (later 50 w)).
  run_with (publishStatus_run ("sent:" +++ tag)
              (later (IR_GAP_MS cfg) (later 50 w))).
  unfold Serial_println, yield.
  run_with (emit_run (EPrintln ("IR sent: " +++ tag))
              (later (IR_GAP_MS cfg) (later 50 w))).
  run_with (emit_run EYield (later (IR_GAP_MS cfg) (later 50 w))).
  rewrite delay_run, !later_later.
  unfold labelled_ms, labelled_trace. rewrite !status_event_later.
  apply run_eq; [lia | reflexivity].
Qed.

Lemma millis_run (w : World) :
  millis w = Some (wrap32 (clock (hw w)), w, []).
Proof. reflexivity. Qed.

Lemma millis_later (d : Z) (w : World) :
  millis (later d w) = Some (wrap32 (clock (hw w) + d), later d w, []).
Proof. reflexivity. Qed.

Lemma wait_rounds_bounds (ms : Z) :
  0 <= ms ->
  ms <= 5 * Z.of_nat (wait_rounds ms) < ms + 5.
Proof.
  intros H. unfold wait_rounds.
  rewrite Z2Nat.id by (apply Z.div_pos; lia).
  pose proof (Z.div_mod (ms + 4) 5 ltac:(lia)) as E.
  pose proof (Z.mod_pos_bound (ms + 4) 5 ltac:(lia)) as B.
  lia.
Qed.

(** The [while] loop of [waitMsWithYield], [k] rounds from its end. *)
Lemma waitLoop_run (ms : Z) (w : World) :
  0 <= ms <= 2 ^ 32 - 5 ->
  forall (k fuel : nat) (i : Z),
    0 <= i ->
    Z.of_nat k + i = Z.of_nat (wait_rounds ms) ->
    (k < fuel)%nat ->
    waitLoop fuel (wrap32 (clock (hw w))) ms (later (5 * i) w) =
    Some (tt, later (5 * Z.of_nat (wait_rounds ms)) w,
          List.concat (repeat [EDelay 5; EYield] k)).
Proof.
  intros Hms. pose proof (wait_rounds_bounds ms ltac:(lia)) as Hn.
  induction k as [|k IH]; intros fuel i Hi Hk Hfuel;
    (destruct fuel as [|fuel]; [lia|]); cbn [waitLoop].
  - run_with (millis_later (5 * i) w).
    rewrite wrap32_elapsed, (wrap32_small (5 * i)) by lia.
    replace (5 * i <? ms) with false by (symmetry; apply Z.ltb_ge; lia).
    unfold ret. apply run_eq; [lia | reflexivity].
  - run_with (millis_later (5 * i) w).
    rewrite wrap32_elapsed, (wrap32_small (5 * i)) by lia.
    replace (5 * i <? ms) with true by (symmetry; apply Z.ltb_lt; lia).
    run_with (delay_run 5 (later (5 * i) w)).
    unfold yield. run_with (emit_run EYield (later 5 (later (5 * i) w))).
    rewrite later_later.
    replace (5 * i + 5) with (5 * (i + 1)) by lia.
    rewrite (IH fuel (i + 1)) by lia.
    reflexivity.
Qed.

Lemma waitMsWithYield_run (ms : Z) (w : World) :
  0 <= ms <= 2 ^ 32 - 5 ->
  waitMsWithYield ms w =
  Some (tt, later (5 * Z.of_nat (wait_rounds ms)) w, wait_trace ms).
Proof.
  intros Hms. unfold waitMsWithYield.
  run_with (millis_run w).
  pose proof (wait_rounds_bounds ms ltac:(lia)) as Hn.
  pose proof (waitLoop_run ms w Hms (wait_rounds ms)
                (Z.to_nat (ms / 5) + 2) 0) as H.
  rewrite Z.mul_0_r, later_0 in H. rewrite H; [reflexivity|lia|lia|].
  apply Nat2Z.inj_lt.
  rewrite Nat2Z.inj_add, Z2Nat.id by (apply Z.div_pos; lia).
  pose proof (Z.div_mod ms 5 ltac:(lia)) as E.
  pose proof (Z.mod_pos_bound ms 5 ltac:(lia)) as B.
  lia.
Qed.

(** A [for] loop whose body takes [d] ms and emits the same events each
    round. *)
Lemma repeatM_run (body : M unit) (d : Z) (ev : list Event) (w : World) :
  (forall x, body (later x w) = Some (tt, later (x + d) w, ev)) ->
  forall (n : nat) (x : Z),
    repeatM n body (later x w) =
    Some (tt, later (x + d * Z.of_nat n) w, List.concat (repeat ev n)).
Proof.
  intros Hbody. induction n as [|n IH]; intros x.
  - cbn [repeatM repeat List.concat]. unfold ret.
    apply run_eq; [lia | reflexivity].
  - cbn [repeatM repeat List.concat].
    run_with (Hbody x). rewrite IH.
    apply run_eq; [lia | reflexivity].
Qed.

Lemma println_run (s : string) (w : World) :
  Serial_println s w = Some (tt, w, [EPrintln s]).
Proof. reflexivity. Qed.

Lemma print_run (s : string) (w : World) :
  Serial_print s w = Some (tt, w, [EPrint s]).
Proof. reflexivity. Qed.

Lemma sendCmd_later (cfg : Config) (code : Z) (tag : string) (x : Z)
    (w : World) :
  sendCmd cfg code tag (later x w) =
  Some (tt, later (x + labelled_ms cfg) w, labelled_trace cfg w code tag).
Proof. rewrite sendCmd_run, later_later. reflexivity. Qed.

Lemma pre_delay_run (pre : Z) (w : World) :
  0 <= pre <= 2 ^ 32 - 5 ->
  when (pre >? 0) (waitMsWithYield pre) w =
  Some (tt, later (5 * Z.of_nat (wait_rounds pre)) w, wait_trace pre).
Proof.
  intros H. destruct (pre >? 0) eqn:E; cbn [when].
  - apply waitMsWithYield_run. exact H.
  - assert (pre = 0) as -> by lia.
    unfold ret. rewrite <- (later_0 w) at 1. reflexivity.
Qed.

(** The macro, run: its trace and its duration. *)
Lemma restoreTo45AndOff_run (cfg : Config) (tag : string) (pre : Z)
    (w : World) :
  0 <= pre <= 2 ^ 32 - 5 ->
  restoreTo45AndOff cfg tag pre w =
  Some (tt, later (macro_ms cfg pre) w, macro_trace cfg w tag pre).
Proof.
  intros Hpre. unfold restoreTo45AndOff.
  run_with (publishStatus_run ("restore:start:" +++ tag) w).
  run_with (println_run ("restore:start:" +++ tag) w).
  run_with (pre_delay_run pre w Hpre).
  set (x0 := 5 * Z.of_nat (wait_rounds pre)).
  run_with (sendCmd_later cfg IR_POWER_TOGGLE "power_toggle_on" x0 w).
  run_with (sendCmd_later cfg IR_TEMP_MODE "temp_mode"
              (x0 + labelled_ms cfg) w).
  assert (Hbody : forall x,
             (sendCmd cfg IR_TEMP_UP "temp_up" ;; yield ;; delay 1)
               (later x w) =
             Some (tt, later (x + (labelled_ms cfg + 1)) w,
                   labelled_trace cfg w IR_TEMP_UP "temp_up" ++
                   [EYield; EDelay 1])).
  { intros x.
    run_with (sendCmd_later cfg IR_TEMP_UP "temp_up" x w).
    unfold yield.
    run_with (emit_run EYield (later (x + labelled_ms cfg) w)).
    rewrite delay_run, later_later.
    apply run_eq; [lia | reflexivity]. }
  run_with (repeatM_run _ _ _ w Hbody (Z.to_nat (TEMP_STEPS_TO_45 cfg))
              (x0 + labelled_ms cfg + labelled_ms cfg)).
  set (x1 := x0 + labelled_ms cfg + labelled_ms cfg +
             (labelled_ms cfg + 1) *
             Z.of_nat (Z.to_nat (TEMP_STEPS_TO_45 cfg))).
  run_with (sendCmd_later cfg IR_POWER_TOGGLE "power_toggle_off" x1 w).
  run_with (publishStatus_run ("restore:done:" +++ tag)
              (later (x1 + labelled_ms cfg) w)).
  rewrite println_run.
  rewrite status_event_later.
  apply run_eq.
  - unfold macro_ms, x1, x0. lia.
  - unfold macro_trace. rewrite <- ?app_assoc. reflexivity.
Qed.

(* ------------------------------------------------------------------ *)
(** ** Stepping through a sequence *)

Lemma prefix_Some {A : Type} (es : list Event) (a : A) (w : World)
    (e : list Event) :
  prefix es (Some (a, w, e)) = Some (a, w, es ++ e).
Proof. reflexivity. Qed.

Lemma prefix_nil {A : Type} (r : option (A * World * list Event)) :
  prefix [] r = r.
Proof. destruct r as [[[a w] e]|]; reflexivity. Qed.

Lemma prefix_prefix {A : Type} (e1 e2 : list Event)
    (r : option (A * World * list Event)) :
  prefix e1 (prefix e2 r) = prefix (e1 ++ e2) r.
Proof.
  destruct r as [[[a w] e]|]; [|reflexivity].
  cbn [prefix]. rewrite app_assoc. reflexivity.
Qed.

Lemma bind_known {A B : Type} (m : M A) (k : A -> M B) (w w1 : World) (a : A)
    (e1 : list Event) :
  m w = Some (a, w1, e1) -> bind m k w = prefix e1 (k a w1).
Proof. intros H. unfold bind. rewrite H. reflexivity. Qed.

Lemma bind_assoc {A B C : Type} (m : M A) (k1 : A -> M B) (k2 : B -> M C)
    (w : World) :
  bind (bind m k1) k2 w = bind m (fun a => bind (k1 a) k2) w.
Proof.
  unfold bind. destruct (m w) as [[[a w1] e1]|]; [|reflexivity].
  destruct (k1 a w1) as [[[b w2] e2]|]; [|reflexivity].
  destruct (k2 b w2) as [[[c w3] e3]|]; [|reflexivity].
  rewrite app_assoc. reflexivity.
Qed.

Lemma bind_cong {A B : Type} (m : M A) (k1 k2 : A -> M B) (w : World) :
  (forall a w1, k1 a w1 = k2 a w1) -> bind m k1 w = bind m k2 w.
Proof.
  intros H. unfold bind. destruct (m w) as [[[a w1] e1]|]; [|reflexivity].
  rewrite H. reflexivity.
Qed.

Lemma bind_ret {A B : Type} (a : A) (k : A -> M B) (w : World) :
  bind (ret a) k w = k a w.
Proof. unfold bind, ret. destruct (k a w) as [[[b w2] e2]|]; reflexivity. Qed.

Lemma bind_emit {B : Type} (e : Event) (k : unit -> M B) (w : World) :
  bind (emit e) k w = prefix [e] (k tt w).
Proof. reflexivity. Qed.

Lemma bind_print {B : Type} (s : string) (k : unit -> M B) (w : World) :
  bind (Serial_print s) k w = prefix [EPrint s] (k tt w).
Proof. reflexivity. Qed.

Lemma bind_println {B : Type} (s : string) (k : unit -> M B) (w : World) :
  bind (Serial_println s) k w = prefix [EPrintln s] (k tt w).
Proof. reflexivity. Qed.

Lemma bind_yield {B : Type} (k : unit -> M B) (w : World) :
  bind yield k w = prefix [EYield] (k tt w).
Proof. reflexivity. Qed.

Lemma bind_delay {B : Type} (ms : Z) (k : unit -> M B) (w : World) :
  bind (delay ms) k w = prefix [EDelay ms] (k tt (later ms w)).
Proof. reflexivity. Qed.

Lemma bind_read_gv {A B : Type} (f : Globals -> A) (k : A -> M B)
    (w : World) :
  bind (read_gv f) k w = k (f (gv w)) w.
Proof. apply (bind_ret (f (gv w)) k w). Qed.

Lemma bind_read_hw {A B : Type} (f : Platform -> A) (k : A -> M B)
    (w : World) :
  bind (read_hw f) k w = k (f (hw w)) w.
Proof. apply (bind_ret (f (hw w)) k w). Qed.

Lemma bind_millis {B : Type} (k : Z -> M B) (w : World) :
  bind millis k w = k (wrap32 (clock (hw w))) w.
Proof. apply (bind_ret (wrap32 (clock (hw w))) k w). Qed.

Lemma bind_write_gv {B : Type} (f : Globals -> Globals) (k : unit -> M B)
    (w : World) :
  bind (write_gv f) k w = k tt (on_gv f w).
Proof.
  unfold bind, write_gv.
  destruct (k tt (on_gv f w)) as [[[b w2] e2]|]; reflexivity.
Qed.

Lemma bind_write_hw {B : Type} (f : Platform -> Platform) (k : unit -> M B)
    (w : World) :
  bind (write_hw f) k w = k tt (on_hw f w).
Proof.
  unfold bind, write_hw.
  destruct (k tt (on_hw f w)) as [[[b w2] e2]|]; reflexivity.
Qed.

Lemma bind_publishStatus {B : Type} (msg : string) (k : unit -> M B)
    (w : World) :
  bind (publishStatus msg true) k w = prefix (status_event w msg) (k tt w).
Proof. apply bind_known, publishStatus_run. Qed.

Lemma bind_sendCmd {B : Type} (cfg : Config) (code : Z) (tag : string)
    (k : unit -> M B) (w : World) :
  bind (sendCmd cfg code tag) k w =
  prefix (labelled_trace cfg w code tag) (k tt (later (labelled_ms cfg) w)).
Proof. apply bind_known, sendCmd_run. Qed.

Lemma bind_when_true {B : Type} (m : M unit) (k : unit -> M B) (w : World) :
  bind (when true m) k w = bind m k w.
Proof. reflexivity. Qed.

Lemma bind_when_false {B : Type} (m : M unit) (k : unit -> M B) (w : World) :
  bind (when false m) k w = k tt w.
Proof. apply (bind_ret tt k w). Qed.

Lemma ret_run {A : Type} (a : A) (w : World) : ret a w = Some (a, w, []).
Proof. reflexivity. Qed.

Create Rewrite HintDb mrun.

#[local] Hint Rewrite
  @bind_assoc @bind_ret @bind_emit @bind_print @bind_println @bind_yield
  @bind_delay @bind_read_gv @bind_read_hw @bind_millis @bind_write_gv
  @bind_write_hw @bind_publishStatus @bind_sendCmd @bind_when_true
  @bind_when_false @prefix_prefix @prefix_Some @prefix_nil @ret_run
  : mrun.

(** Run a straight-line sequence: expose its last action, step through it. *)
Ltac mrun := autorewrite with mrun.

(* ------------------------------------------------------------------ *)
(** ** The command dispatcher *)

(** A literal of the sketch holds no NUL character. *)
Lemma c_str_recognized (token : string) :
  In token recognized -> c_str token = token.
Proof.
  unfold recognized, command_table. cbn [map fst app In]. intros H.
  repeat (destruct H as [<-|H]; [reflexivity|]). contradiction.
Qed.


(** The comparison with a literal, on a text that reads as [key]. *)
Lemma equals_cut (cmd key lit : string) :
  c_str cmd = key -> c_str lit = lit ->
  equals cmd lit = String.eqb key lit.
Proof. intros Hc Hl. unfold equals. rewrite Hc, Hl. reflexivity. Qed.

(** A text that reads, as a C string, as one of the single-code tokens is
    dispatched as that token; the echo shows the whole text. *)
Lemma handleCommand_cut (cfg : Config) (cmd token : string) (code : Z)
    (w : World) :
  c_str cmd = token ->
  In (token, code) command_table ->
  handleCommand cfg cmd w =
  Some (tt, later (labelled_ms cfg) w,
        echo_trace cmd ++ labelled_trace cfg w code token).
Proof.
  intros Hc Hin. unfold command_table in Hin. cbn [In] in Hin.
  unfold handleCommand.
  run_with (print_run "MQTT cmd: " w).
  run_with (println_run cmd w).
  repeat (destruct Hin as [Hin|Hin];
          [injection Hin as <- <-;
           rewrite !(equals_cut cmd _ _ Hc eq_refl);
           cbn [String.eqb Ascii.eqb Bool.eqb];
           rewrite sendCmd_run; reflexivity|]).
  contradiction.
Qed.

Lemma handleCommand_single (cfg : Config) (token : string) (code : Z)
    (w : World) :
  In (token, code) command_table ->
  handleCommand cfg token w =
  Some (tt, later (labelled_ms cfg) w,
        echo_trace token ++ labelled_trace cfg w code token).
Proof.
  intros Hin. apply handleCommand_cut; [|exact Hin].
  apply c_str_recognized. unfold recognized. apply in_or_app. left.
  apply (in_map fst _ _ Hin).
Qed.

(** A text that reads as [restore_state] runs the macro. *)
Lemma handleCommand_cut_restore (cfg : Config) (cmd : string) (w : World) :
  wf_config cfg ->
  c_str cmd = "restore_state"%string ->
  handleCommand cfg cmd w =
  Some (tt, later (macro_ms cfg (MANUAL_DELAY_MS cfg)) w,
        echo_trace cmd ++ macro_trace cfg w "mqtt" (MANUAL_DELAY_MS cfg)).
Proof.
  intros Hwf Hc. unfold handleCommand.
  run_with (print_run "MQTT cmd: " w).
  run_with (println_run cmd w).
  rewrite !(equals_cut cmd _ _ Hc eq_refl).
  cbn [String.eqb Ascii.eqb Bool.eqb].
  rewrite (restoreTo45AndOff_run cfg "mqtt" _ w Hwf). reflexivity.
Qed.

Lemma handleCommand_restore (cfg : Config) (w : World) :
  wf_config cfg ->
  handleCommand cfg "restore_state" w =
  Some (tt, later (macro_ms cfg (MANUAL_DELAY_MS cfg)) w,
        echo_trace "restore_state" ++
        macro_trace cfg w "mqtt" (MANUAL_DELAY_MS cfg)).
Proof.
  intros Hwf. apply handleCommand_cut_restore; [exact Hwf|reflexivity].
Qed.

(** A text that reads as none of the recognized tokens. *)
Lemma handleCommand_unknown (cfg : Config) (cmd : string) (w : World) :
  ~ In (c_str cmd) recognized ->
  handleCommand cfg cmd w =
  Some (tt, w,
        echo_trace cmd ++ status_event w "error:unknown_cmd" ++
        [EPrintln "error:unknown_cmd"]).
Proof.
  intros Hnot. unfold handleCommand.
  run_with (print_run "MQTT cmd: " w).
  run_with (println_run cmd w).
  rewrite !(equals_cut cmd _ _ eq_refl eq_refl).
  repeat match goal with
         | |- context [String.eqb (c_str cmd) ?t] =>
             destruct (String.eqb_spec (c_str cmd) t) as [E|_];
             [exfalso; apply Hnot; rewrite E; cbn; tauto|]
         end.
  run_with (publishStatus_run "error:unknown_cmd" w).
  rewrite println_run. reflexivity.
Qed.

(** *** Normalisation of inbound payloads *)

Lemma isspace_tolower (c : ascii) : isspace (tolower c) = isspace c.
Proof.
  destruct c as [b0 b1 b2 b3 b4 b5 b6 b7].
  destruct b0, b1, b2, b3, b4, b5, b6, b7; reflexivity.
Qed.

Lemma no_space_toLowerCase (s : string) :
  no_space (toLowerCase s) = no_space s.
Proof.
  induction s as [|c s IH]; cbn [toLowerCase no_space].
  - reflexivity.
  - destruct (Ascii.eqb c Ascii.zero); cbn [no_space]; [reflexivity|].
    rewrite isspace_tolower, IH. reflexivity.
Qed.

Lemma skip_leading_space_pad (l s : string) :
  all_space l = true ->
  skip_leading_space (l +++ s) = skip_leading_space s.
Proof.
  induction l as [|c l IH]; cbn [all_space String.append skip_leading_space].
  - reflexivity.
  - intros H. apply andb_prop in H as [Hc Hl]. rewrite Hc. auto.
Qed.

Lemma skip_leading_space_all (r : string) :
  all_space r = true -> skip_leading_space r = EmptyString.
Proof.
  induction r as [|c r IH]; cbn [all_space skip_leading_space].
  - reflexivity.
  - intros H. apply andb_prop in H as [Hc Hr]. rewrite Hc. auto.
Qed.

Lemma drop_trailing_space_all (r : string) :
  all_space r = true -> drop_trailing_space r = EmptyString.
Proof.
  induction r as [|c r IH]; cbn [all_space drop_trailing_space].
  - reflexivity.
  - intros H. apply andb_prop in H as [Hc Hr]. rewrite (IH Hr), Hc.
    reflexivity.
Qed.

Lemma drop_trailing_space_pad (s r : string) :
  all_space r = true ->
  drop_trailing_space (s +++ r) = drop_trailing_space s.
Proof.
  intros Hr. induction s as [|c s IH]; cbn [String.append drop_trailing_space].
  - apply drop_trailing_space_all. exact Hr.
  - rewrite IH. reflexivity.
Qed.

Lemma drop_trailing_space_none (s : string) :
  no_space s = true -> drop_trailing_space s = s.
Proof.
  induction s as [|c s IH]; cbn [no_space drop_trailing_space].
  - reflexivity.
  - intros H. apply andb_prop in H as [Hc Hs]. rewrite (IH Hs).
    apply negb_true_iff in Hc. rewrite Hc. destruct s; reflexivity.
Qed.

Lemma trim_padded (l body r : string) :
  all_space l = true -> all_space r = true -> no_space body = true ->
  trim (l +++ body +++ r) = body.
Proof.
  intros Hl Hr Hb. unfold trim. rewrite skip_leading_space_pad by exact Hl.
  destruct body as [|c b].
  - cbn [String.append]. rewrite skip_leading_space_all by exact Hr.
    reflexivity.
  - cbn [no_space] in Hb. apply andb_prop in Hb as [Hc Hb'].
    apply negb_true_iff in Hc.
    cbn [String.append skip_leading_space]. rewrite Hc.
    change (String c (b +++ r)) with (String c b +++ r).
    rewrite drop_trailing_space_pad by exact Hr.
    apply drop_trailing_space_none. cbn [no_space]. rewrite Hc, Hb'.
    reflexivity.
Qed.

(** A padded, mixed-case spelling of a token without white space is
    normalised to the token. *)
Lemma normalize_padded (payload : list Byte.byte) (l body r token : string) :
  string_of_payload payload = l +++ body +++ r ->
  all_space l = true -> all_space r = true ->
  no_space token = true ->
  toLowerCase body = token ->
  normalize payload = token.
Proof.
  intros Hp Hl Hr Ht Hb. unfold normalize. rewrite Hp.
  rewrite trim_padded; auto.
  rewrite <- no_space_toLowerCase, Hb. exact Ht.
Qed.

Lemma mqttCallback_normalizes (cfg : Config) (topic : string)
    (payload : list Byte.byte) :
  mqttCallback cfg topic payload = handleCommand cfg (normalize payload).
Proof. reflexivity. Qed.

(* ------------------------------------------------------------------ *)
(** ** Projections of traces *)

Lemma ir_codes_app (a b : list Event) :
  ir_codes (a ++ b) = ir_codes a ++ ir_codes b.
Proof.
  induction a as [|e a IH]; [reflexivity|].
  destruct e; cbn [app ir_codes]; rewrite IH; reflexivity.
Qed.

Lemma ir_codes_rounds (ev : list Event) (n : nat) :
  ir_codes (List.concat (repeat ev n)) =
  List.concat (repeat (ir_codes ev) n).
Proof.
  induction n as [|n IH]; [reflexivity|].
  cbn [repeat List.concat]. rewrite ir_codes_app, IH. reflexivity.
Qed.

Lemma ir_codes_status (w : World) (msg : string) :
  ir_codes (status_event w msg) = [].
Proof. unfold status_event. destruct (mqtt_connected (hw w)); reflexivity. Qed.

Lemma ir_codes_labelled (cfg : Config) (w : World) (code : Z) (tag : string) :
  ir_codes (labelled_trace cfg w code tag) = [code; code].
Proof.
  unfold labelled_trace. rewrite !ir_codes_app, ir_codes_status. reflexivity.
Qed.

Lemma concat_repeat_nil {A : Type} (n : nat) :
  List.concat (repeat (@nil A) n) = [].
Proof. induction n as [|n IH]; [reflexivity|exact IH]. Qed.

Lemma twice_app (a b : list Z) : twice (a ++ b) = twice a ++ twice b.
Proof. apply flat_map_app. Qed.

Lemma twice_repeat (c : Z) (n : nat) :
  twice (repeat c n) = List.concat (repeat [c; c] n).
Proof.
  induction n as [|n IH]; [reflexivity|].
  cbn [repeat List.concat]. rewrite <- IH. reflexivity.
Qed.

Lemma ir_codes_macro (cfg : Config) (w : World) (tag : string) (pre : Z) :
  ir_codes (macro_trace cfg w tag pre) = twice (macro_codes cfg).
Proof.
  unfold macro_trace, macro_codes, wait_trace.
  rewrite !ir_codes_app, !ir_codes_rounds, !ir_codes_app, !ir_codes_status,
    !ir_codes_labelled, !twice_app, twice_repeat.
  cbn [ir_codes]. rewrite concat_repeat_nil. reflexivity.
Qed.

Lemma published_on_app (t : string) (a b : list Event) :
  published_on t (a ++ b) = published_on t a ++ published_on t b.
Proof.
  induction a as [|e a IH]; [reflexivity|].
  destruct e; cbn [app published_on]; rewrite ?IH; try reflexivity.
  destruct (String.eqb topic t); rewrite ?IH; reflexivity.
Qed.

Lemma published_on_rounds (t : string) (ev : list Event) (n : nat) :
  published_on t (List.concat (repeat ev n)) =
  List.concat (repeat (published_on t ev) n).
Proof.
  induction n as [|n IH]; [reflexivity|].
  cbn [repeat List.concat]. rewrite published_on_app, IH. reflexivity.
Qed.

Lemma published_on_status (w : World) (msg : string) :
  published_on (mqttTopicStatus (gv w)) (status_event w msg) =
  if mqtt_connected (hw w) then [msg] else [].
Proof.
  unfold status_event. destruct (mqtt_connected (hw w)); [|reflexivity].
  cbn [published_on]. rewrite String.eqb_refl. reflexivity.
Qed.

Lemma published_on_labelled (cfg : Config) (w : World) (code : Z)
    (tag : string) :
  published_on (mqttTopicStatus (gv w)) (labelled_trace cfg w code tag) =
  if mqtt_connected (hw w) then ["sent:" +++ tag] else [].
Proof.
  unfold labelled_trace.
  rewrite !published_on_app, published_on_status.
  cbn [published_on transmit_trace app]. rewrite app_nil_r. reflexivity.
Qed.

Lemma concat_repeat_single {A : Type} (x : A) (n : nat) :
  List.concat (repeat [x] n) = repeat x n.
Proof.
  induction n as [|n IH]; [reflexivity|].
  cbn [repeat List.concat app]. rewrite IH. reflexivity.
Qed.

Lemma published_on_macro (cfg : Config) (w : World) (tag : string) (pre : Z) :
  published_on (mqttTopicStatus (gv w)) (macro_trace cfg w tag pre) =
  if mqtt_connected (hw w) then macro_status cfg tag else [].
Proof.
  unfold macro_trace, macro_status, wait_trace.
  rewrite !published_on_app, !published_on_rounds, !published_on_app,
    !published_on_status, !published_on_labelled.
  cbn [published_on]. rewrite concat_repeat_nil.
  destruct (mqtt_connected (hw w)); cbn [app].
  - rewrite concat_repeat_single. reflexivity.
  - rewrite concat_repeat_nil. reflexivity.
Qed.

(* ------------------------------------------------------------------ *)
(** ** Connectivity, button and boot trigger, run *)

Lemma write_gv_run (f : Globals -> Globals) (w : World) :
  write_gv f w = Some (tt, on_gv f w, []).
Proof. reflexivity. Qed.

Lemma yield_run (w : World) : yield w = Some (tt, w, [EYield]).
Proof. reflexivity. Qed.

Lemma bind_mqtt_connect {B : Type} (c u p t : string) (q : Z) (r : bool)
    (m : string) (k : bool -> M B) (w : World) :
  bind (mqtt_connect c u p t q r m) k w =
  prefix [EMqttConnect c u p t q r m]
    (k (broker_accepts (hw w))
       (on_hw (set_mqtt_connected (broker_accepts (hw w))) w)).
Proof. reflexivity. Qed.

Lemma bind_subscribe {B : Type} (t : string) (k : unit -> M B) (w : World) :
  bind (mqtt_subscribe t) k w = prefix [EMqttSubscribe t] (k tt w).
Proof. reflexivity. Qed.

Lemma bind_setAvailability {B : Type} (state : string) (k : unit -> M B)
    (w : World) :
  bind (setAvailability state) k w =
  prefix (if mqtt_connected (hw w)
          then [EMqttPublish (mqttTopicAvail (gv w)) state true] else [])
    (k tt w).
Proof.
  apply bind_known. unfold setAvailability, bind, mqtt_connected_, read_hw.
  destruct (mqtt_connected (hw w)); reflexivity.
Qed.

#[local] Hint Rewrite
  emit_run print_run println_run delay_run yield_run write_gv_run
  publishStatus_run sendCmd_run
  @bind_mqtt_connect @bind_subscribe @bind_setAvailability : mrun.

Lemma ensureWiFiNonBlocking_run (cfg : Config) (w : World) :
  ensureWiFiNonBlocking cfg w =
  if wifi_due w
  then Some (tt, on_gv (set_lastWifiAttemptMs (wrap32 (clock (hw w)))) w,
             wifi_attempt_trace cfg)
  else Some (tt, w, []).
Proof.
  unfold ensureWiFiNonBlocking, wifi_due, WiFi_connected. mrun.
  destruct (wifi_connected (hw w)); cbn [negb andb]; [reflexivity|].
  mrun. destruct (_ <? _); cbn [negb]; [reflexivity|].
  mrun. reflexivity.
Qed.

Lemma ensureMQTTNonBlocking_run (cfg : Config) (w : World) :
  ensureMQTTNonBlocking cfg w =
  if mqtt_due w
  then Some (tt, after_mqtt_attempt w, mqtt_attempt_trace cfg w)
  else Some (tt, w, []).
Proof.
  unfold ensureMQTTNonBlocking, mqtt_due, WiFi_connected, mqtt_connected_.
  mrun.
  destruct (wifi_connected (hw w)); cbn [negb andb]; [|reflexivity].
  mrun. destruct (mqtt_connected (hw w)); cbn [negb andb]; [reflexivity|].
  mrun. destruct (_ <? _); cbn [negb]; [reflexivity|].
  mrun. unfold after_mqtt_attempt, mqtt_attempt_trace, connect_event.
  cbn [hw gv on_gv on_hw].
  destruct (broker_accepts (hw w)); mrun; reflexivity.
Qed.

Lemma macro_zero_ok : 0 <= 0 <= 2 ^ 32 - 5.
Proof. vm_compute. split; discriminate. Qed.

Lemma pollRestoreButton_run (cfg : Config) (w : World) :
  wf_config cfg ->
  pollRestoreButton cfg w =
  if button_accepts w
  then if btn_pin (hw w)
       then Some (tt, button_recorded w, [])
       else Some (tt, later (macro_ms cfg (MANUAL_DELAY_MS cfg))
                        (button_recorded w),
                  status_event w "button:restore_pressed" ++
                  [EPrintln "button:restore_pressed"] ++
                  macro_trace cfg w "button" (MANUAL_DELAY_MS cfg))
  else Some (tt, w, []).
Proof.
  intros Hwf. unfold pollRestoreButton, button_accepts, digitalRead_btn.
  mrun. destruct (_ && _); cbn [when]; [|reflexivity].
  mrun. fold (button_recorded w).
  destruct (btn_pin (hw w)) eqn:Hpin; cbn [Bool.eqb LOW when].
  - reflexivity.
  - mrun. rewrite (restoreTo45AndOff_run cfg "button" _ _ Hwf).
    mrun. rewrite <- ?app_assoc. reflexivity.
Qed.

Lemma pollRestoreButton_quiet (cfg : Config) (w : World) :
  button_accepts w = false -> pollRestoreButton cfg w = Some (tt, w, []).
Proof.
  intros H. unfold pollRestoreButton, digitalRead_btn. mrun.
  unfold button_accepts in H. rewrite H. reflexivity.
Qed.

Lemma pollRestoreButton_release (cfg : Config) (w : World) :
  button_accepts w = true -> btn_pin (hw w) = HIGH ->
  pollRestoreButton cfg w = Some (tt, button_recorded w, []).
Proof.
  intros H Hpin. unfold pollRestoreButton, digitalRead_btn. mrun.
  unfold button_accepts in H. rewrite H. cbn [when]. mrun.
  unfold button_recorded. rewrite Hpin. reflexivity.
Qed.

Lemma loop_bootRestore_run (cfg : Config) (w : World) :
  loop_bootRestore cfg w =
  if boot_due w
  then Some (tt, later (macro_ms cfg 0) (boot_cleared w),
             status_event w "boot:powerloss_restore:run" ++
             macro_trace cfg w "boot_powerloss" 0)
  else Some (tt, w, []).
Proof.
  unfold loop_bootRestore, boot_due, mqtt_connected_. mrun.
  destruct (_ && _); cbn [when]; [|reflexivity].
  mrun. fold (boot_cleared w).
  change (mqtt_connected (hw (boot_cleared w)))
    with (mqtt_connected (hw w)).
  unfold status_event at 1.
  destruct (mqtt_connected (hw w)) eqn:Hc; cbn [when]; mrun;
    rewrite (restoreTo45AndOff_run cfg "boot_powerloss" 0 _ macro_zero_ok);
    mrun.
  - rewrite <- ?app_assoc. unfold status_event at 1.
    cbn [hw gv boot_cleared on_gv]. rewrite Hc. reflexivity.
  - reflexivity.
Qed.

Lemma shouldRunRestoreOnBoot_iff (r : esp_reset_reason_t) :
  shouldRunRestoreOnBoot r = true <->
  r = ESP_RST_POWERON \/ r = ESP_RST_BROWNOUT.
Proof.
  split.
  - destruct r; cbn; intros H; try discriminate; auto.
  - intros [-> | ->]; reflexivity.
Qed.

Lemma setup_run (cfg : Config) (w : World) :
  exists evs,
    setup cfg w = Some (tt, after_setup cfg w, evs) /\
    forallb quiet evs = true.
Proof.
  unfold after_setup. cbv zeta.
  destruct (shouldRunRestoreOnBoot (reset_reason (hw w))) eqn:Hs;
    match goal with |- context [if wifi_due ?x then _ else _] =>
      destruct (wifi_due x) eqn:E end;
    unfold setup, buildMqttTopics; mrun;
    cbn [hw gv on_gv later on_hw set_clock reset_reason];
    rewrite Hs; cbn [when]; mrun;
    rewrite ensureWiFiNonBlocking_run;
    match goal with |- context [if wifi_due ?y then _ else _] =>
      match type of E with _ = ?b =>
        replace (wifi_due y) with b by (exact (eq_sym E)) end end;
    mrun; eexists; split; reflexivity.
Qed.

Lemma after_setup_scheduled (cfg : Config) (w : World) :
  bootRestoreScheduled (gv (after_setup cfg w)) =
  shouldRunRestoreOnBoot (reset_reason (hw w)) || bootRestoreScheduled (gv w).
Proof.
  unfold after_setup.
  destruct (shouldRunRestoreOnBoot (reset_reason (hw w)));
    match goal with |- context [if wifi_due ?x then _ else _] =>
      destruct (wifi_due x) end; reflexivity.
Qed.

Lemma after_setup_fire_at (cfg : Config) (w : World) :
  shouldRunRestoreOnBoot (reset_reason (hw w)) = true ->
  bootRestoreAtMs (gv (after_setup cfg w)) =
  wrap32 (wrap32 (clock (hw w) + 200) + BOOT_DELAY_MS cfg).
Proof.
  intros H. unfold after_setup. rewrite H.
  match goal with |- context [if wifi_due ?x then _ else _] =>
    destruct (wifi_due x) end; reflexivity.
Qed.

(* ------------------------------------------------------------------ *)
(** ** Retries *)

Lemma connect_attempts_app (a b : list Event) :
  connect_attempts (a ++ b) = (connect_attempts a + connect_attempts b)%nat.
Proof.
  induction a as [|e a IH]; [reflexivity|].
  destruct e; cbn [app connect_attempts]; rewrite IH; reflexivity.
Qed.

Lemma wifi_attempts_app (a b : list Event) :
  wifi_attempts (a ++ b) = (wifi_attempts a + wifi_attempts b)%nat.
Proof.
  induction a as [|e a IH]; [reflexivity|].
  destruct e; cbn [app wifi_attempts]; rewrite IH; reflexivity.
Qed.

Lemma wifi_due_iff (w : World) :
  wifi_due w = true <->
  wifi_connected (hw w) = false /\
  WIFI_RETRY_MS <=
  wrap32 (wrap32 (clock (hw w)) - lastWifiAttemptMs (gv w)).
Proof.
  unfold wifi_due. rewrite andb_true_iff, !negb_true_iff, Z.ltb_ge.
  reflexivity.
Qed.

Lemma mqtt_due_iff (w : World) :
  mqtt_due w = true <->
  wifi_connected (hw w) = true /\ mqtt_connected (hw w) = false /\
  MQTT_RETRY_MS <=
  wrap32 (wrap32 (clock (hw w)) - lastMqttAttemptMs (gv w)).
Proof.
  unfold mqtt_due. rewrite !andb_true_iff, !negb_true_iff, Z.ltb_ge.
  tauto.
Qed.

Lemma mqtt_retry_round (cfg : Config) (w : World) :
  mqtt_due w = true -> broker_accepts (hw w) = false ->
  let w' := later MQTT_RETRY_MS (after_mqtt_attempt w) in
  (ensureMQTTNonBlocking cfg ;; idle MQTT_RETRY_MS) w =
    Some (tt, w', mqtt_attempt_trace cfg w) /\
  mqtt_due w' = true /\ broker_accepts (hw w') = false.
Proof.
  intros Hdue Hno w'. split; [|split].
  - rewrite (bind_known _ _ _ _ _ _ (eq_trans
               (ensureMQTTNonBlocking_run cfg w)
               (f_equal (fun b : bool => if b then _ else _) Hdue))).
    unfold idle. rewrite prefix_Some, app_nil_r. reflexivity.
  - apply mqtt_due_iff in Hdue as (Hw & Hm & _). apply mqtt_due_iff.
    unfold w', after_mqtt_attempt. rewrite Hno.
    cbn [hw gv later on_hw on_gv set_clock set_mqtt_connected
           set_lastMqttAttemptMs wifi_connected mqtt_connected clock
           lastMqttAttemptMs].
    rewrite wrap32_elapsed. repeat split; try assumption.
    vm_compute. discriminate.
  - unfold w', after_mqtt_attempt. rewrite Hno. exact Hno.
Qed.

Lemma connect_attempts_attempt (cfg : Config) (w : World) :
  connect_attempts (mqtt_attempt_trace cfg w) = 1%nat.
Proof.
  unfold mqtt_attempt_trace. rewrite connect_attempts_app.
  destruct (broker_accepts (hw w)); reflexivity.
Qed.

Lemma mqtt_retries_unbounded (cfg : Config) (n : nat) :
  forall w : World,
    mqtt_due w = true -> broker_accepts (hw w) = false ->
    exists w' evs,
      repeatM n (ensureMQTTNonBlocking cfg ;; idle MQTT_RETRY_MS) w =
        Some (tt, w', evs) /\
      connect_attempts evs = n.
Proof.
  induction n as [|n IH]; intros w Hdue Hno.
  - exists w, []. split; reflexivity.
  - destruct (mqtt_retry_round cfg w Hdue Hno) as (Hrun & Hdue' & Hno').
    destruct (IH _ Hdue' Hno') as (w2 & e2 & Hrest & Hcount).
    exists w2, (mqtt_attempt_trace cfg w ++ e2). split.
    + cbn [repeatM]. rewrite (bind_known _ _ _ _ _ _ Hrun), Hrest.
      reflexivity.
    + rewrite connect_attempts_app, connect_attempts_attempt, Hcount.
      reflexivity.
Qed.

Lemma wifi_retry_round (cfg : Config) (w : World) :
  wifi_due w = true ->
  let w' :=
    later WIFI_RETRY_MS
      (on_gv (set_lastWifiAttemptMs (wrap32 (clock (hw w)))) w) in
  (ensureWiFiNonBlocking cfg ;; idle WIFI_RETRY_MS) w =
    Some (tt, w', wifi_attempt_trace cfg) /\
  wifi_due w' = true.
Proof.
  intros Hdue w'. split.
  - rewrite (bind_known _ _ _ _ _ _ (eq_trans
               (ensureWiFiNonBlocking_run cfg w)
               (f_equal (fun b : bool => if b then _ else _) Hdue))).
    unfold idle. rewrite prefix_Some, app_nil_r. reflexivity.
  - apply wifi_due_iff in Hdue as (Hw & _). apply wifi_due_iff.
    unfold w'.
    cbn [hw gv later on_hw on_gv set_clock set_lastWifiAttemptMs
           wifi_connected clock lastWifiAttemptMs].
    rewrite wrap32_elapsed. split; [assumption|].
    vm_compute. discriminate.
Qed.

Lemma wifi_retries_unbounded (cfg : Config) (n : nat) :
  forall w : World,
    wifi_due w = true ->
    exists w' evs,
      repeatM n (ensureWiFiNonBlocking cfg ;; idle WIFI_RETRY_MS) w =
        Some (tt, w', evs) /\
      wifi_attempts evs = n.
Proof.
  induction n as [|n IH]; intros w Hdue.
  - exists w, []. split; reflexivity.
  - destruct (wifi_retry_round cfg w Hdue) as (Hrun & Hdue').
    destruct (IH _ Hdue') as (w2 & e2 & Hrest & Hcount).
    exists w2, (wifi_attempt_trace cfg ++ e2). split.
    + cbn [repeatM]. rewrite (bind_known _ _ _ _ _ _ Hrun), Hrest.
      reflexivity.
    + rewrite wifi_attempts_app, Hcount. reflexivity.
Qed.

Lemma shipped_config_wf : wf_config shipped_config.
Proof. vm_compute. split; discriminate. Qed.

Lemma button_accepts_iff (w : World) :
  button_accepts w = true <->
  btn_pin (hw w) <> lastBtnState (gv w) /\
  DEBOUNCE_MS < wrap32 (wrap32 (clock (hw w)) - lastBtnChangeMs (gv w)).
Proof.
  unfold button_accepts.
  rewrite andb_true_iff, negb_true_iff, Bool.eqb_false_iff, Z.gtb_lt.
  reflexivity.
Qed.

(** After an accepted change, no change is accepted for [DEBOUNCE_MS]. *)
Lemma button_lockout (w w' : World) (d : Z) :
  gv w' = gv (button_recorded w) ->
  clock (hw w') = clock (hw w) + d ->
  0 <= d <= DEBOUNCE_MS ->
  button_accepts w' = false.
Proof.
  intros Hg Hc Hd. unfold button_accepts. rewrite Hg, Hc.
  cbn [button_recorded gv on_gv set_button lastBtnChangeMs].
  rewrite wrap32_elapsed, (wrap32_small d).
  - replace (d >? DEBOUNCE_MS) with false; [apply andb_false_r|].
    symmetry. rewrite Z.gtb_ltb. apply Z.ltb_ge. lia.
  - unfold DEBOUNCE_MS in Hd. change (2 ^ 32) with 4294967296. lia.
Qed.

(* ------------------------------------------------------------------ *)
(** ** Monitors along the supervisor

    The generic part of an invariant of [passes]: every block of [loop] that
    does not touch the monitored variables keeps any monitor that ignores
    quiet events and accepts the status tokens of those blocks.  The blocks
    that do touch them ([ensureMQTTNonBlocking], [loop_discovery],
    [loop_bootRestore]) are left to each monitor. *)

Lemma monitor_app {S : Type} (step : S -> Event -> option S) (s : S)
    (e1 e2 : list Event) :
  monitor step s (e1 ++ e2) =
  match monitor step s e1 with
  | Some s' => monitor step s' e2
  | None => None
  end.
Proof.
  revert s. induction e1 as [|e e1 IH]; intros s; cbn [app monitor].
  - reflexivity.
  - destruct (step s e) as [s'|]; [apply IH|reflexivity].
Qed.

Section Monitors.

Context {S : Type}.
Variable step : S -> Event -> option S.
Variable R : S -> World -> Prop.
Variable allowed : string -> bool.
Variable cfg : Config.

Hypothesis step_quiet : forall s e, quiet e = true -> step s e = Some s.
Hypothesis R_hw : forall s w f, R s w -> R s (on_hw f w).
Hypothesis R_button :
  forall s w l t, R s w -> R s (on_gv (set_button l t) w).
Hypothesis R_wifi :
  forall s w t, R s w -> R s (on_gv (set_lastWifiAttemptMs t) w).
Hypothesis R_alive : forall s w t, R s w -> R s (on_gv (set_tAlive t) w).
Hypothesis R_ota : forall s w b, R s w -> R s (on_gv (set_otaStarted b) w).
Hypothesis status_ok :
  forall s w msg,
    R s w -> allowed msg = true ->
    step s (EMqttPublish (mqttTopicStatus (gv w)) msg true) = Some s.
Hypothesis allowed_spec :
  forall msg,
    allowed msg = false ->
    msg = "restore:start:boot_powerloss"%string \/
    msg = "restore:done:boot_powerloss"%string.

Hypothesis ensureMQTT_respects : respects step R (ensureMQTTNonBlocking cfg).
Hypothesis loop_discovery_respects : respects step R loop_discovery.
Hypothesis loop_bootRestore_respects : respects step R (loop_bootRestore cfg).

Lemma respects_ret {A : Type} (a : A) : respects step R (ret a).
Proof.
  intros s w w' a' evs HR H. injection H as <- <- <-.
  exists s. split; [reflexivity|exact HR].
Qed.

Lemma respects_bind {A B : Type} (m : M A) (k : A -> M B) :
  respects step R m -> (forall a, respects step R (k a)) ->
  respects step R (bind m k).
Proof.
  intros Hm Hk s w w' b evs HR H. unfold bind in H.
  destruct (m w) as [[[a w1] e1]|] eqn:E1; [|discriminate].
  destruct (k a w1) as [[[b' w2] e2]|] eqn:E2; [|discriminate].
  injection H as <- <- <-.
  destruct (Hm s w w1 a e1 HR E1) as (s1 & M1 & R1).
  destruct (Hk a s1 w1 w2 b' e2 R1 E2) as (s2 & M2 & R2).
  exists s2. split; [|exact R2]. rewrite monitor_app, M1. exact M2.
Qed.

Lemma respects_quiet (e : Event) :
  quiet e = true -> respects step R (emit e).
Proof.
  intros Hq s w w' a evs HR H. injection H as <- <- <-.
  exists s. split; [|exact HR]. cbn [monitor]. rewrite (step_quiet s e Hq).
  reflexivity.
Qed.

Lemma respects_read_hw {A : Type} (f : Platform -> A) :
  respects step R (read_hw f).
Proof.
  intros s w w' a evs HR H. injection H as <- <- <-.
  exists s. split; [reflexivity|exact HR].
Qed.

Lemma respects_read_gv {A : Type} (f : Globals -> A) :
  respects step R (read_gv f).
Proof.
  intros s w w' a evs HR H. injection H as <- <- <-.
  exists s. split; [reflexivity|exact HR].
Qed.

Lemma respects_write_hw (f : Platform -> Platform) :
  respects step R (write_hw f).
Proof.
  intros s w w' a evs HR H. injection H as <- <- <-.
  exists s. split; [reflexivity|apply R_hw; exact HR].
Qed.

Lemma respects_delay (ms : Z) : respects step R (delay ms).
Proof.
  intros s w w' a evs HR H. injection H as <- <- <-.
  exists s. split; [|apply R_hw; exact HR].
  cbn [monitor]. rewrite step_quiet; reflexivity.
Qed.

Lemma respects_when (b : bool) (m : M unit) :
  respects step R m -> respects step R (when b m).
Proof. intros Hm. destruct b; [exact Hm|apply respects_ret]. Qed.

Lemma respects_publishStatus (msg : string) :
  allowed msg = true -> respects step R (publishStatus msg true).
Proof.
  intros Ha s w w' a evs HR H. rewrite publishStatus_run in H.
  injection H as <- <- <-. exists s. split; [|exact HR].
  unfold status_event. destruct (mqtt_connected (hw w)); [|reflexivity].
  cbn [monitor]. rewrite (status_ok s w msg HR Ha). reflexivity.
Qed.

Ltac allowed_tac :=
  match goal with
  | |- allowed ?m = true =>
      let E := fresh "E" in
      destruct (allowed m) eqn:E;
      [reflexivity
      |apply allowed_spec in E; destruct E as [E|E]; cbn in E; discriminate]
  end.

Ltac resp_prim :=
  match goal with
  | |- respects _ _ (bind _ _) => apply respects_bind; [|intro]
  | |- respects _ _ (ret _) => apply respects_ret
  | |- respects _ _ (when _ _) => apply respects_when
  | |- respects _ _ (if ?c then _ else _) => destruct c
  | |- respects _ _ (read_hw _) => apply respects_read_hw
  | |- respects _ _ (read_gv _) => apply respects_read_gv
  | |- respects _ _ (write_hw _) => apply respects_write_hw
  | |- respects _ _ millis => apply respects_read_hw
  | |- respects _ _ WiFi_connected => apply respects_read_hw
  | |- respects _ _ mqtt_connected_ => apply respects_read_hw
  | |- respects _ _ digitalRead_btn => apply respects_read_hw
  | |- respects _ _ (delay _) => apply respects_delay
  | |- respects _ _ (emit _) => apply respects_quiet; reflexivity
  | |- respects _ _ yield => apply respects_quiet; reflexivity
  | |- respects _ _ (irsend_sendNEC _ _) => apply respects_quiet; reflexivity
  | |- respects _ _ (Serial_print _) => apply respects_quiet; reflexivity
  | |- respects _ _ (Serial_println _) => apply respects_quiet; reflexivity
  | |- respects _ _ (publishStatus _ true) =>
      apply respects_publishStatus; first [assumption | allowed_tac]
  end.

Lemma respects_sendCmd (code : Z) (tag : string) :
  allowed ("sent:" +++ tag) = true -> respects step R (sendCmd cfg code tag).
Proof. intros Ha. unfold sendCmd, sendNEC. repeat resp_prim. Qed.

Lemma respects_waitLoop (fuel : nat) (start ms : Z) :
  respects step R (waitLoop fuel start ms).
Proof.
  induction fuel as [|fuel IH]; cbn [waitLoop].
  - intros s w w' a evs _ H. discriminate.
  - repeat resp_prim. exact IH.
Qed.

Lemma respects_repeatM (n : nat) (body : M unit) :
  respects step R body -> respects step R (repeatM n body).
Proof.
  intros Hb. induction n as [|n IH]; cbn [repeatM]; repeat resp_prim;
    assumption.
Qed.

Lemma respects_write_gv (f : Globals -> Globals) :
  (forall s w, R s w -> R s (on_gv f w)) ->
  respects step R (write_gv f).
Proof.
  intros Hf s w w' a evs HR H. injection H as <- <- <-.
  exists s. split; [reflexivity|apply Hf; exact HR].
Qed.

Ltac resp :=
  repeat first
    [ resp_prim
    | match goal with
      | |- respects _ _ (sendCmd _ _ _) =>
          apply respects_sendCmd; first [assumption | allowed_tac]
      | |- respects _ _ (waitLoop _ _ _) => apply respects_waitLoop
      | |- respects _ _ (repeatM _ _) => apply respects_repeatM
      | |- respects _ _ (write_gv (set_button _ _)) =>
          apply respects_write_gv; intros; apply R_button; assumption
      | |- respects _ _ (write_gv (set_lastWifiAttemptMs _)) =>
          apply respects_write_gv; intros; apply R_wifi; assumption
      | |- respects _ _ (write_gv (set_tAlive _)) =>
          apply respects_write_gv; intros; apply R_alive; assumption
      | |- respects _ _ (write_gv (set_otaStarted _)) =>
          apply respects_write_gv; intros; apply R_ota; assumption
      end ].

Lemma respects_macro (tag : string) (pre : Z) :
  allowed ("restore:start:" +++ tag) = true ->
  allowed ("restore:done:" +++ tag) = true ->
  respects step R (restoreTo45AndOff cfg tag pre).
Proof.
  intros Ha Hb. unfold restoreTo45AndOff, waitMsWithYield. resp.
Qed.

Lemma respects_handleCommand (cmd : string) :
  respects step R (handleCommand cfg cmd).
Proof.
  unfold handleCommand. resp. apply respects_macro; allowed_tac.
Qed.

Lemma respects_mqtt_loop : respects step R (mqtt_loop cfg).
Proof.
  unfold mqtt_loop. resp.
  match goal with |- respects _ _ (match ?q with _ => _ end) =>
    destruct q as [|payload rest] end; resp.
  unfold mqttCallback. apply respects_handleCommand.
Qed.

Lemma respects_pollRestoreButton : respects step R (pollRestoreButton cfg).
Proof.
  unfold pollRestoreButton. resp. apply respects_macro; allowed_tac.
Qed.

Lemma respects_ensureWiFi : respects step R (ensureWiFiNonBlocking cfg).
Proof. unfold ensureWiFiNonBlocking. resp. Qed.

Lemma respects_loop_alive : respects step R loop_alive.
Proof. unfold loop_alive. resp. Qed.

Lemma respects_loop_ota : respects step R (loop_ota cfg).
Proof.
  unfold loop_ota, setupOTA, ArduinoOTA_handle. resp.
  match goal with |- respects _ _ (match ?p with _ => _ end) =>
    destruct p as [[| |error]|] end;
    unfold ota_onStart, ota_onEnd, ota_onError; resp.
Qed.

Lemma respects_loop_session : respects step R (loop_session cfg).
Proof.
  unfold loop_session. resp.
  - apply respects_mqtt_loop.
  - apply loop_discovery_respects.
Qed.

Lemma respects_loop : respects step R (loop cfg).
Proof.
  unfold loop. resp.
  - apply respects_loop_alive.
  - apply respects_ensureWiFi.
  - apply respects_loop_ota.
  - apply ensureMQTT_respects.
  - apply respects_loop_session.
  - apply loop_bootRestore_respects.
  - apply respects_pollRestoreButton.
Qed.

Lemma respects_before_boot_check (s : Stimulus) :
  respects step R (before_boot_check cfg s).
Proof.
  unfold before_boot_check. resp.
  - apply respects_loop_alive.
  - apply respects_ensureWiFi.
  - apply respects_loop_ota.
  - apply ensureMQTT_respects.
  - apply respects_loop_session.
Qed.

Lemma respects_after_boot_check : respects step R (after_boot_check cfg).
Proof. unfold after_boot_check. resp. apply respects_pollRestoreButton. Qed.

(** The boot block, for a monitor that accepts every status token and whose
    relation does not look at the trigger. *)
Lemma respects_loop_bootRestore_any :
  (forall s w, R s w -> R s (boot_cleared w)) ->
  (forall msg, allowed msg = true) ->
  respects step R (loop_bootRestore cfg).
Proof.
  intros Hclear Hall. unfold loop_bootRestore. resp.
  - apply respects_write_gv. exact Hclear.
  - apply respects_macro; apply Hall.
Qed.

Lemma respects_pass (s : Stimulus) : respects step R (pass cfg s).
Proof. unfold pass. resp. apply respects_loop. Qed.

Lemma respects_passes (ss : list Stimulus) : respects step R (passes cfg ss).
Proof.
  induction ss as [|s ss IH]; cbn [passes]; resp.
  - apply respects_pass.
  - exact IH.
Qed.

End Monitors.

(* ------------------------------------------------------------------ *)
(** ** Termination: with a well-formed configuration every block returns *)

Lemma terminates_ret {A : Type} (a : A) : terminates (ret a).
Proof. intros w. exists a, w, []. reflexivity. Qed.

Lemma terminates_bind {A B : Type} (m : M A) (k : A -> M B) :
  terminates m -> (forall a, terminates (k a)) -> terminates (bind m k).
Proof.
  intros Hm Hk w. destruct (Hm w) as (a & w1 & e1 & H1).
  destruct (Hk a w1) as (b & w2 & e2 & H2).
  exists b, w2, (e1 ++ e2). unfold bind. rewrite H1, H2. reflexivity.
Qed.

Lemma terminates_emit (e : Event) : terminates (emit e).
Proof. intros w. exists tt, w, [e]. reflexivity. Qed.

Lemma terminates_read_hw {A : Type} (f : Platform -> A) :
  terminates (read_hw f).
Proof. intros w. exists (f (hw w)), w, []. reflexivity. Qed.

Lemma terminates_read_gv {A : Type} (f : Globals -> A) :
  terminates (read_gv f).
Proof. intros w. exists (f (gv w)), w, []. reflexivity. Qed.

Lemma terminates_write_hw (f : Platform -> Platform) :
  terminates (write_hw f).
Proof. intros w. exists tt, (on_hw f w), []. reflexivity. Qed.

Lemma terminates_write_gv (f : Globals -> Globals) :
  terminates (write_gv f).
Proof. intros w. exists tt, (on_gv f w), []. reflexivity. Qed.

Lemma terminates_delay (ms : Z) : terminates (delay ms).
Proof. intros w. exists tt, (later ms w), [EDelay ms]. reflexivity. Qed.

Lemma terminates_when (b : bool) (m : M unit) :
  terminates m -> terminates (when b m).
Proof. intros H. destruct b; [exact H|apply terminates_ret]. Qed.

Lemma terminates_mqtt_publish (t p : string) (r : bool) :
  terminates (mqtt_publish t p r).
Proof. intros w. eexists _, _, _. reflexivity. Qed.

Lemma terminates_mqtt_connect (c u p t : string) (q : Z) (r : bool)
    (m : string) :
  terminates (mqtt_connect c u p t q r m).
Proof. intros w. eexists _, _, _. reflexivity. Qed.

Lemma terminates_sendCmd (cfg : Config) (code : Z) (tag : string) :
  terminates (sendCmd cfg code tag).
Proof. intros w. eexists _, _, _. apply sendCmd_run. Qed.

Lemma terminates_publishStatus (msg : string) :
  terminates (publishStatus msg true).
Proof. intros w. eexists _, _, _. apply publishStatus_run. Qed.

Lemma terminates_macro (cfg : Config) (tag : string) (pre : Z) :
  0 <= pre <= 2 ^ 32 - 5 -> terminates (restoreTo45AndOff cfg tag pre).
Proof. intros H w. eexists _, _, _. apply restoreTo45AndOff_run, H. Qed.

Ltac term_prim :=
  match goal with
  | |- terminates (bind _ _) => apply terminates_bind; [|intro]
  | |- terminates (ret _) => apply terminates_ret
  | |- terminates (when _ _) => apply terminates_when
  | |- terminates (if ?c then _ else _) => destruct c
  | |- terminates (read_hw _) => apply terminates_read_hw
  | |- terminates (read_gv _) => apply terminates_read_gv
  | |- terminates (write_hw _) => apply terminates_write_hw
  | |- terminates (write_gv _) => apply terminates_write_gv
  | |- terminates millis => apply terminates_read_hw
  | |- terminates WiFi_connected => apply terminates_read_hw
  | |- terminates mqtt_connected_ => apply terminates_read_hw
  | |- terminates digitalRead_btn => apply terminates_read_hw
  | |- terminates (delay _) => apply terminates_delay
  | |- terminates (emit _) => apply terminates_emit
  | |- terminates yield => apply terminates_emit
  | |- terminates (mqtt_subscribe _) => apply terminates_emit
  | |- terminates (Serial_print _) => apply terminates_emit
  | |- terminates (Serial_println _) => apply terminates_emit
  | |- terminates (mqtt_publish _ _ _) => apply terminates_mqtt_publish
  | |- terminates (mqtt_connect _ _ _ _ _ _ _) =>
      apply terminates_mqtt_connect
  | |- terminates (publishStatus _ true) => apply terminates_publishStatus
  | |- terminates (sendCmd _ _ _) => apply terminates_sendCmd
  end.

Ltac term := repeat term_prim.

Section Termination.

Variable cfg : Config.
Hypothesis cfg_wf : wf_config cfg.

Lemma terminates_handleCommand (cmd : string) :
  terminates (handleCommand cfg cmd).
Proof. unfold handleCommand. term. apply terminates_macro, cfg_wf. Qed.

Lemma terminates_mqtt_loop : terminates (mqtt_loop cfg).
Proof.
  unfold mqtt_loop. term.
  match goal with |- terminates (match ?q with _ => _ end) =>
    destruct q as [|payload rest] end; term.
  unfold mqttCallback. apply terminates_handleCommand.
Qed.

Lemma terminates_pollRestoreButton : terminates (pollRestoreButton cfg).
Proof. unfold pollRestoreButton. term. apply terminates_macro, cfg_wf. Qed.

Lemma terminates_ensureWiFi : terminates (ensureWiFiNonBlocking cfg).
Proof. unfold ensureWiFiNonBlocking. term. Qed.

Lemma terminates_ensureMQTT : terminates (ensureMQTTNonBlocking cfg).
Proof. unfold ensureMQTTNonBlocking, setAvailability. term. Qed.

Lemma terminates_loop_alive : terminates loop_alive.
Proof. unfold loop_alive. term. Qed.

Lemma terminates_loop_ota : terminates (loop_ota cfg).
Proof.
  unfold loop_ota, setupOTA, ArduinoOTA_handle. term.
  match goal with |- terminates (match ?p with _ => _ end) =>
    destruct p as [[| |error]|] end;
    unfold ota_onStart, ota_onEnd, ota_onError; term.
Qed.

Lemma terminates_loop_discovery : terminates loop_discovery.
Proof.
  unfold loop_discovery, publishAllDiscovery, publishStatusSensorDiscovery,
    publishButtonDiscovery, mqttPublish.
  term.
Qed.

Lemma terminates_loop_session : terminates (loop_session cfg).
Proof.
  unfold loop_session. term.
  - apply terminates_mqtt_loop.
  - apply terminates_loop_discovery.
Qed.

Lemma terminates_loop_bootRestore : terminates (loop_bootRestore cfg).
Proof.
  unfold loop_bootRestore. term. apply terminates_macro, macro_zero_ok.
Qed.

Lemma terminates_loop : terminates (loop cfg).
Proof.
  unfold loop. term.
  - apply terminates_loop_alive.
  - apply terminates_ensureWiFi.
  - apply terminates_loop_ota.
  - apply terminates_ensureMQTT.
  - apply terminates_loop_session.
  - apply terminates_loop_bootRestore.
  - apply terminates_pollRestoreButton.
Qed.

Lemma terminates_pass (s : Stimulus) : terminates (pass cfg s).
Proof. unfold pass. term. apply terminates_loop. Qed.

Lemma terminates_passes (ss : list Stimulus) : terminates (passes cfg ss).
Proof.
  induction ss as [|s ss IH]; cbn [passes]; term.
  - apply terminates_pass.
  - exact IH.
Qed.

Lemma terminates_setup : terminates (setup cfg).
Proof. intros w. destruct (setup_run cfg w) as (evs & H & _). eauto. Qed.

Lemma terminates_boot (ss : list Stimulus) : terminates (boot cfg ss).
Proof.
  unfold boot. term; [apply terminates_setup|apply terminates_passes].
Qed.

End Termination.

(* ------------------------------------------------------------------ *)
(** ** The discovery publication, run *)

Lemma mqttPublish_run (topic payload : string) (w : World) :
  mqttPublish topic payload true w =
  Some (tt, w, config_publish w topic payload).
Proof.
  unfold mqttPublish, mqtt_publish, config_publish, bind.
  destruct (mqtt_connected (hw w) && publish_ok (hw w)); reflexivity.
Qed.

Lemma publishButtonDiscovery_run (object_id name payload_press : string)
    (w : World) :
  publishButtonDiscovery object_id name payload_press w =
  Some (tt, w, button_publish w object_id name payload_press).
Proof.
  unfold publishButtonDiscovery. cbv zeta. mrun. apply mqttPublish_run.
Qed.

Lemma bind_publishButtonDiscovery {B : Type}
    (object_id name payload_press : string) (k : unit -> M B) (w : World) :
  bind (publishButtonDiscovery object_id name payload_press) k w =
  prefix (button_publish w object_id name payload_press) (k tt w).
Proof. apply bind_known, publishButtonDiscovery_run. Qed.

Lemma publishAllDiscovery_run (w : World) :
  publishAllDiscovery w = Some (tt, w, discovery_trace w).
Proof.
  unfold publishAllDiscovery.
  rewrite (bind_known _ _ w w tt
             (config_publish w sensor_config_topic
                (statusSensorDiscoveryJson (mqttTopicStatus (gv w))
                   (mqttTopicAvail (gv w)) "olimpia_ir_status_01"))).
  - rewrite !bind_publishButtonDiscovery. mrun.
    unfold discovery_trace. rewrite <- ?app_assoc. reflexivity.
  - unfold publishStatusSensorDiscovery. cbv zeta. mrun.
    apply mqttPublish_run.
Qed.

Lemma loop_discovery_run (w : World) :
  loop_discovery w =
  if discoveryPublished (gv w)
  then Some (tt, w, [])
  else Some (tt, on_gv (set_discoveryPublished true) w,
             discovery_block_trace w).
Proof.
  unfold loop_discovery. mrun.
  destruct (discoveryPublished (gv w)); cbn [negb when]; [reflexivity|].
  rewrite (bind_known _ _ _ _ _ _ (publishAllDiscovery_run w)). mrun.
  unfold discovery_block_trace. rewrite <- ?app_assoc. reflexivity.
Qed.

Lemma pass_split (cfg : Config) (s : Stimulus) (w : World) :
  pass cfg s w =
  (before_boot_check cfg s ;; loop_bootRestore cfg ;; after_boot_check cfg) w.
Proof.
  unfold pass, loop, before_boot_check, after_boot_check.
  symmetry. rewrite bind_assoc.
  repeat (apply bind_cong; intros; try rewrite bind_assoc).
  reflexivity.
Qed.

(* ------------------------------------------------------------------ *)
(** ** The session monitor along the supervisor *)

Section SessionMonitor.

Variable cfg : Config.

Lemma session_step_quiet (s : bool) (e : Event) :
  quiet e = true -> session_step s e = Some s.
Proof. destruct e; cbn; intros H; try discriminate; reflexivity. Qed.

Lemma status_topic_not_discovery (w : World) :
  topics_built cfg (gv w) ->
  String.eqb (mqttTopicStatus (gv w)) sensor_config_topic = false.
Proof. intros (_ & Hst & _). rewrite Hst. reflexivity. Qed.

Lemma avail_topic_not_discovery (w : World) :
  topics_built cfg (gv w) ->
  String.eqb (mqttTopicAvail (gv w)) sensor_config_topic = false.
Proof. intros (_ & _ & Hav). rewrite Hav. reflexivity. Qed.

Lemma session_status_topic (s : bool) (w : World) (msg : string) :
  topics_built cfg (gv w) ->
  session_step s (EMqttPublish (mqttTopicStatus (gv w)) msg true) = Some s.
Proof.
  intros Ht. cbn [session_step]. rewrite status_topic_not_discovery by exact Ht.
  reflexivity.
Qed.

Lemma session_ensureMQTT :
  respects session_step (session_rel cfg) (ensureMQTTNonBlocking cfg).
Proof.
  intros s w w' a evs [Hs Ht] H. rewrite ensureMQTTNonBlocking_run in H.
  destruct (mqtt_due w).
  - injection H as <- <- <-.
    unfold mqtt_attempt_trace, after_mqtt_attempt, connect_event.
    destruct (broker_accepts (hw w)).
    + exists false. split; [|split; [reflexivity|exact Ht]].
      cbn [app monitor session_step].
      rewrite avail_topic_not_discovery, status_topic_not_discovery
        by exact Ht.
      reflexivity.
    + exists s. split; [reflexivity|split; [exact Hs|exact Ht]].
  - injection H as <- <- <-. exists s.
    split; [reflexivity|split; [exact Hs|exact Ht]].
Qed.

Lemma session_config_publish (w : World) (topic payload : string)
    (s : bool) (rest : list Event) :
  String.eqb topic sensor_config_topic = false ->
  monitor session_step s (config_publish w topic payload ++ rest) =
  monitor session_step s rest.
Proof.
  intros Ht. unfold config_publish. cbn [app monitor session_step].
  rewrite Ht. destruct (mqtt_connected (hw w) && publish_ok (hw w));
    reflexivity.
Qed.

Lemma session_status_event (w : World) (msg : string) (s : bool)
    (rest : list Event) :
  topics_built cfg (gv w) ->
  monitor session_step s (status_event w msg ++ rest) =
  monitor session_step s rest.
Proof.
  intros Ht. unfold status_event.
  destruct (mqtt_connected (hw w)); [|reflexivity].
  cbn [app monitor]. rewrite (session_status_topic s w msg Ht).
  reflexivity.
Qed.

(** The discovery set moves the monitor from not published to published. *)
Lemma session_discovery_block (w : World) :
  topics_built cfg (gv w) ->
  monitor session_step false (discovery_block_trace w) = Some true.
Proof.
  intros Ht. unfold discovery_block_trace, discovery_trace, button_publish.
  rewrite <- ?app_assoc.
  unfold config_publish at 1. cbn [app monitor session_step].
  replace (String.eqb sensor_config_topic sensor_config_topic) with true
    by reflexivity.
  cbv iota.
  assert (Hfail : forall rest,
             monitor session_step true
               ((if mqtt_connected (hw w) && publish_ok (hw w) then []
                 else [EPrint "MQTT publish FAILED topic=";
                       EPrint sensor_config_topic; EPrint " len=";
                       EPrintln (dec (Z.of_nat (String.length
                         (statusSensorDiscoveryJson (mqttTopicStatus (gv w))
                            (mqttTopicAvail (gv w))
                            "olimpia_ir_status_01"))))]) ++ rest) =
             monitor session_step true rest).
  { intros rest. destruct (mqtt_connected (hw w) && publish_ok (hw w));
      reflexivity. }
  rewrite Hfail.
  rewrite !session_config_publish by reflexivity.
  rewrite session_status_event by exact Ht.
  cbn [monitor session_step].
  rewrite session_status_event by exact Ht.
  rewrite <- (app_nil_r (status_event w "ready")).
  rewrite session_status_event by exact Ht.
  reflexivity.
Qed.

Lemma session_loop_discovery :
  respects session_step (session_rel cfg) loop_discovery.
Proof.
  intros s w w' a evs [Hs Ht] H. rewrite loop_discovery_run in H.
  destruct (discoveryPublished (gv w)) eqn:Hp.
  - injection H as <- <- <-. exists s.
    split; [reflexivity|split; [congruence|exact Ht]].
  - injection H as <- <- <-. exists true. subst s.
    split; [apply session_discovery_block; exact Ht|].
    split; [reflexivity|exact Ht].
Qed.

Lemma session_loop_bootRestore :
  respects session_step (session_rel cfg) (loop_bootRestore cfg).
Proof.
  apply (respects_loop_bootRestore_any session_step (session_rel cfg)
           (fun _ => true) cfg).
  - apply session_step_quiet.
  - intros s w f H. exact H.
  - intros s w msg [_ Ht] _. apply session_status_topic. exact Ht.
  - intros msg H. discriminate.
  - intros s w H. exact H.
  - reflexivity.
Qed.

(** Every run of passes keeps the session monitor going, and the monitor
    agrees with [discoveryPublished] at the end. *)
Lemma session_passes (ss : list Stimulus) :
  respects session_step (session_rel cfg) (passes cfg ss).
Proof.
  apply (respects_passes session_step (session_rel cfg) (fun _ => true) cfg).
  - apply session_step_quiet.
  - intros s w f H. exact H.
  - intros s w l t H. exact H.
  - intros s w t H. exact H.
  - intros s w t H. exact H.
  - intros s w b H. exact H.
  - intros s w msg [_ Ht] _. apply session_status_topic. exact Ht.
  - intros msg H. discriminate.
  - apply session_ensureMQTT.
  - apply session_loop_discovery.
  - apply session_loop_bootRestore.
Qed.

End SessionMonitor.

(* ------------------------------------------------------------------ *)
(** ** The boot trigger along the supervisor *)

Section BootMonitor.

Variable cfg : Config.

Lemma boot_status_step_quiet (s : unit) (e : Event) :
  quiet e = true -> boot_status_step s e = Some s.
Proof. destruct e; cbn; intros H; try discriminate; reflexivity. Qed.

Lemma not_boot_status_spec (msg : string) :
  not_boot_status msg = false ->
  msg = "restore:start:boot_powerloss"%string \/
  msg = "restore:done:boot_powerloss"%string.
Proof.
  unfold not_boot_status. rewrite andb_false_iff, !negb_false_iff.
  intros [H|H]; apply String.eqb_eq in H; auto.
Qed.

Lemma boot_status_ensureMQTT :
  respects boot_status_step trigger_off (ensureMQTTNonBlocking cfg).
Proof.
  intros [] w w' a evs HR H. rewrite ensureMQTTNonBlocking_run in H.
  destruct (mqtt_due w); injection H as <- <- <-; exists tt.
  - split.
    + unfold mqtt_attempt_trace. destruct (broker_accepts (hw w)); reflexivity.
    + unfold trigger_off, after_mqtt_attempt in *.
      destruct (broker_accepts (hw w)); exact HR.
  - split; [reflexivity|exact HR].
Qed.

Lemma boot_status_loop_discovery :
  respects boot_status_step trigger_off loop_discovery.
Proof.
  intros [] w w' a evs HR H. rewrite loop_discovery_run in H.
  destruct (discoveryPublished (gv w)); injection H as <- <- <-; exists tt.
  - split; [reflexivity|exact HR].
  - split; [|exact HR].
    unfold discovery_block_trace, discovery_trace, button_publish,
      config_publish, status_event.
    destruct (mqtt_connected (hw w)), (publish_ok (hw w)); reflexivity.
Qed.

Lemma boot_status_loop_bootRestore :
  respects boot_status_step trigger_off (loop_bootRestore cfg).
Proof.
  intros [] w w' a evs HR H. rewrite loop_bootRestore_run in H.
  unfold boot_due in H. unfold trigger_off in HR. rewrite HR in H.
  cbn [andb] in H. injection H as <- <- <-. exists tt.
  split; [reflexivity|exact HR].
Qed.

(** With the trigger off, no run of passes publishes a boot status token, and
    the trigger stays off. *)
Lemma boot_status_passes (ss : list Stimulus) :
  respects boot_status_step trigger_off (passes cfg ss).
Proof.
  apply (respects_passes boot_status_step trigger_off not_boot_status cfg).
  - apply boot_status_step_quiet.
  - intros s w f H. exact H.
  - intros s w l t H. exact H.
  - intros s w t H. exact H.
  - intros s w t H. exact H.
  - intros s w b H. exact H.
  - intros s w msg _ Ha. cbn [boot_status_step]. rewrite Ha. reflexivity.
  - apply not_boot_status_spec.
  - apply boot_status_ensureMQTT.
  - apply boot_status_loop_discovery.
  - apply boot_status_loop_bootRestore.
Qed.

Lemma boot_status_after_boot_check :
  respects boot_status_step trigger_off (after_boot_check cfg).
Proof.
  apply (respects_after_boot_check boot_status_step trigger_off
           not_boot_status cfg).
  - apply boot_status_step_quiet.
  - intros s w f H. exact H.
  - intros s w l t H. exact H.
  - intros s w msg _ Ha. cbn [boot_status_step]. rewrite Ha. reflexivity.
  - apply not_boot_status_spec.
Qed.

Lemma monitor_boot_status_In (evs : list Event) (t p : string) (r : bool) :
  monitor boot_status_step tt evs = Some tt ->
  In (EMqttPublish t p r) evs -> not_boot_status p = true.
Proof.
  induction evs as [|e evs IH]; cbn [monitor In]; [contradiction|].
  destruct (boot_status_step tt e) as [[]|] eqn:E; [|discriminate].
  intros Hm [->|Hin]; [|exact (IH Hm Hin)].
  cbn [boot_status_step] in E. destruct (not_boot_status p);
    [reflexivity|discriminate].
Qed.

(** *** The frame: the blocks around the test leave the trigger alone *)

Lemma monitor_any (evs : list Event) : monitor any_step tt evs = Some tt.
Proof. induction evs as [|e evs IH]; [reflexivity|exact IH]. Qed.

Lemma frame_ensureMQTT (b : bool) (t : Z) :
  respects any_step (trigger_is b t) (ensureMQTTNonBlocking cfg).
Proof.
  intros [] w w' a evs HR H. rewrite ensureMQTTNonBlocking_run in H.
  destruct (mqtt_due w); injection H as <- <- <-; exists tt;
    (split; [apply monitor_any|]); [|exact HR].
  unfold trigger_is, after_mqtt_attempt in *.
  destruct (broker_accepts (hw w)); exact HR.
Qed.

Lemma frame_loop_discovery (b : bool) (t : Z) :
  respects any_step (trigger_is b t) loop_discovery.
Proof.
  intros [] w w' a evs HR H. rewrite loop_discovery_run in H.
  destruct (discoveryPublished (gv w)); injection H as <- <- <-; exists tt;
    (split; [apply monitor_any|exact HR]).
Qed.

Lemma frame_before_boot_check (b : bool) (t : Z) (s : Stimulus) :
  respects any_step (trigger_is b t) (before_boot_check cfg s).
Proof.
  apply (respects_before_boot_check any_step (trigger_is b t)
           (fun _ => true) cfg).
  - reflexivity.
  - intros u w f H. exact H.
  - intros u w t' H. exact H.
  - intros u w t' H. exact H.
  - intros u w b' H. exact H.
  - reflexivity.
  - intros msg H. discriminate.
  - apply frame_ensureMQTT.
  - apply frame_loop_discovery.
Qed.

Lemma frame_after_boot_check (b : bool) (t : Z) :
  respects any_step (trigger_is b t) (after_boot_check cfg).
Proof.
  apply (respects_after_boot_check any_step (trigger_is b t)
           (fun _ => true) cfg).
  - reflexivity.
  - intros u w f H. exact H.
  - intros u w l t' H. exact H.
  - reflexivity.
  - intros msg H. discriminate.
Qed.

End BootMonitor.

(* ------------------------------------------------------------------ *)
(** ** Runs from startup *)

Lemma monitor_quiet {S : Type} (step : S -> Event -> option S) (s : S)
    (evs : list Event) :
  (forall s e, quiet e = true -> step s e = Some s) ->
  forallb quiet evs = true -> monitor step s evs = Some s.
Proof.
  intros Hq. induction evs as [|e evs IH]; cbn [forallb monitor];
    [reflexivity|].
  intros H. apply andb_prop in H as [He Hr]. rewrite (Hq s e He). auto.
Qed.

Lemma after_setup_topics (cfg : Config) (w : World) :
  topics_built cfg (gv (after_setup cfg w)).
Proof.
  unfold after_setup. cbv zeta.
  destruct (shouldRunRestoreOnBoot (reset_reason (hw w)));
    match goal with |- context [if wifi_due ?x then _ else _] =>
      destruct (wifi_due x) end;
    repeat split.
Qed.

Lemma after_setup_discovery (cfg : Config) (w : World) :
  discoveryPublished (gv (after_setup cfg w)) = discoveryPublished (gv w).
Proof.
  unfold after_setup. cbv zeta.
  destruct (shouldRunRestoreOnBoot (reset_reason (hw w)));
    match goal with |- context [if wifi_due ?x then _ else _] =>
      destruct (wifi_due x) end;
    reflexivity.
Qed.

(** From any world, a boot followed by any passes keeps the session monitor
    going; the monitor ends on the value of [discoveryPublished]. *)
Lemma session_boot (cfg : Config) (ss : list Stimulus) (w : World) :
  wf_config cfg ->
  exists w' evs,
    boot cfg ss w = Some (tt, w', evs) /\
    monitor session_step (discoveryPublished (gv w)) evs =
    Some (discoveryPublished (gv w')).
Proof.
  intros Hwf. destruct (setup_run cfg w) as (e0 & Hsetup & Hquiet).
  destruct (terminates_passes cfg Hwf ss (after_setup cfg w))
    as ([] & w' & e1 & Hpasses).
  exists w', (e0 ++ e1). split.
  - unfold boot. rewrite (bind_known _ _ _ _ _ _ Hsetup), Hpasses.
    reflexivity.
  - rewrite monitor_app.
    rewrite (monitor_quiet session_step _ e0 session_step_quiet Hquiet).
    destruct (session_passes cfg ss (discoveryPublished (gv w))
                (after_setup cfg w) w' tt e1) as (s' & Hm & Hs & _).
    + split; [symmetry; apply after_setup_discovery|apply after_setup_topics].
    + exact Hpasses.
    + rewrite Hm, Hs. reflexivity.
Qed.

(** *** The firings of the boot trigger *)

Lemma boot_due_off (w : World) :
  bootRestoreScheduled (gv w) = false -> boot_due w = false.
Proof. intros H. unfold boot_due. rewrite H. reflexivity. Qed.

Lemma boot_block_quiet (cfg : Config) (w : World) :
  boot_due w = false ->
  (loop_bootRestore cfg ;; after_boot_check cfg) w = after_boot_check cfg w.
Proof.
  intros H.
  rewrite (bind_known _ _ w w tt [])
    by (rewrite loop_bootRestore_run, H; reflexivity).
  apply prefix_nil.
Qed.

Lemma boot_block_fires (cfg : Config) (w : World) :
  boot_due w = true ->
  (loop_bootRestore cfg ;; after_boot_check cfg) w =
  prefix (status_event w "boot:powerloss_restore:run" ++
          macro_trace cfg w "boot_powerloss" 0)
    (after_boot_check cfg (later (macro_ms cfg 0) (boot_cleared w))).
Proof.
  intros H. unfold bind at 1. rewrite loop_bootRestore_run, H. reflexivity.
Qed.

Lemma boot_firings_off (cfg : Config) (ss : list Stimulus) :
  forall w : World,
    bootRestoreScheduled (gv w) = false -> boot_firings cfg ss w = O.
Proof.
  induction ss as [|s ss IH]; intros w Hoff; cbn [boot_firings];
    [reflexivity|].
  destruct (before_boot_check cfg s w) as [[[[] wc] e]|] eqn:E;
    [|reflexivity].
  destruct (frame_before_boot_check cfg false (bootRestoreAtMs (gv w)) s
              tt w wc tt e (conj Hoff eq_refl) E) as (_ & _ & Hc & _).
  rewrite (boot_due_off wc Hc), (boot_block_quiet cfg wc (boot_due_off wc Hc)).
  destruct (after_boot_check cfg wc) as [[[[] w'] e']|] eqn:E'; [|reflexivity].
  destruct (frame_after_boot_check cfg false (bootRestoreAtMs (gv wc))
              tt wc w' tt e' (conj Hc eq_refl) E') as (_ & _ & Hc' & _).
  rewrite (IH w' Hc'). reflexivity.
Qed.

Lemma boot_firings_le_1 (cfg : Config) (ss : list Stimulus) :
  forall w : World, (boot_firings cfg ss w <= 1)%nat.
Proof.
  induction ss as [|s ss IH]; intros w; cbn [boot_firings]; [lia|].
  destruct (before_boot_check cfg s w) as [[[[] wc] e]|]; [|lia].
  destruct (boot_due wc) eqn:D.
  - rewrite (boot_block_fires cfg wc D).
    destruct (after_boot_check cfg (later (macro_ms cfg 0) (boot_cleared wc)))
      as [[[[] w'] e']|] eqn:E'; cbn [prefix]; [|lia].
    assert (Hoff : trigger_is false (bootRestoreAtMs (gv wc)) tt
                     (later (macro_ms cfg 0) (boot_cleared wc)))
      by (split; reflexivity).
    destruct (frame_after_boot_check cfg false (bootRestoreAtMs (gv wc))
                tt _ w' tt e' Hoff E') as (_ & _ & Hc' & _).
    rewrite (boot_firings_off cfg ss w' Hc'). lia.
  - rewrite (boot_block_quiet cfg wc D).
    destruct (after_boot_check cfg wc) as [[[[] w'] e']|]; [|lia].
    specialize (IH w'). lia.
Qed.

(** A run never sets the trigger. *)
Lemma passes_trigger_off (cfg : Config) (ss : list Stimulus) (w w' : World)
    (evs : list Event) :
  bootRestoreScheduled (gv w) = false ->
  passes cfg ss w = Some (tt, w', evs) ->
  bootRestoreScheduled (gv w') = false.
Proof.
  intros Hoff H.
  destruct (boot_status_passes cfg ss tt w w' tt evs Hoff H) as (u & _ & Hw).
  exact Hw.
Qed.

Lemma boot_due_iff (w : World) :
  boot_due w = true <->
  bootRestoreScheduled (gv w) = true /\
  bootRestoreAtMs (gv w) <= wrap32 (clock (hw w)).
Proof.
  unfold boot_due. rewrite andb_true_iff, Z.geb_le. reflexivity.
Qed.

Lemma loop_bootRestore_clears_first (cfg : Config) (w : World) :
  loop_bootRestore cfg w =
  if boot_due w
  then prefix (status_event w "boot:powerloss_restore:run")
         (restoreTo45AndOff cfg "boot_powerloss" 0 (boot_cleared w))
  else Some (tt, w, []).
Proof.
  rewrite loop_bootRestore_run. destruct (boot_due w); [|reflexivity].
  rewrite (restoreTo45AndOff_run cfg "boot_powerloss" 0 _ macro_zero_ok).
  reflexivity.
Qed.

Lemma boot_firings_fires (cfg : Config) (s : Stimulus) (ss : list Stimulus)
    (w wc : World) (e : list Event) :
  wf_config cfg ->
  before_boot_check cfg s w = Some (tt, wc, e) ->
  boot_due wc = true ->
  boot_firings cfg (s :: ss) w = 1%nat.
Proof.
  intros Hwf Hb D. cbn [boot_firings]. rewrite Hb, D.
  rewrite (boot_block_fires cfg wc D).
  assert (Hterm : terminates (after_boot_check cfg)).
  { unfold after_boot_check. term. apply terminates_pollRestoreButton, Hwf. }
  destruct (Hterm (later (macro_ms cfg 0) (boot_cleared wc)))
    as ([] & w' & e' & E').
  rewrite E'. cbn [prefix].
  assert (Hoff : trigger_is false (bootRestoreAtMs (gv wc)) tt
                   (later (macro_ms cfg 0) (boot_cleared wc)))
    by (split; reflexivity).
  destruct (frame_after_boot_check cfg false (bootRestoreAtMs (gv wc))
              tt _ w' tt e' Hoff E') as (_ & _ & Hc' & _).
  rewrite (boot_firings_off cfg ss w' Hc'). reflexivity.
Qed.

Lemma publish_count_app (a b : list Event) :
  publish_count (a ++ b) = (publish_count a + publish_count b)%nat.
Proof.
  induction a as [|e a IH]; [reflexivity|].
  destruct e; cbn [app publish_count]; rewrite IH; reflexivity.
Qed.

Lemma publish_count_rounds (ev : list Event) (n : nat) :
  publish_count ev = O -> publish_count (List.concat (repeat ev n)) = O.
Proof.
  intros H. induction n as [|n IH]; [reflexivity|].
  cbn [repeat List.concat]. rewrite publish_count_app, H, IH. reflexivity.
Qed.

Lemma status_event_disconnected (w : World) (msg : string) :
  mqtt_connected (hw w) = false -> status_event w msg = [].
Proof. intros H. unfold status_event. rewrite H. reflexivity. Qed.

Lemma publish_count_labelled (cfg : Config) (w : World) (code : Z)
    (tag : string) :
  mqtt_connected (hw w) = false ->
  publish_count (labelled_trace cfg w code tag) = O.
Proof.
  intros H. unfold labelled_trace.
  rewrite (status_event_disconnected w _ H). reflexivity.
Qed.

Lemma publish_count_macro (cfg : Config) (w : World) (tag : string) (pre : Z) :
  mqtt_connected (hw w) = false ->
  publish_count (macro_trace cfg w tag pre) = O.
Proof.
  intros H. unfold macro_trace, wait_trace.
  rewrite !(status_event_disconnected w _ H).
  rewrite !publish_count_app, !publish_count_rounds,
    !(publish_count_labelled cfg w _ _ H); try reflexivity.
  rewrite publish_count_app, (publish_count_labelled cfg w _ _ H).
  reflexivity.
Qed.

Lemma mqtt_loop_idle (cfg : Config) (w : World) :
  inbox (hw w) = [] -> mqtt_loop cfg w = Some (tt, w, [EMqttLoop]).
Proof. intros H. unfold mqtt_loop. mrun. rewrite H. reflexivity. Qed.

(** A connection and the discovery publication, in one and the same pass. *)
Lemma connect_then_discover (cfg : Config) (w : World) :
  mqtt_due w = true -> broker_accepts (hw w) = true -> inbox (hw w) = [] ->
  (ensureMQTTNonBlocking cfg ;; loop_session cfg) w =
  Some (tt, on_gv (set_discoveryPublished true) (after_mqtt_attempt w),
        mqtt_attempt_trace cfg w ++ [EMqttLoop] ++
        discovery_block_trace (after_mqtt_attempt w)).
Proof.
  intros Hdue Hok Hin.
  rewrite (bind_known _ _ w (after_mqtt_attempt w) tt
             (mqtt_attempt_trace cfg w))
    by (rewrite ensureMQTTNonBlocking_run, Hdue; reflexivity).
  unfold loop_session, mqtt_connected_. mrun.
  assert (Hc : mqtt_connected (hw (after_mqtt_attempt w)) = true)
    by (unfold after_mqtt_attempt; rewrite Hok; reflexivity).
  assert (Hp : discoveryPublished (gv (after_mqtt_attempt w)) = false)
    by (unfold after_mqtt_attempt; rewrite Hok; reflexivity).
  assert (Hi : inbox (hw (after_mqtt_attempt w)) = [])
    by (unfold after_mqtt_attempt; rewrite Hok; exact Hin).
  rewrite Hc. cbn [when].
  rewrite (bind_known _ _ _ _ _ _ (mqtt_loop_idle cfg _ Hi)).
  rewrite loop_discovery_run, Hp. reflexivity.
Qed.

(** Session upkeep, whatever message it delivers, leaves the discovery flag
    alone. *)
Lemma mqtt_loop_keeps_flag (cfg : Config) (b : bool) :
  respects any_step (discovery_flag_is b) (mqtt_loop cfg).
Proof.
  apply (respects_mqtt_loop any_step (discovery_flag_is b) (fun _ => true)
           cfg).
  - reflexivity.
  - intros u w f H. exact H.
  - reflexivity.
  - intros msg H. discriminate.
Qed.

(** A connection and the discovery publication in one and the same pass,
    whatever the inbox holds. *)
Lemma connect_then_discover_any (cfg : Config) (w : World) :
  wf_config cfg ->
  mqtt_due w = true -> broker_accepts (hw w) = true ->
  exists (w' : World) (evs : list Event),
    (ensureMQTTNonBlocking cfg ;; loop_session cfg) w = Some (tt, w', evs) /\
    discoveryPublished (gv w') = true.
Proof.
  intros Hwf Hdue Hok.
  assert (Hc : mqtt_connected (hw (after_mqtt_attempt w)) = true)
    by (unfold after_mqtt_attempt; rewrite Hok; reflexivity).
  assert (Hp : discoveryPublished (gv (after_mqtt_attempt w)) = false)
    by (unfold after_mqtt_attempt; rewrite Hok; reflexivity).
  destruct (terminates_mqtt_loop cfg Hwf (after_mqtt_attempt w))
    as ([] & w1 & e1 & Hloop).
  destruct (mqtt_loop_keeps_flag cfg false tt _ w1 tt e1 Hp Hloop)
    as (u & _ & Hp1).
  exists (on_gv (set_discoveryPublished true) w1),
    (mqtt_attempt_trace cfg w ++ e1 ++ discovery_block_trace w1).
  split; [|reflexivity].
  rewrite (bind_known _ _ w (after_mqtt_attempt w) tt
             (mqtt_attempt_trace cfg w))
    by (rewrite ensureMQTTNonBlocking_run, Hdue; reflexivity).
  unfold loop_session, mqtt_connected_. mrun. rewrite Hc. cbn [when].
  rewrite (bind_known _ _ _ _ _ _ Hloop).
  unfold discovery_flag_is in Hp1. rewrite loop_discovery_run, Hp1.
  reflexivity.
Qed.

(* ------------------------------------------------------------------ *)
(** ** The model on concrete inputs *)

Example trim_example : trim "  Temp_Up  " = "Temp_Up"%string.
Proof. reflexivity. Qed.

Example trim_blank_example : trim "   " = EmptyString.
Proof. reflexivity. Qed.

Example normalize_example :
  normalize (list_byte_of_string "  Temp_Up  ") = "temp_up"%string.
Proof. reflexivity. Qed.

Example topics_example :
  mqttTopicStatus (gv after_soft_reset) = "hvac/bathroom/geyser/status"%string.
Proof. reflexivity. Qed.

(** The shipped macro: 23 labelled transmissions, 46 frames, 25 status
    tokens when the session is up. *)
Example shipped_macro_example :
  List.length (macro_codes shipped_config) = 23%nat /\
  List.length (twice (macro_codes shipped_config)) = 46%nat /\
  List.length (macro_status shipped_config "boot_powerloss") = 25%nat /\
  macro_ms shipped_config 0 = 5333 /\
  macro_ms shipped_config 500 = 5833.
Proof. repeat split; reflexivity. Qed.

(** A command while the session is down is carried out and not reported. *)
Example command_while_disconnected_example :
  events (handleCommand shipped_config "temp_up") after_soft_reset =
  [EPrint "MQTT cmd: "; EPrintln "temp_up"; EIrSendNEC IR_TEMP_UP 32;
   EDelay 50; EIrSendNEC IR_TEMP_UP 32; EYield; EDelay 180;
   EPrintln "IR sent: temp_up"; EYield; EDelay 1].
Proof. reflexivity. Qed.

(* ------------------------------------------------------------------ *)
(** ** The claims *)

(** C9. Every transmitter invocation sends the 32-bit code exactly twice, 50 ms
    apart.  The labelled variant transmits, then waits the inter-command gap
    [IR_GAP_MS], then hands the one status token [sent:<tag>] to
    [publishStatus] (published while the session is up), in that order. *)
Theorem transmitter_sends_twice_then_reports (cfg : Config) (code : Z)
    (tag : string) (w : World) :
  sendNEC code w =
    Some (tt, later 50 w,
          [EIrSendNEC code 32; EDelay 50; EIrSendNEC code 32; EYield]) /\
  sendCmd cfg code tag w =
    Some (tt, later (50 + IR_GAP_MS cfg + 1) w,
          [EIrSendNEC code 32; EDelay 50; EIrSendNEC code 32; EYield;
           EDelay (IR_GAP_MS cfg)] ++
          status_event w ("sent:" +++ tag) ++
          [EPrintln ("IR sent: " +++ tag); EYield; EDelay 1]) /\
  ir_codes (events (sendCmd cfg code tag) w) = [code; code] /\
  published_on (mqttTopicStatus (gv w)) (events (sendCmd cfg code tag) w) =
    (if mqtt_connected (hw w) then ["sent:" +++ tag] else []).
Proof.
  split; [apply sendNEC_run|].
  split; [apply sendCmd_run|].
  unfold events. rewrite sendCmd_run.
  split; [apply ir_codes_labelled | apply published_on_labelled].
Qed.

(** C1. For every trigger tag, step count and pre-delay, one run of the
    recovery macro hands [restore:start:<tag>] to [publishStatus], waits the
    pre-delay, then makes one labelled transmission of the power-toggle code,
    one of the temp-mode code, N of the temp-up code and one of the
    power-toggle code, in that order, and finally hands [restore:done:<tag>]
    to [publishStatus].  The codes sent do not depend on the tag. *)
Theorem recovery_macro_sequence (cfg : Config) (tag : string) (pre : Z)
    (w : World) :
  0 <= pre <= 2 ^ 32 - 5 ->
  restoreTo45AndOff cfg tag pre w =
    Some (tt, later (macro_ms cfg pre) w,
          status_event w ("restore:start:" +++ tag) ++
          [EPrintln ("restore:start:" +++ tag)] ++
          wait_trace pre ++
          labelled_trace cfg w IR_POWER_TOGGLE "power_toggle_on" ++
          labelled_trace cfg w IR_TEMP_MODE "temp_mode" ++
          List.concat
            (repeat (labelled_trace cfg w IR_TEMP_UP "temp_up" ++
                     [EYield; EDelay 1])
               (Z.to_nat (TEMP_STEPS_TO_45 cfg))) ++
          labelled_trace cfg w IR_POWER_TOGGLE "power_toggle_off" ++
          status_event w ("restore:done:" +++ tag) ++
          [EPrintln ("restore:done:" +++ tag)]) /\
  ir_codes (events (restoreTo45AndOff cfg tag pre) w) =
    twice ([IR_POWER_TOGGLE; IR_TEMP_MODE] ++
           repeat IR_TEMP_UP (Z.to_nat (TEMP_STEPS_TO_45 cfg)) ++
           [IR_POWER_TOGGLE]) /\
  published_on (mqttTopicStatus (gv w))
    (events (restoreTo45AndOff cfg tag pre) w) =
    (if mqtt_connected (hw w) then macro_status cfg tag else []) /\
  (forall tag' : string,
      ir_codes (events (restoreTo45AndOff cfg tag' pre) w) =
      ir_codes (events (restoreTo45AndOff cfg tag pre) w)).
Proof.
  intros Hpre.
  split; [apply restoreTo45AndOff_run; exact Hpre|].
  unfold events. rewrite restoreTo45AndOff_run by exact Hpre.
  split; [apply ir_codes_macro|].
  split; [apply published_on_macro|].
  intros tag'. rewrite restoreTo45AndOff_run by exact Hpre.
  rewrite !ir_codes_macro. reflexivity.
Qed.

Lemma recovery_macro_sequence_witness :
  ir_codes (events (restoreTo45AndOff shipped_config "button" 500) session_up)
    = twice ([IR_POWER_TOGGLE; IR_TEMP_MODE] ++ repeat IR_TEMP_UP 20 ++
             [IR_POWER_TOGGLE]) /\
  published_on "hvac/bathroom/geyser/status"
    (events (restoreTo45AndOff shipped_config "button" 500) session_up) =
    ["restore:start:button"; "sent:power_toggle_on"; "sent:temp_mode"]%string
    ++ repeat "sent:temp_up"%string 20 ++
    ["sent:power_toggle_off"; "restore:done:button"]%string.
Proof.
  destruct (recovery_macro_sequence shipped_config "button" 500 session_up)
    as (_ & Hir & Hst & _).
  - vm_compute. split; discriminate.
  - split; [exact Hir|exact Hst].
Defined.

(** C3. Each of the seven single-code tokens makes exactly one labelled
    transmission, with the token's code and the token as tag, and hands
    exactly one [sent:<tag>] to [publishStatus]; [restore_state] makes exactly
    one run of the macro (tag mqtt, manual pre-delay).  The callback trims and
    lower-cases the payload before dispatch, so a padded, mixed-case spelling
    of a token behaves as the token does. *)
Theorem dispatch_recognized (cfg : Config) (w : World) :
  wf_config cfg ->
  (forall (token : string) (code : Z),
      In (token, code) command_table ->
      handleCommand cfg token w =
        Some (tt, later (labelled_ms cfg) w,
              [EPrint "MQTT cmd: "; EPrintln token] ++
              labelled_trace cfg w code token) /\
      ir_codes (events (handleCommand cfg token) w) = [code; code] /\
      published_on (mqttTopicStatus (gv w))
        (events (handleCommand cfg token) w) =
        (if mqtt_connected (hw w) then ["sent:" +++ token] else [])) /\
  handleCommand cfg "restore_state" w =
    Some (tt, later (macro_ms cfg (MANUAL_DELAY_MS cfg)) w,
          [EPrint "MQTT cmd: "; EPrintln "restore_state"] ++
          macro_trace cfg w "mqtt" (MANUAL_DELAY_MS cfg)) /\
  (forall (token topic : string) (payload : list Byte.byte)
          (l body r : string),
      In token recognized ->
      string_of_payload payload = l +++ body +++ r ->
      all_space l = true -> all_space r = true ->
      toLowerCase body = token ->
      mqttCallback cfg topic payload w = handleCommand cfg token w) /\
  (forall topic : string,
      mqttCallback cfg topic (list_byte_of_string "  Temp_Up  ") w =
        Some (tt, later (labelled_ms cfg) w,
              [EPrint "MQTT cmd: "; EPrintln "temp_up"] ++
              labelled_trace cfg w IR_TEMP_UP "temp_up")).
Proof.
  intros Hwf. repeat split.
  - apply handleCommand_single. assumption.
  - unfold events. rewrite (handleCommand_single cfg token code w H).
    rewrite ir_codes_app, ir_codes_labelled. reflexivity.
  - unfold events. rewrite (handleCommand_single cfg token code w H).
    rewrite published_on_app, published_on_labelled. reflexivity.
  - apply handleCommand_restore. exact Hwf.
  - intros token topic payload l body r Hin Hp Hl Hr Hb.
    rewrite mqttCallback_normalizes.
    rewrite (normalize_padded payload l body r token); auto.
    unfold recognized, command_table in Hin. cbn [map fst app In] in Hin.
    repeat (destruct Hin as [<-|Hin]; [reflexivity|]). contradiction.
  - intros topic. rewrite mqttCallback_normalizes.
    change (normalize (list_byte_of_string "  Temp_Up  "))
      with "temp_up"%string.
    apply handleCommand_single. cbn. tauto.
Qed.

Lemma dispatch_recognized_witness :
  handleCommand shipped_config "temp_down" session_up =
  Some (tt, later 231 session_up,
        [EPrint "MQTT cmd: "; EPrintln "temp_down";
         EIrSendNEC IR_TEMP_DOWN 32; EDelay 50; EIrSendNEC IR_TEMP_DOWN 32;
         EYield; EDelay 180;
         EMqttPublish "hvac/bathroom/geyser/status" "sent:temp_down" true;
         EPrintln "IR sent: temp_down"; EYield; EDelay 1]).
Proof.
  destruct (dispatch_recognized shipped_config session_up shipped_config_wf)
    as (Hsingle & _).
  apply (Hsingle "temp_down"%string IR_TEMP_DOWN). cbn. tauto.
Defined.




(** C2. The boot recovery scheduler arms the one-shot trigger if and only if
    the last reset reason is power-on or brownout; for each of the other
    reasons of the enumeration (external, software, panic, the three
    watchdogs, deep sleep, unknown, and any further value) it does not arm. *)
Theorem boot_scheduler_arms_iff_power_loss (cfg : Config) (w : World) :
  bootRestoreScheduled (gv w) = false ->
  (forall r : esp_reset_reason_t,
      shouldRunRestoreOnBoot r = true <->
      r = ESP_RST_POWERON \/ r = ESP_RST_BROWNOUT) /\
  exists (w' : World) (evs : list Event),
    setup cfg w = Some (tt, w', evs) /\
    (bootRestoreScheduled (gv w') = true <->
     reset_reason (hw w) = ESP_RST_POWERON \/
     reset_reason (hw w) = ESP_RST_BROWNOUT) /\
    (In (reset_reason (hw w))
        [ESP_RST_EXT; ESP_RST_SW; ESP_RST_PANIC; ESP_RST_INT_WDT;
         ESP_RST_TASK_WDT; ESP_RST_WDT; ESP_RST_DEEPSLEEP; ESP_RST_UNKNOWN;
         ESP_RST_SDIO] \/
     (exists value : Z, reset_reason (hw w) = ESP_RST_OTHER value) ->
     bootRestoreScheduled (gv w') = false).
Proof.
  intros Hoff. split; [apply shouldRunRestoreOnBoot_iff|].
  destruct (setup_run cfg w) as (evs & Hrun & _).
  exists (after_setup cfg w), evs. split; [exact Hrun|].
  rewrite after_setup_scheduled, Hoff, orb_false_r.
  split; [apply shouldRunRestoreOnBoot_iff|].
  cbn [In]. intros [H|[value H]].
  - repeat (destruct H as [<-|H]; [reflexivity|]). contradiction.
  - rewrite H. reflexivity.
Qed.

Lemma boot_scheduler_arms_iff_power_loss_witness :
  exists (w' : World) (evs : list Event),
    setup shipped_config (power_up ESP_RST_BROWNOUT) = Some (tt, w', evs) /\
    bootRestoreScheduled (gv w') = true.
Proof.
  destruct (boot_scheduler_arms_iff_power_loss shipped_config
              (power_up ESP_RST_BROWNOUT) eq_refl)
    as [_ (w' & evs & Hrun & Hiff & _)].
  exists w', evs. split; [exact Hrun|]. apply Hiff. right. reflexivity.
Defined.

(** C8. For the link and for the session, a connection attempt is made exactly
    when not connected and at least the fixed cooldown has gone by (modulo
    2^32 ms) since the last attempt; the session is attempted only while the
    link is up; the last-attempt time is set to now whatever the broker
    answers; a failed attempt is repeated after each further cooldown, with
    no growth of the interval and no limit on the number of attempts. *)
Theorem reconnect_on_fixed_cooldown (cfg : Config) (w : World) :
  let now := wrap32 (clock (hw w)) in
  (* link *)
  (wifi_due w = true <->
   wifi_connected (hw w) = false /\
   WIFI_RETRY_MS <= wrap32 (now - lastWifiAttemptMs (gv w))) /\
  ensureWiFiNonBlocking cfg w =
    (if wifi_due w
     then Some (tt, on_gv (set_lastWifiAttemptMs now) w,
                wifi_attempt_trace cfg)
     else Some (tt, w, [])) /\
  (* session *)
  (mqtt_due w = true <->
   wifi_connected (hw w) = true /\ mqtt_connected (hw w) = false /\
   MQTT_RETRY_MS <= wrap32 (now - lastMqttAttemptMs (gv w))) /\
  ensureMQTTNonBlocking cfg w =
    (if mqtt_due w
     then Some (tt, after_mqtt_attempt w, mqtt_attempt_trace cfg w)
     else Some (tt, w, [])) /\
  lastMqttAttemptMs (gv (after_mqtt_attempt w)) = now /\
  mqtt_connected (hw (after_mqtt_attempt w)) = broker_accepts (hw w) /\
  (* no back-off, no limit *)
  (forall n : nat,
      mqtt_due w = true -> broker_accepts (hw w) = false ->
      connect_attempts
        (events (repeatM n (ensureMQTTNonBlocking cfg ;; idle MQTT_RETRY_MS))
           w) = n) /\
  (forall n : nat,
      wifi_due w = true ->
      wifi_attempts
        (events (repeatM n (ensureWiFiNonBlocking cfg ;; idle WIFI_RETRY_MS))
           w) = n).
Proof.
  cbv zeta.
  split; [apply wifi_due_iff|].
  split; [apply ensureWiFiNonBlocking_run|].
  split; [apply mqtt_due_iff|].
  split; [apply ensureMQTTNonBlocking_run|].
  split; [unfold after_mqtt_attempt; destruct (broker_accepts (hw w));
          reflexivity|].
  split; [unfold after_mqtt_attempt; destruct (broker_accepts (hw w));
          reflexivity|].
  split.
  - intros n Hdue Hno.
    destruct (mqtt_retries_unbounded cfg n w Hdue Hno) as (w' & evs & Hr & Hc).
    unfold events. rewrite Hr. exact Hc.
  - intros n Hdue.
    destruct (wifi_retries_unbounded cfg n w Hdue) as (w' & evs & Hr & Hc).
    unfold events. rewrite Hr. exact Hc.
Qed.

Lemma reconnect_on_fixed_cooldown_witness :
  connect_attempts
    (events (repeatM 3 (ensureMQTTNonBlocking shipped_config ;;
                        idle MQTT_RETRY_MS))
       broker_down_at_5000) = 3%nat.
Proof.
  apply (reconnect_on_fixed_cooldown shipped_config broker_down_at_5000);
    reflexivity.
Defined.

(** C6, as stated, fails: the poll does not measure how long the new level has
    been held.  After a software reset, the pass at 999 ms reads the pin
    released and sends nothing; the next pass, at 1000 ms, reads it pressed,
    and the macro runs at once, on a level held for at most one millisecond. *)
Lemma brief_press_triggers_macro :
  ir_codes (events (passes shipped_config [nothing_up 799]) after_soft_reset)
    = [] /\
  option_map (fun w => (clock (hw w), lastBtnState (gv w)))
    (final (passes shipped_config [nothing_up 799]) after_soft_reset) =
    Some (1000, HIGH) /\
  1000 - 999 < DEBOUNCE_MS /\
  ir_codes
    (events (passes shipped_config [nothing_up 799; button_pressed 0])
       after_soft_reset) =
    twice ([IR_POWER_TOGGLE; IR_TEMP_MODE] ++ repeat IR_TEMP_UP 20 ++
           [IR_POWER_TOGGLE]).
Proof.
  repeat split; vm_compute; reflexivity.
Qed.

(** C6, amended.  The poll accepts a level that differs from the last accepted
    one when more than [DEBOUNCE_MS] (modulo 2^32 ms) have gone by since that
    one was accepted, however briefly the new level has been held; for
    [DEBOUNCE_MS] after an accepted change no change is accepted.  An accepted
    change to the pressed level makes exactly one run of the macro, tag
    button, manual pre-delay; an accepted release only records the level; a
    poll that accepts nothing does nothing. *)
Theorem button_poll_lockout (cfg : Config) (w : World) :
  wf_config cfg ->
  (button_accepts w = true <->
   btn_pin (hw w) <> lastBtnState (gv w) /\
   DEBOUNCE_MS < wrap32 (wrap32 (clock (hw w)) - lastBtnChangeMs (gv w))) /\
  (button_accepts w = false ->
   pollRestoreButton cfg w = Some (tt, w, [])) /\
  (button_accepts w = true -> btn_pin (hw w) = HIGH ->
   pollRestoreButton cfg w = Some (tt, button_recorded w, [])) /\
  (button_accepts w = true -> btn_pin (hw w) = LOW ->
   pollRestoreButton cfg w =
     Some (tt,
           later (macro_ms cfg (MANUAL_DELAY_MS cfg)) (button_recorded w),
           status_event w "button:restore_pressed" ++
           [EPrintln "button:restore_pressed"] ++
           macro_trace cfg w "button" (MANUAL_DELAY_MS cfg)) /\
   ir_codes (events (pollRestoreButton cfg) w) = twice (macro_codes cfg)) /\
  (forall (w' : World) (d : Z),
      gv w' = gv (button_recorded w) ->
      clock (hw w') = clock (hw w) + d ->
      0 <= d <= DEBOUNCE_MS ->
      pollRestoreButton cfg w' = Some (tt, w', [])).
Proof.
  intros Hwf.
  split; [apply button_accepts_iff|].
  split; [apply pollRestoreButton_quiet|].
  split; [apply pollRestoreButton_release|].
  split.
  - intros Hacc Hpin.
    pose proof (pollRestoreButton_run cfg w Hwf) as H.
    unfold LOW in Hpin. rewrite Hacc, Hpin in H. split; [exact H|].
    unfold events. rewrite H.
    rewrite !ir_codes_app, ir_codes_status, ir_codes_macro. reflexivity.
  - intros w' d Hg Hc Hd. apply pollRestoreButton_quiet.
    exact (button_lockout w w' d Hg Hc Hd).
Qed.

Lemma button_poll_lockout_witness :
  pollRestoreButton shipped_config glitch_at_1000 =
  Some (tt, later (macro_ms shipped_config 500)
              (button_recorded glitch_at_1000),
        status_event glitch_at_1000 "button:restore_pressed" ++
        [EPrintln "button:restore_pressed"] ++
        macro_trace shipped_config glitch_at_1000 "button" 500).
Proof.
  apply (button_poll_lockout shipped_config glitch_at_1000 shipped_config_wf);
    reflexivity.
Defined.

(** C5, as stated, fails on one point: the discovery set is published, and
    the flag set, in the very pass in which the session is connected, not in a
    later one.  After a software reset, the first pass with the link and the
    broker up connects, publishes the discovery set once and ends with the
    flag set. *)
Lemma discovery_in_the_pass_of_connection :
  mqtt_connected (hw after_soft_reset) = false /\
  discoveryPublished (gv after_soft_reset) = false /\
  option_map (fun w => (mqtt_connected (hw w), discoveryPublished (gv w)))
    (final (pass shipped_config (link_and_broker_up 5000)) after_soft_reset) =
    Some (true, true) /\
  connect_attempts
    (events (pass shipped_config (link_and_broker_up 5000)) after_soft_reset) =
    1%nat /\
  List.length
    (published_on sensor_config_topic
       (events (pass shipped_config (link_and_broker_up 5000))
          after_soft_reset)) = 1%nat.
Proof. repeat split; vm_compute; reflexivity. Qed.

(** C5, amended.  The discovery-published flag is false right after every
    successful session connection.  It is set by the discovery block alone,
    after the full discovery set has been published, and the reset-reason
    status and the ready status are handed to [publishStatus] right after the
    set; this happens in the pass of the connection itself.  Along any run
    from startup the discovery set is never published twice without a new
    session connection in between. *)
Theorem discovery_once_per_session (cfg : Config) :
  wf_config cfg ->
  (forall w : World,
      mqtt_due w = true -> broker_accepts (hw w) = true ->
      ensureMQTTNonBlocking cfg w =
        Some (tt, after_mqtt_attempt w, mqtt_attempt_trace cfg w) /\
      mqtt_connected (hw (after_mqtt_attempt w)) = true /\
      discoveryPublished (gv (after_mqtt_attempt w)) = false) /\
  (forall w : World,
      loop_discovery w =
        if discoveryPublished (gv w)
        then Some (tt, w, [])
        else Some (tt, on_gv (set_discoveryPublished true) w,
                   discovery_trace w ++
                   status_event w
                     ("boot:reset_reason:" +++
                      resetReasonToString (reset_reason (hw w))) ++
                   status_event w "ready")) /\
  (forall w : World,
      mqtt_due w = true -> broker_accepts (hw w) = true ->
      inbox (hw w) = [] ->
      (ensureMQTTNonBlocking cfg ;; loop_session cfg) w =
        Some (tt, on_gv (set_discoveryPublished true) (after_mqtt_attempt w),
              mqtt_attempt_trace cfg w ++ [EMqttLoop] ++
              discovery_block_trace (after_mqtt_attempt w))) /\
  (forall w : World,
      mqtt_due w = true -> broker_accepts (hw w) = true ->
      exists (w' : World) (evs : list Event),
        (ensureMQTTNonBlocking cfg ;; loop_session cfg) w =
          Some (tt, w', evs) /\
        discoveryPublished (gv w') = true) /\
  (forall (ss : list Stimulus) (w : World),
      exists (w' : World) (evs : list Event),
        boot cfg ss w = Some (tt, w', evs) /\
        monitor session_step (discoveryPublished (gv w)) evs =
          Some (discoveryPublished (gv w'))).
Proof.
  intros Hwf. split; [|split; [|split; [|split]]].
  - intros w Hdue Hok. rewrite ensureMQTTNonBlocking_run, Hdue.
    unfold after_mqtt_attempt. rewrite Hok. repeat split.
  - apply loop_discovery_run.
  - apply connect_then_discover.
  - intros w. apply connect_then_discover_any. exact Hwf.
  - intros ss w. apply session_boot. exact Hwf.
Qed.

Lemma discovery_once_per_session_witness :
  exists (w' : World) (evs : list Event),
    boot shipped_config [link_and_broker_up 5000; link_and_broker_up 10]
      (power_up ESP_RST_SW) = Some (tt, w', evs) /\
    monitor session_step false evs = Some (discoveryPublished (gv w')).
Proof.
  apply (discovery_once_per_session shipped_config shipped_config_wf).
Defined.

(** C7.  The boot trigger is armed by [setup] alone, with fire-at equal to the
    time of arming plus the boot settle delay (modulo 2^32).  Every pass tests
    it with [millis() >= fire-at]; when the test succeeds the trigger is
    cleared and the macro then runs, from the world in which it is already
    cleared.  No pass arms it, so in any run the trigger fires in at most one
    pass, and in exactly one as soon as a pass tests it at or after fire-at. *)
Theorem boot_trigger_fires_once (cfg : Config) :
  (forall w : World,
      bootRestoreScheduled (gv w) = false ->
      exists evs : list Event,
        setup cfg w = Some (tt, after_setup cfg w, evs) /\
        bootRestoreScheduled (gv (after_setup cfg w)) =
          shouldRunRestoreOnBoot (reset_reason (hw w)) /\
        (shouldRunRestoreOnBoot (reset_reason (hw w)) = true ->
         bootRestoreAtMs (gv (after_setup cfg w)) =
           wrap32 (wrap32 (clock (hw w) + 200) + BOOT_DELAY_MS cfg) /\
         (0 <= clock (hw w) -> 0 <= BOOT_DELAY_MS cfg ->
          clock (hw w) + 200 + BOOT_DELAY_MS cfg < 2 ^ 32 ->
          bootRestoreAtMs (gv (after_setup cfg w)) =
            clock (hw w) + 200 + BOOT_DELAY_MS cfg))) /\
  (forall (s : Stimulus) (w : World),
      pass cfg s w =
      (before_boot_check cfg s ;; loop_bootRestore cfg ;;
       after_boot_check cfg) w) /\
  (forall w : World,
      boot_due w = true <->
      bootRestoreScheduled (gv w) = true /\
      bootRestoreAtMs (gv w) <= wrap32 (clock (hw w))) /\
  (forall w : World,
      loop_bootRestore cfg w =
        if boot_due w
        then prefix (status_event w "boot:powerloss_restore:run")
               (restoreTo45AndOff cfg "boot_powerloss" 0 (boot_cleared w))
        else Some (tt, w, [])) /\
  (forall w : World,
      bootRestoreScheduled (gv (boot_cleared w)) = false /\
      (boot_due w = true ->
       ir_codes (events (loop_bootRestore cfg) w) = twice (macro_codes cfg))) /\
  (forall (ss : list Stimulus) (w : World),
      (boot_firings cfg ss w <= 1)%nat) /\
  (forall (ss : list Stimulus) (w : World),
      bootRestoreScheduled (gv w) = false -> boot_firings cfg ss w = 0%nat) /\
  (forall (s : Stimulus) (ss : list Stimulus) (w wc : World)
          (e : list Event),
      wf_config cfg ->
      before_boot_check cfg s w = Some (tt, wc, e) ->
      boot_due wc = true ->
      boot_firings cfg (s :: ss) w = 1%nat) /\
  (forall (ss : list Stimulus) (w w' : World) (evs : list Event),
      bootRestoreScheduled (gv w) = false ->
      passes cfg ss w = Some (tt, w', evs) ->
      bootRestoreScheduled (gv w') = false).
Proof.
  repeat match goal with |- _ /\ _ => split end.
  - intros w Hoff. destruct (setup_run cfg w) as (evs & Hrun & _).
    exists evs. split; [exact Hrun|].
    split; [rewrite after_setup_scheduled, Hoff; apply orb_false_r|].
    intros Harm. pose proof (after_setup_fire_at cfg w Harm) as Hat.
    split; [exact Hat|]. intros Hc Hd Hlt. rewrite Hat.
    rewrite (wrap32_small (clock (hw w) + 200)) by lia.
    apply wrap32_small. lia.
  - apply pass_split.
  - apply boot_due_iff.
  - apply loop_bootRestore_clears_first.
  - intros w. split; [reflexivity|].
    intros D. unfold events. rewrite loop_bootRestore_run, D.
    rewrite ir_codes_app, ir_codes_status, ir_codes_macro. reflexivity.
  - apply boot_firings_le_1.
  - intros ss w. apply boot_firings_off.
  - intros s ss w wc e. apply boot_firings_fires.
  - intros ss w w' evs. apply passes_trigger_off.
Qed.

(** The brownout scenario with the shipped configuration: armed at 200 ms for
    15200 ms, not fired by the pass at 15199 ms, fired by the pass at
    15200 ms, and not again. *)
Lemma brownout_scenario_fires_once :
  bootRestoreScheduled (gv after_brownout) = true /\
  bootRestoreAtMs (gv after_brownout) = 15200 /\
  boot_firings shipped_config [nothing_up 14999] after_brownout = 0%nat /\
  boot_firings shipped_config [nothing_up 14999; nothing_up 0] after_brownout
    = 1%nat /\
  boot_firings shipped_config brownout_scenario after_brownout = 1%nat.
Proof. repeat split; vm_compute; reflexivity. Qed.

Lemma boot_trigger_fires_once_witness :
  (boot_firings shipped_config brownout_scenario after_brownout <= 1)%nat /\
  bootRestoreAtMs (gv after_brownout) = 0 + 200 + 15000.
Proof.
  destruct (boot_trigger_fires_once shipped_config)
    as (Hsetup & _ & _ & _ & _ & Hle & _).
  split; [apply Hle|].
  destruct (Hsetup (power_up ESP_RST_BROWNOUT) eq_refl)
    as (evs & _ & _ & Hat).
  destruct (Hat eq_refl) as [_ Hplain].
  apply Hplain; vm_compute; congruence.
Defined.

(** C10.  While the session is not connected, [publishStatus] does nothing:
    no call on the session, the world unchanged, so nothing is kept for
    later.  When the boot trigger fires in that state the macro makes every
    IR transmission and no publication at all; and from then on, since the
    trigger is cleared, no run ever publishes its start or done token. *)
Theorem status_dropped_while_disconnected (cfg : Config) (w : World) :
  mqtt_connected (hw w) = false ->
  (forall (msg : string) (retain : bool),
      publishStatus msg retain w = Some (tt, w, [])) /\
  (boot_due w = true ->
   loop_bootRestore cfg w =
     Some (tt, later (macro_ms cfg 0) (boot_cleared w),
           macro_trace cfg w "boot_powerloss" 0) /\
   publish_count (macro_trace cfg w "boot_powerloss" 0) = 0%nat /\
   ir_codes (macro_trace cfg w "boot_powerloss" 0) =
     twice (macro_codes cfg)) /\
  (forall (ss : list Stimulus) (w' : World) (evs : list Event),
      (after_boot_check cfg ;; passes cfg ss)
        (later (macro_ms cfg 0) (boot_cleared w)) = Some (tt, w', evs) ->
      forall (topic payload : string) (retain : bool),
        In (EMqttPublish topic payload retain) evs ->
        payload <> "restore:start:boot_powerloss"%string /\
        payload <> "restore:done:boot_powerloss"%string).
Proof.
  intros Hoff. split; [|split].
  - intros msg retain.
    unfold publishStatus, bind, mqtt_connected_, read_hw. rewrite Hoff.
    reflexivity.
  - intros D. split; [|split].
    + rewrite loop_bootRestore_run, D.
      rewrite (status_event_disconnected w _ Hoff). reflexivity.
    + apply publish_count_macro. exact Hoff.
    + apply ir_codes_macro.
  - intros ss w' evs Hrun topic payload retain Hin.
    assert (Hresp : respects boot_status_step trigger_off
                      (after_boot_check cfg ;; passes cfg ss)).
    { apply respects_bind;
        [apply boot_status_after_boot_check
        |intros _; apply boot_status_passes]. }
    assert (Hcleared : trigger_off tt
                         (later (macro_ms cfg 0) (boot_cleared w)))
      by reflexivity.
    destruct (Hresp tt _ w' tt evs Hcleared Hrun) as ([] & Hm & _).
    pose proof (monitor_boot_status_In evs topic payload retain Hm Hin) as Hp.
    unfold not_boot_status in Hp. apply andb_prop in Hp as [H1 H2].
    apply negb_true_iff in H1, H2.
    apply String.eqb_neq in H1, H2. split; assumption.
Qed.

Lemma status_dropped_while_disconnected_witness :
  publishStatus "restore:start:boot_powerloss" true after_brownout =
  Some (tt, after_brownout, []).
Proof.
  apply (status_dropped_while_disconnected shipped_config after_brownout).
  reflexivity.
Defined.

(* ------------------------------------------------------------------ *)
(** ** Further properties of the sketch *)

(** *** The cooperative wait *)

(** X1. [waitMsWithYield ms] returns for every [ms] up to 2^32 - 5.  It makes
    [(ms + 4) / 5] rounds of [delay(5); yield()] and nothing else, so it
    takes the least multiple of 5 ms that is at least [ms]: never less than
    asked, and less than 5 ms more.  It changes nothing but the clock. *)
Theorem wait_takes_the_next_multiple_of_5 (ms : Z) (w : World) :
  0 <= ms <= 2 ^ 32 - 5 ->
  waitMsWithYield ms w =
    Some (tt, later (5 * Z.of_nat (wait_rounds ms)) w,
          List.concat (repeat [EDelay 5; EYield] (wait_rounds ms))) /\
  Z.of_nat (wait_rounds ms) = (ms + 4) / 5 /\
  ms <= 5 * Z.of_nat (wait_rounds ms) < ms + 5.
Proof.
  intros Hms. split; [apply (waitMsWithYield_run ms w Hms)|].
  split; [|apply wait_rounds_bounds; lia].
  unfold wait_rounds. apply Z2Nat.id. apply Z.div_pos; lia.
Qed.

Lemma wait_takes_the_next_multiple_of_5_witness :
  waitMsWithYield 498 (power_up ESP_RST_SW) =
    Some (tt, later (5 * Z.of_nat (wait_rounds 498)) (power_up ESP_RST_SW),
          List.concat (repeat [EDelay 5; EYield] (wait_rounds 498))) /\
  Z.of_nat (wait_rounds 498) = (498 + 4) / 5 /\
  498 <= 5 * Z.of_nat (wait_rounds 498) < 498 + 5.
Proof.
  apply (wait_takes_the_next_multiple_of_5 498 (power_up ESP_RST_SW)).
  vm_compute. split; discriminate.
Defined.

(* ------------------------------------------------------------------ *)
(** *** Normalisation of inbound payloads *)

Lemma skip_leading_space_toLowerCase (s : string) :
  skip_leading_space (toLowerCase s) = toLowerCase (skip_leading_space s).
Proof.
  induction s as [|c s IH]; cbn [toLowerCase skip_leading_space].
  - reflexivity.
  - destruct (Ascii.eqb_spec c Ascii.zero) as [->|Hc]; [reflexivity|].
    cbn [skip_leading_space]. rewrite isspace_tolower.
    destruct (isspace c); [exact IH|]. cbn [toLowerCase].
    destruct (Ascii.eqb_spec c Ascii.zero); [contradiction|reflexivity].
Qed.

(** What starts with a NUL character is left as it is. *)
Lemma toLowerCase_nul (s : string) :
  toLowerCase (String Ascii.zero s) = String Ascii.zero s.
Proof. reflexivity. Qed.

Lemma drop_trailing_space_nul (s : string) :
  exists r, drop_trailing_space (String Ascii.zero s) = String Ascii.zero r.
Proof.
  cbn [drop_trailing_space].
  destruct (drop_trailing_space s); eexists; reflexivity.
Qed.

Lemma drop_trailing_space_toLowerCase (s : string) :
  drop_trailing_space (toLowerCase s) = toLowerCase (drop_trailing_space s).
Proof.
  induction s as [|c s IH]; [reflexivity|].
  destruct (Ascii.eqb_spec c Ascii.zero) as [->|Hc].
  - rewrite toLowerCase_nul.
    destruct (drop_trailing_space_nul s) as (r & ->). reflexivity.
  - cbn [toLowerCase].
    destruct (Ascii.eqb_spec c Ascii.zero); [contradiction|].
    cbn [drop_trailing_space]. rewrite IH.
    destruct (drop_trailing_space s); cbn [toLowerCase].
    + rewrite isspace_tolower. destruct (isspace c); cbn [toLowerCase];
        [reflexivity|].
      destruct (Ascii.eqb_spec c Ascii.zero); [contradiction|reflexivity].
    + destruct (Ascii.eqb_spec c Ascii.zero); [contradiction|].
      destruct (Ascii.eqb a Ascii.zero); reflexivity.
Qed.

Lemma trim_toLowerCase (s : string) :
  trim (toLowerCase s) = toLowerCase (trim s).
Proof.
  unfold trim.
  rewrite skip_leading_space_toLowerCase, drop_trailing_space_toLowerCase.
  reflexivity.
Qed.

Lemma skip_leading_space_app (s r : string) :
  skip_leading_space (s +++ r) =
  if all_space s then skip_leading_space r else skip_leading_space s +++ r.
Proof.
  induction s as [|c s IH]; cbn [String.append skip_leading_space all_space].
  - reflexivity.
  - destruct (isspace c); cbn [andb]; [exact IH|reflexivity].
Qed.

(** White space around a text does not survive [trim]. *)
Lemma trim_pad (l s r : string) :
  all_space l = true -> all_space r = true ->
  trim (l +++ s +++ r) = trim s.
Proof.
  intros Hl Hr. unfold trim.
  rewrite skip_leading_space_pad by exact Hl.
  rewrite skip_leading_space_app.
  destruct (all_space s) eqn:Hs.
  - rewrite (skip_leading_space_all r Hr), (skip_leading_space_all s Hs).
    reflexivity.
  - apply drop_trailing_space_pad. exact Hr.
Qed.

Lemma tolower_tolower (c : ascii) : tolower (tolower c) = tolower c.
Proof.
  destruct c as [b0 b1 b2 b3 b4 b5 b6 b7].
  destruct b0, b1, b2, b3, b4, b5, b6, b7; reflexivity.
Qed.

Lemma tolower_nul (c : ascii) :
  Ascii.eqb (tolower c) Ascii.zero = Ascii.eqb c Ascii.zero.
Proof.
  destruct c as [b0 b1 b2 b3 b4 b5 b6 b7].
  destruct b0, b1, b2, b3, b4, b5, b6, b7; reflexivity.
Qed.

Lemma toLowerCase_toLowerCase (s : string) :
  toLowerCase (toLowerCase s) = toLowerCase s.
Proof.
  induction s as [|c s IH]; [reflexivity|].
  destruct (Ascii.eqb_spec c Ascii.zero) as [->|Hc]; [reflexivity|].
  cbn [toLowerCase].
  destruct (Ascii.eqb_spec c Ascii.zero); [contradiction|].
  cbn [toLowerCase]. rewrite tolower_nul.
  destruct (Ascii.eqb_spec c Ascii.zero); [contradiction|].
  rewrite tolower_tolower, IH. reflexivity.
Qed.

Lemma drop_trailing_space_idem (s : string) :
  drop_trailing_space (drop_trailing_space s) = drop_trailing_space s.
Proof.
  induction s as [|c s IH]; cbn [drop_trailing_space]; [reflexivity|].
  destruct (drop_trailing_space s) as [|c' r'] eqn:E.
  - destruct (isspace c) eqn:Hc; cbn [drop_trailing_space];
      [reflexivity|rewrite Hc; reflexivity].
  - cbn [drop_trailing_space]. cbn [drop_trailing_space] in IH.
    rewrite IH. reflexivity.
Qed.

(** What [skip_leading_space] returns does not start with white space. *)
Lemma skip_leading_space_head (s : string) :
  match skip_leading_space s with
  | EmptyString => True
  | String c _ => isspace c = false
  end.
Proof.
  induction s as [|c s IH]; cbn [skip_leading_space]; [exact I|].
  destruct (isspace c) eqn:Hc; [exact IH|exact Hc].
Qed.

Lemma skip_drop_trailing_space (s : string) :
  match s with EmptyString => True | String c _ => isspace c = false end ->
  skip_leading_space (drop_trailing_space s) = drop_trailing_space s.
Proof.
  destruct s as [|c s]; [reflexivity|]. intros Hc.
  cbn [drop_trailing_space].
  destruct (drop_trailing_space s); [rewrite Hc|];
    cbn [skip_leading_space]; rewrite Hc; reflexivity.
Qed.

Lemma trim_trim (s : string) : trim (trim s) = trim s.
Proof.
  unfold trim.
  rewrite (skip_drop_trailing_space _ (skip_leading_space_head s)).
  apply drop_trailing_space_idem.
Qed.

Lemma string_of_payload_bytes (s : string) :
  string_of_payload (list_byte_of_string s) = s.
Proof.
  unfold list_byte_of_string.
  induction s as [|c s IH];
    cbn [list_ascii_of_string map string_of_payload]; [reflexivity|].
  rewrite ascii_of_byte_of_ascii, IH. reflexivity.
Qed.

(** X2. The command handler reads a payload without regard to the topic it
    arrived on, to white space around it and to the case of its letters up
    to a first NUL character (where [toLowerCase] stops): two payloads that
    [toLowerCase] maps to the same text, white space around one of them
    apart, are handled by the same call of [handleCommand]. *)
Theorem callback_ignores_topic_case_and_padding (cfg : Config)
    (topic topic' : string) (payload payload' : list Byte.byte)
    (l r : string) :
  all_space l = true -> all_space r = true ->
  toLowerCase (string_of_payload payload') =
  toLowerCase (l +++ string_of_payload payload +++ r) ->
  mqttCallback cfg topic' payload' = mqttCallback cfg topic payload /\
  mqttCallback cfg topic' payload' = handleCommand cfg (normalize payload).
Proof.
  intros Hl Hr H.
  assert (E : normalize payload' = normalize payload).
  { unfold normalize. rewrite <- !trim_toLowerCase, H, trim_toLowerCase.
    rewrite (trim_pad l _ r Hl Hr). apply eq_sym, trim_toLowerCase. }
  rewrite !mqttCallback_normalizes, E. split; reflexivity.
Qed.

Lemma callback_ignores_topic_case_and_padding_witness :
  mqttCallback shipped_config "any/topic"
    (list_byte_of_string "  Restore_STATE  ") =
  mqttCallback shipped_config "hvac/bathroom/geyser/command"
    (list_byte_of_string "restore_state") /\
  mqttCallback shipped_config "any/topic"
    (list_byte_of_string "  Restore_STATE  ") =
  handleCommand shipped_config
    (normalize (list_byte_of_string "restore_state")).
Proof.
  apply (callback_ignores_topic_case_and_padding shipped_config
           "hvac/bathroom/geyser/command" "any/topic"
           (list_byte_of_string "restore_state")
           (list_byte_of_string "  Restore_STATE  ") "  " "  ");
    reflexivity.
Defined.

(** X3. The text [handleCommand] receives is in normal form: trimming it or
    lowering its case again changes nothing, and a payload that carries this
    text is read as the same text. *)
Theorem normalized_command_is_a_fixed_point (payload : list Byte.byte) :
  trim (normalize payload) = normalize payload /\
  toLowerCase (normalize payload) = normalize payload /\
  normalize (list_byte_of_string (normalize payload)) = normalize payload.
Proof.
  assert (Ht : trim (normalize payload) = normalize payload).
  { unfold normalize. rewrite trim_toLowerCase, trim_trim. reflexivity. }
  assert (Hl : toLowerCase (normalize payload) = normalize payload).
  { unfold normalize. apply toLowerCase_toLowerCase. }
  split; [exact Ht|]. split; [exact Hl|].
  unfold normalize at 1. rewrite string_of_payload_bytes, Ht. exact Hl.
Qed.

(* ------------------------------------------------------------------ *)
(** *** The reset reason *)

(** X4. The text of a reset reason tells the nine reasons the sketch names
    apart: two reasons with the same text are the same reason, unless the
    text is [UNKNOWN].  The boot trigger is armed exactly for the reasons
    whose text is [POWERON] or [BROWNOUT]. *)
Theorem reset_reason_text_identifies_the_reason (r : esp_reset_reason_t) :
  (forall r' : esp_reset_reason_t,
      resetReasonToString r' = resetReasonToString r ->
      r' = r \/ resetReasonToString r = "UNKNOWN"%string) /\
  (shouldRunRestoreOnBoot r = true <->
   resetReasonToString r = "POWERON"%string \/
   resetReasonToString r = "BROWNOUT"%string) /\
  (resetReasonToString r = "UNKNOWN"%string <->
   r = ESP_RST_UNKNOWN \/ r = ESP_RST_SDIO \/
   exists value, r = ESP_RST_OTHER value).
Proof.
  split; [|split].
  - intros r' H.
    destruct r; try (right; reflexivity);
      destruct r'; try reflexivity; try discriminate H; left; reflexivity.
  - split.
    + intros H. apply shouldRunRestoreOnBoot_iff in H as [-> | ->];
        [left|right]; reflexivity.
    + intros [H|H]; destruct r; try discriminate H; reflexivity.
  - split.
    + intros H. destruct r; try discriminate H; eauto.
    + intros [-> | [-> | [value ->]]]; reflexivity.
Qed.

(* ------------------------------------------------------------------ *)
(** *** Topics *)

Lemma eqb_append_l (s a b : string) :
  String.eqb (s +++ a) (s +++ b) = String.eqb a b.
Proof.
  induction s as [|c s IH]; cbn [String.append String.eqb]; [reflexivity|].
  rewrite Ascii.eqb_refl. exact IH.
Qed.

Lemma append_assoc (a b c : string) : (a +++ b) +++ c = a +++ b +++ c.
Proof.
  induction a as [|x a IH]; cbn [String.append]; [reflexivity|].
  rewrite IH. reflexivity.
Qed.

Lemma length_append (a b : string) :
  String.length (a +++ b) = (String.length a + String.length b)%nat.
Proof.
  induction a as [|x a IH]; cbn [String.append String.length Nat.add];
    [reflexivity|].
  rewrite IH. reflexivity.
Qed.

Lemma topics_built_eq (cfg : Config) (g : Globals) :
  topics_built cfg g ->
  mqttTopicCmd g = command_topic cfg /\
  mqttTopicStatus g = status_topic cfg /\
  mqttTopicAvail g = availability_topic cfg.
Proof. intros H. exact H. Qed.

(** No message is published on the command topic. *)
Lemma command_topic_not_published (cfg : Config) :
  existsb (String.eqb (command_topic cfg)) (publish_topics cfg) = false.
Proof.
  unfold publish_topics, command_topic, status_topic, availability_topic.
  cbn [app existsb]. rewrite !eqb_append_l. reflexivity.
Qed.

Lemma hvac_not_homeassistant (cfg : Config) (suffix rest : string) :
  topic_base cfg +++ suffix <>
  String "h" (String "o" rest).
Proof. unfold topic_base. cbn [String.append]. discriminate. Qed.

Lemma publish_topics_NoDup (cfg : Config) : NoDup (publish_topics cfg).
Proof.
  unfold publish_topics, discovery_buttons, sensor_config_topic,
    button_config_topic, button_id.
  cbn [app map fst String.append].
  repeat constructor; cbn [In]; intros H;
    try unfold status_topic in H; try unfold availability_topic in H;
    repeat match type of H with
           | _ \/ _ => destruct H as [H|H]
           | False => exact H
           | String "h" (String "o" _) = _ +++ _ =>
               exact (hvac_not_homeassistant cfg _ _ (eq_sym H))
           | _ +++ _ = String "h" (String "o" _) =>
               exact (hvac_not_homeassistant cfg _ _ H)
           | String _ _ = String _ _ => discriminate H
           | _ +++ _ = _ +++ _ =>
               apply String.eqb_eq in H;
               rewrite eqb_append_l in H; discriminate H
           end.
Qed.

(** X5. [buildMqttTopics] sets the three topics under
    [hvac/<DEVICE_AREA>/<DEVICE_NAME_MQTT>] and changes nothing else.
    Whatever the two names are, the command topic is none of the topics the
    device publishes on (status, availability and the nine discovery
    topics), and these eleven are pairwise distinct. *)
Theorem topics_are_built_distinct (cfg : Config) (w : World) :
  buildMqttTopics cfg w =
    Some (tt,
          on_gv (set_topics (command_topic cfg) (status_topic cfg)
                   (availability_topic cfg)) w,
          []) /\
  existsb (String.eqb (command_topic cfg)) (publish_topics cfg) = false /\
  NoDup (publish_topics cfg) /\
  List.length (publish_topics cfg) = 11%nat.
Proof.
  split; [reflexivity|].
  split; [apply command_topic_not_published|].
  split; [apply publish_topics_NoDup|reflexivity].
Qed.

(* ------------------------------------------------------------------ *)
(** *** The discovery set *)

Lemma discovery_trace_messages (w : World) :
  discovery_trace w =
  flat_map (fun m => config_publish w (fst m) (snd m))
    (discovery_messages w) ++
  status_event w "discovery:published" ++
  [EPrintln "HA discovery published (retained)."].
Proof.
  unfold discovery_trace, discovery_messages, discovery_buttons,
    button_publish, sensor_message, button_message, button_id, button_name,
    button_press.
  cbn [map flat_map fst snd]. rewrite <- ?app_assoc, ?app_nil_r.
  reflexivity.
Qed.

Lemma button_presses_recognized :
  map button_press discovery_buttons = recognized.
Proof. reflexivity. Qed.

Lemma recognized_cases (cmd : string) :
  In cmd recognized ->
  (exists code, In (cmd, code) command_table) \/
  cmd = "restore_state"%string.
Proof.
  unfold recognized. rewrite in_app_iff. intros [H|H].
  - left. apply in_map_iff in H as ([t c] & <- & Hin). exists c. exact Hin.
  - right. destruct H as [<-|[]]. reflexivity.
Qed.

(** The texts that make the device transmit are those that read, as C
    strings, as a recognized command. *)
Lemma handleCommand_transmits_iff (cfg : Config) (cmd : string) (w : World) :
  wf_config cfg ->
  In (c_str cmd) recognized <->
  ir_codes (events (handleCommand cfg cmd) w) <> [].
Proof.
  intros Hwf. unfold events. split.
  - intros H. destruct (recognized_cases _ H) as [[code Hin] | Hr].
    + rewrite (handleCommand_cut cfg cmd _ code w eq_refl Hin).
      rewrite ir_codes_app, ir_codes_labelled. discriminate.
    + rewrite (handleCommand_cut_restore cfg cmd w Hwf Hr).
      rewrite ir_codes_app, ir_codes_macro. discriminate.
  - intros H.
    destruct (in_dec string_dec (c_str cmd) recognized) as [Hin|Hnot];
      [exact Hin|].
    exfalso. apply H. rewrite (handleCommand_unknown cfg cmd w Hnot).
    rewrite !ir_codes_app, ir_codes_status. reflexivity.
Qed.

Lemma button_json_press_members (c a id n p : string) :
  buttonDiscoveryJson c a id n p =
  ("{" +++ quoted "name" +++ ":" +++ quoted n +++ ",") +++
  press_members c p +++
  (quoted "availability_topic" +++ ":" +++ quoted a +++ "," +++
   quoted "payload_available" +++ ":" +++ quoted AVAIL_ONLINE +++ "," +++
   quoted "payload_not_available" +++ ":" +++ quoted AVAIL_OFFLINE +++ "," +++
   quoted "unique_id" +++ ":" +++ quoted id +++ "," +++
   quoted "device" +++ ":" +++ deviceBlockJson +++
   "}").
Proof.
  unfold buttonDiscoveryJson, press_members.
  rewrite !append_assoc. reflexivity.
Qed.

(** X6. [publishAllDiscovery] sends the nine messages of the discovery set,
    then the status token, and changes nothing.  The payloads its eight
    buttons send on a press are exactly the commands the dispatcher
    recognizes: a text makes the device transmit if and only if, read as a C
    string (up to its first NUL character, as the comparison of the sketch
    reads it), it is the payload of one of the buttons; each button's JSON
    carries the command topic and that payload. *)
Theorem discovery_buttons_are_the_commands (cfg : Config) (w : World) :
  wf_config cfg ->
  publishAllDiscovery w =
    Some (tt, w,
          flat_map (fun m => config_publish w (fst m) (snd m))
            (discovery_messages w) ++
          status_event w "discovery:published" ++
          [EPrintln "HA discovery published (retained)."]) /\
  (forall cmd : string,
      In (c_str cmd) (map button_press discovery_buttons) <->
      ir_codes (events (handleCommand cfg cmd) w) <> []) /\
  (forall b, In b discovery_buttons ->
     exists pre post,
       snd (button_message w b) =
       pre +++ press_members (mqttTopicCmd (gv w)) (button_press b) +++ post) /\
  NoDup (map button_id discovery_buttons).
Proof.
  intros Hwf. split; [|split; [|split]].
  - rewrite publishAllDiscovery_run, discovery_trace_messages. reflexivity.
  - intros cmd. rewrite button_presses_recognized.
    apply handleCommand_transmits_iff. exact Hwf.
  - intros b _. unfold button_message. cbn [snd].
    rewrite button_json_press_members. eauto.
  - unfold discovery_buttons, button_id. cbn [map fst].
    repeat constructor; cbn [In]; intros H;
      repeat match type of H with
             | _ \/ _ => destruct H as [H|H]
             | False => exact H
             | _ = _ => discriminate H
             end.
Qed.

Lemma discovery_buttons_are_the_commands_witness :
  (forall cmd : string,
      In (c_str cmd) (map button_press discovery_buttons) <->
      ir_codes (events (handleCommand shipped_config cmd) session_up) <> []) /\
  NoDup (map button_id discovery_buttons).
Proof.
  split;
    apply (discovery_buttons_are_the_commands shipped_config session_up
             shipped_config_wf).
Defined.

Lemma buttonDiscoveryJson_length (c a id n p : string) :
  String.length (buttonDiscoveryJson c a id n p) =
  (283 + String.length c + String.length a + String.length id +
   String.length n + String.length p)%nat.
Proof.
  unfold buttonDiscoveryJson, quoted. rewrite !length_append.
  change (String.length deviceBlockJson) with 122%nat.
  cbn [String.length dq AVAIL_ONLINE AVAIL_OFFLINE]. lia.
Qed.

Lemma statusSensorDiscoveryJson_length (s a id : string) :
  String.length (statusSensorDiscoveryJson s a id) =
  (278 + String.length s + String.length a + String.length id)%nat.
Proof.
  unfold statusSensorDiscoveryJson, quoted. rewrite !length_append.
  change (String.length deviceBlockJson) with 122%nat.
  cbn [String.length dq AVAIL_ONLINE AVAIL_OFFLINE]. lia.
Qed.

Lemma topic_lengths (cfg : Config) :
  String.length (command_topic cfg) =
    (14 + String.length (DEVICE_AREA cfg) +
     String.length (DEVICE_NAME_MQTT cfg))%nat /\
  String.length (status_topic cfg) =
    (13 + String.length (DEVICE_AREA cfg) +
     String.length (DEVICE_NAME_MQTT cfg))%nat /\
  String.length (availability_topic cfg) =
    (19 + String.length (DEVICE_AREA cfg) +
     String.length (DEVICE_NAME_MQTT cfg))%nat.
Proof.
  unfold command_topic, status_topic, availability_topic, topic_base.
  rewrite !length_append. cbn [String.length]. lia.
Qed.

(** X7. With the topics built, each of the nine discovery payloads is longer
    than 256 characters, whatever the configured names, and topic and
    payload together take at most 431 characters plus twice the length of
    [DEVICE_AREA] and [DEVICE_NAME_MQTT]: when these two have at most 800
    characters together, every discovery message stays below the 2048 bytes
    [setup] gives the MQTT client. *)
Theorem discovery_messages_fit_the_buffer (cfg : Config) (w : World)
    (topic payload : string) :
  topics_built cfg (gv w) ->
  Z.of_nat (String.length (DEVICE_AREA cfg)) +
  Z.of_nat (String.length (DEVICE_NAME_MQTT cfg)) <= 800 ->
  In (topic, payload) (discovery_messages w) ->
  256 < Z.of_nat (String.length payload) /\
  message_size topic payload <=
    431 + 2 * (Z.of_nat (String.length (DEVICE_AREA cfg)) +
               Z.of_nat (String.length (DEVICE_NAME_MQTT cfg))) /\
  message_size topic payload < 2048.
Proof.
  intros Ht Hlen Hin. apply topics_built_eq in Ht as (Hc & Hs & Ha).
  destruct (topic_lengths cfg) as (Lc & Ls & La).
  assert (Hmain :
            256 < Z.of_nat (String.length payload) /\
            message_size topic payload <=
            431 + 2 * (Z.of_nat (String.length (DEVICE_AREA cfg)) +
                       Z.of_nat (String.length (DEVICE_NAME_MQTT cfg)))).
  { unfold discovery_messages, discovery_buttons, sensor_message,
      button_message, button_id, button_name, button_press in Hin.
    cbn [map In fst snd] in Hin. unfold message_size.
    repeat (destruct Hin as [Hin|Hin];
            [injection Hin as <- <-;
             rewrite ?buttonDiscoveryJson_length,
               ?statusSensorDiscoveryJson_length, Ha, ?Hc, ?Hs, La, ?Lc, ?Ls;
             unfold button_config_topic, sensor_config_topic;
             cbn [String.length String.append]; lia|]).
    contradiction. }
  destruct Hmain as [H1 H2]. repeat split; [exact H1|exact H2|lia].
Qed.

Lemma discovery_messages_fit_the_buffer_witness :
  256 <
  Z.of_nat (String.length
              (buttonDiscoveryJson "hvac/bathroom/geyser/command"
                 "hvac/bathroom/geyser/availability"
                 "ir_btn_restore_45_off_01" "Restore 45C + OFF"
                 "restore_state")) /\
  message_size "homeassistant/button/ir_btn_restore_45_off_01/config"
    (buttonDiscoveryJson "hvac/bathroom/geyser/command"
       "hvac/bathroom/geyser/availability"
       "ir_btn_restore_45_off_01" "Restore 45C + OFF" "restore_state") <=
  431 + 2 * (Z.of_nat (String.length "bathroom") +
             Z.of_nat (String.length "geyser")) /\
  message_size "homeassistant/button/ir_btn_restore_45_off_01/config"
    (buttonDiscoveryJson "hvac/bathroom/geyser/command"
       "hvac/bathroom/geyser/availability"
       "ir_btn_restore_45_off_01" "Restore 45C + OFF" "restore_state") <
  2048.
Proof.
  apply (discovery_messages_fit_the_buffer shipped_config session_up).
  - repeat split.
  - vm_compute. discriminate.
  - unfold discovery_messages, discovery_buttons. cbn [map In].
    do 8 right. left. reflexivity.
Defined.

(* ------------------------------------------------------------------ *)
(** *** Startup *)

Lemma after_setup_wifi_due (cfg : Config) (w : World) :
  after_setup cfg w =
  let w1 :=
    on_gv (set_topics (command_topic cfg) (status_topic cfg)
             (availability_topic cfg))
      (later 200 w) in
  let w2 :=
    if shouldRunRestoreOnBoot (reset_reason (hw w))
    then on_gv (set_bootRestore true
                  (wrap32 (wrap32 (clock (hw w) + 200) + BOOT_DELAY_MS cfg)))
           w1
    else w1 in
  if wifi_due (later 200 w)
  then on_gv (set_lastWifiAttemptMs (wrap32 (clock (hw w) + 200))) w2
  else w2.
Proof.
  unfold after_setup. cbv zeta.
  destruct (shouldRunRestoreOnBoot (reset_reason (hw w))); reflexivity.
Qed.

(** [setup], run: its calls and the world it leaves. *)
Lemma setup_run_trace (cfg : Config) (w : World) :
  setup cfg w = Some (tt, after_setup cfg w, setup_trace cfg w).
Proof.
  rewrite after_setup_wifi_due. cbv zeta. unfold setup_trace.
  destruct (shouldRunRestoreOnBoot (reset_reason (hw w))) eqn:Hs;
    destruct (wifi_due (later 200 w)) eqn:E;
    unfold setup, buildMqttTopics; mrun;
    cbn [hw gv on_gv later on_hw set_clock reset_reason];
    rewrite Hs; cbn [when]; mrun;
    rewrite ensureWiFiNonBlocking_run;
    match goal with |- context [if wifi_due ?y then _ else _] =>
      change (wifi_due y) with (wifi_due (later 200 w)) end;
    rewrite E; mrun; reflexivity.
Qed.

Lemma wifi_attempts_setup (cfg : Config) (w : World) :
  wifi_attempts (setup_trace cfg w) =
  if wifi_due (later 200 w) then 1%nat else 0%nat.
Proof.
  unfold setup_trace. rewrite !wifi_attempts_app.
  destruct (shouldRunRestoreOnBoot (reset_reason (hw w)));
    destruct (wifi_due (later 200 w)); reflexivity.
Qed.

Lemma ir_codes_setup (cfg : Config) (w : World) :
  ir_codes (setup_trace cfg w) = [].
Proof.
  unfold setup_trace. rewrite !ir_codes_app.
  destruct (shouldRunRestoreOnBoot (reset_reason (hw w)));
    destruct (wifi_due (later 200 w)); reflexivity.
Qed.

Lemma publish_count_setup (cfg : Config) (w : World) :
  publish_count (setup_trace cfg w) = 0%nat.
Proof.
  unfold setup_trace. rewrite !publish_count_app.
  destruct (shouldRunRestoreOnBoot (reset_reason (hw w)));
    destruct (wifi_due (later 200 w)); reflexivity.
Qed.

(** X8. On a fresh start ([lastWifiAttemptMs] still 0, the clock below
    4800 ms) [setup] makes no link connection attempt: its call of
    [ensureWiFiNonBlocking] finds the retry cooldown not over.  [setup] takes
    200 ms, sends no IR code and publishes nothing; after it, a pass of
    [loop] that finds the link down makes the first attempt exactly when the
    clock has reached [WIFI_RETRY_MS]. *)
Theorem setup_defers_the_first_link_attempt (cfg : Config) (w : World) :
  lastWifiAttemptMs (gv w) = 0 ->
  0 <= clock (hw w) ->
  clock (hw w) + 200 < WIFI_RETRY_MS ->
  setup cfg w = Some (tt, after_setup cfg w, setup_trace cfg w) /\
  wifi_attempts (setup_trace cfg w) = 0%nat /\
  ir_codes (setup_trace cfg w) = [] /\
  publish_count (setup_trace cfg w) = 0%nat /\
  clock (hw (after_setup cfg w)) = clock (hw w) + 200 /\
  lastWifiAttemptMs (gv (after_setup cfg w)) = 0 /\
  (forall s : Stimulus,
      s_wifi s = false ->
      clock (hw w) + 200 + Z.of_N (s_elapsed s) < 2 ^ 32 ->
      ensureWiFiNonBlocking cfg (seen_after s (after_setup cfg w)) =
      if WIFI_RETRY_MS <=? clock (hw w) + 200 + Z.of_N (s_elapsed s)
      then Some (tt,
                 on_gv (set_lastWifiAttemptMs
                          (clock (hw w) + 200 + Z.of_N (s_elapsed s)))
                   (seen_after s (after_setup cfg w)),
                 wifi_attempt_trace cfg)
      else Some (tt, seen_after s (after_setup cfg w), [])).
Proof.
  intros Hlast Hclock Hearly.
  assert (Hdue : wifi_due (later 200 w) = false).
  { unfold wifi_due. cbn [later on_hw hw gv set_clock clock].
    rewrite Hlast, Z.sub_0_r.
    rewrite !(wrap32_small (clock (hw w) + 200))
      by (unfold WIFI_RETRY_MS in Hearly; change (2 ^ 32) with 4294967296;
          lia).
    replace (clock (hw w) + 200 <? WIFI_RETRY_MS) with true
      by (symmetry; apply Z.ltb_lt; exact Hearly).
    apply andb_false_r. }
  assert (Hafter :
            after_setup cfg w =
            (if shouldRunRestoreOnBoot (reset_reason (hw w))
             then on_gv (set_bootRestore true
                           (wrap32 (wrap32 (clock (hw w) + 200) +
                                    BOOT_DELAY_MS cfg)))
                    (on_gv (set_topics (command_topic cfg) (status_topic cfg)
                              (availability_topic cfg)) (later 200 w))
             else on_gv (set_topics (command_topic cfg) (status_topic cfg)
                           (availability_topic cfg)) (later 200 w))).
  { rewrite after_setup_wifi_due. cbv zeta. rewrite Hdue. reflexivity. }
  split; [apply setup_run_trace|].
  split; [rewrite wifi_attempts_setup, Hdue; reflexivity|].
  split; [apply ir_codes_setup|].
  split; [apply publish_count_setup|].
  split; [rewrite Hafter;
          destruct (shouldRunRestoreOnBoot (reset_reason (hw w)));
          reflexivity|].
  split; [rewrite Hafter;
          destruct (shouldRunRestoreOnBoot (reset_reason (hw w)));
          exact Hlast|].
  intros s Hs Hfit. rewrite ensureWiFiNonBlocking_run.
  assert (Hc : clock (hw (seen_after s (after_setup cfg w))) =
               clock (hw w) + 200 + Z.of_N (s_elapsed s)).
  { rewrite Hafter.
    destruct (shouldRunRestoreOnBoot (reset_reason (hw w))); reflexivity. }
  assert (Hl : lastWifiAttemptMs (gv (seen_after s (after_setup cfg w))) = 0).
  { rewrite Hafter.
    destruct (shouldRunRestoreOnBoot (reset_reason (hw w))); exact Hlast. }
  assert (Hw : wifi_connected (hw (seen_after s (after_setup cfg w))) = false).
  { exact Hs. }
  unfold wifi_due. rewrite Hc, Hl, Hw, Z.sub_0_r.
  change (2 ^ 32) with 4294967296 in Hfit.
  rewrite !(wrap32_small (clock (hw w) + 200 + Z.of_N (s_elapsed s)))
    by (pose proof (N2Z.is_nonneg (s_elapsed s));
        change (2 ^ 32) with 4294967296; lia).
  rewrite Z.leb_antisym. reflexivity.
Qed.

Lemma setup_defers_the_first_link_attempt_witness :
  setup shipped_config (power_up ESP_RST_POWERON) =
    Some (tt, after_setup shipped_config (power_up ESP_RST_POWERON),
          setup_trace shipped_config (power_up ESP_RST_POWERON)) /\
  wifi_attempts (setup_trace shipped_config (power_up ESP_RST_POWERON)) =
    0%nat /\
  ensureWiFiNonBlocking shipped_config
    (seen_after (nothing_up 4800)
       (after_setup shipped_config (power_up ESP_RST_POWERON))) =
  Some (tt,
        on_gv (set_lastWifiAttemptMs 5000)
          (seen_after (nothing_up 4800)
             (after_setup shipped_config (power_up ESP_RST_POWERON))),
        wifi_attempt_trace shipped_config).
Proof.
  destruct (setup_defers_the_first_link_attempt shipped_config
              (power_up ESP_RST_POWERON))
    as (H1 & H2 & _ & _ & _ & _ & H7);
    [reflexivity | discriminate | reflexivity |].
  split; [exact H1|]. split; [exact H2|].
  exact (H7 (nothing_up 4800) eq_refl eq_refl).
Defined.

(* ------------------------------------------------------------------ *)
(** *** The alive log *)

Lemma loop_alive_run (w : World) :
  loop_alive w =
  if alive_due w
  then Some (tt, on_gv (set_tAlive (wrap32 (clock (hw w)))) w, alive_trace w)
  else Some (tt, w, []).
Proof.
  unfold loop_alive, alive_due, WiFi_connected, mqtt_connected_. mrun.
  destruct (_ >? _); cbn [when]; [|reflexivity].
  mrun. reflexivity.
Qed.

(** X9. The alive line of [loop] is logged when more than 10000 ms have gone
    by since the last one, and not before: [d] ms after a pass that logged it
    (or after power-up), the block logs the line, with the state of the link
    and of the session, exactly when [d > 10000]; otherwise it does
    nothing. *)
Theorem alive_log_every_10_seconds (w w' : World) (d : Z) :
  tAlive (gv w') = wrap32 (clock (hw w)) ->
  clock (hw w') = clock (hw w) + d ->
  0 <= d < 2 ^ 32 ->
  loop_alive w' =
  if 10000 <? d
  then Some (tt, on_gv (set_tAlive (wrap32 (clock (hw w')))) w',
             [EPrint "LOOP: alive | WiFi=";
              EPrint (if wifi_connected (hw w') then "OK" else "NO");
              EPrint " | MQTT=";
              EPrintln (if mqtt_connected (hw w') then "OK" else "NO")])
  else Some (tt, w', []).
Proof.
  intros Ht Hc Hd. rewrite loop_alive_run. unfold alive_due.
  rewrite Ht, Hc, wrap32_elapsed, (wrap32_small d) by exact Hd.
  rewrite Z.gtb_ltb. reflexivity.
Qed.

Lemma alive_log_every_10_seconds_witness :
  loop_alive (later 10001 (power_up ESP_RST_SW)) =
  Some (tt,
        on_gv (set_tAlive 10001) (later 10001 (power_up ESP_RST_SW)),
        [EPrint "LOOP: alive | WiFi="; EPrint "NO"; EPrint " | MQTT=";
         EPrintln "NO"]).
Proof.
  apply (alive_log_every_10_seconds (power_up ESP_RST_SW)
           (later 10001 (power_up ESP_RST_SW)) 10001).
  - reflexivity.
  - reflexivity.
  - vm_compute. split; [discriminate|reflexivity].
Defined.

(* ------------------------------------------------------------------ *)
(** *** The OTA block *)

Lemma ArduinoOTA_handle_run (w : World) :
  ArduinoOTA_handle w = Some (tt, ota_serviced w, ota_handle_trace w).
Proof.
  unfold ArduinoOTA_handle, ota_serviced, ota_handle_trace. mrun.
  destruct (ota_pending (hw w)) as [[| |error]|];
    unfold ota_onStart, ota_onEnd, ota_onError; mrun; reflexivity.
Qed.

Lemma loop_ota_run (cfg : Config) (w : World) :
  loop_ota cfg w =
  if ota_due w
  then Some (tt, ota_serviced (on_gv (set_otaStarted true) w),
             ota_start_trace cfg w ++ ota_handle_trace w)
  else if otaStarted (gv w)
       then Some (tt, ota_serviced w, ota_handle_trace w)
       else Some (tt, w, []).
Proof.
  unfold loop_ota, ota_due, WiFi_connected, setupOTA. mrun.
  destruct (wifi_connected (hw w)), (otaStarted (gv w)) eqn:Hs;
    cbn [andb negb when]; mrun;
    cbn [gv on_gv set_otaStarted otaStarted]; rewrite ?Hs; cbn [when];
    rewrite ?ArduinoOTA_handle_run; mrun; reflexivity.
Qed.

(* ------------------------------------------------------------------ *)
(** ** Monitors along the supervisor, event by event

    The same invariant scheme as in section [Monitors], for monitors that
    look at other events than publications and subscriptions: what the
    monitor must accept is asked event shape by event shape, and what the
    relation must be stable under, write by write.  Each block of [loop]
    comes with the hypotheses it needs, so that a monitor can take the
    generic proof for some blocks and its own for the others.  The status
    tokens the monitor must accept are those of [allowed], which holds at
    least of every token the sketch can build ([status_token]). *)

Section Watch.

Context {S : Type}.
Variable step : S -> Event -> option S.
Variable R : S -> World -> Prop.
Variable allowed : string -> bool.
Variable cfg : Config.

Hypothesis step_print : forall s t, step s (EPrint t) = Some s.
Hypothesis step_println : forall s t, step s (EPrintln t) = Some s.
Hypothesis step_delay : forall s d, step s (EDelay d) = Some s.
Hypothesis step_yield : forall s, step s EYield = Some s.
Hypothesis step_ir : forall s c b, step s (EIrSendNEC c b) = Some s.
Hypothesis step_mqtt_loop : forall s, step s EMqttLoop = Some s.
Hypothesis step_wifi_mode : forall s, step s EWifiMode = Some s.
Hypothesis step_wifi_begin : forall s a b, step s (EWifiBegin a b) = Some s.
Hypothesis step_ota_hostname :
  forall s h, step s (EOtaSetHostname h) = Some s.
Hypothesis step_ota_password :
  forall s p, step s (EOtaSetPassword p) = Some s.
Hypothesis step_ota_begin : forall s, step s EOtaBegin = Some s.
Hypothesis step_ota_handle : forall s, step s EOtaHandle = Some s.
Hypothesis step_status :
  forall s w msg,
    R s w -> allowed msg = true ->
    step s (EMqttPublish (mqttTopicStatus (gv w)) msg true) = Some s.
Hypothesis allowed_tokens :
  forall msg, status_token msg = true -> allowed msg = true.

Hypothesis R_later : forall s w d, R s w -> R s (later d w).
Hypothesis R_inbox : forall s w l, R s w -> R s (on_hw (set_inbox l) w).
Hypothesis R_ota_pending :
  forall s w o, R s w -> R s (on_hw (set_ota_pending o) w).
Hypothesis R_stimulus :
  forall s w st, R s w -> R s (on_hw (apply_stimulus st) w).
Hypothesis R_button :
  forall s w l t, R s w -> R s (on_gv (set_button l t) w).
Hypothesis R_wifi :
  forall s w t, R s w -> R s (on_gv (set_lastWifiAttemptMs t) w).
Hypothesis R_alive : forall s w t, R s w -> R s (on_gv (set_tAlive t) w).
Hypothesis R_ota : forall s w b, R s w -> R s (on_gv (set_otaStarted b) w).
Hypothesis R_boot_cleared : forall s w, R s w -> R s (boot_cleared w).

Lemma watch_emit (e : Event) :
  (forall s, step s e = Some s) -> respects step R (emit e).
Proof.
  intros He s w w' a evs HR H. injection H as <- <- <-.
  exists s. split; [|exact HR]. cbn [monitor]. rewrite He. reflexivity.
Qed.

Lemma watch_write_hw (f : Platform -> Platform) :
  (forall s w, R s w -> R s (on_hw f w)) -> respects step R (write_hw f).
Proof.
  intros Hf s w w' a evs HR H. injection H as <- <- <-.
  exists s. split; [reflexivity|apply Hf; exact HR].
Qed.

Lemma watch_delay (ms : Z) : respects step R (delay ms).
Proof.
  intros s w w' a evs HR H. injection H as <- <- <-.
  exists s. split; [|apply R_later; exact HR].
  cbn [monitor]. rewrite step_delay. reflexivity.
Qed.

Lemma watch_publishStatus (msg : string) :
  allowed msg = true -> respects step R (publishStatus msg true).
Proof.
  intros Ha s w w' a evs HR H. rewrite publishStatus_run in H.
  injection H as <- <- <-. exists s. split; [|exact HR].
  unfold status_event. destruct (mqtt_connected (hw w)); [|reflexivity].
  cbn [monitor]. rewrite (step_status s w msg HR Ha). reflexivity.
Qed.

Ltac watch_prim :=
  match goal with
  | |- respects _ _ (bind _ _) => apply respects_bind; [|intro]
  | |- respects _ _ (ret _) => apply respects_ret
  | |- respects _ _ (when _ _) => apply respects_when
  | |- respects _ _ (if ?c then _ else _) => destruct c
  | |- respects _ _ (read_hw _) => apply respects_read_hw
  | |- respects _ _ (read_gv _) => apply respects_read_gv
  | |- respects _ _ millis => apply respects_read_hw
  | |- respects _ _ WiFi_connected => apply respects_read_hw
  | |- respects _ _ mqtt_connected_ => apply respects_read_hw
  | |- respects _ _ digitalRead_btn => apply respects_read_hw
  | |- respects _ _ (delay _) => apply watch_delay
  | |- respects _ _ yield => apply watch_emit; intro; apply step_yield
  | |- respects _ _ (irsend_sendNEC _ _) =>
      apply watch_emit; intro; apply step_ir
  | |- respects _ _ (Serial_print _) =>
      apply watch_emit; intro; apply step_print
  | |- respects _ _ (Serial_println _) =>
      apply watch_emit; intro; apply step_println
  | |- respects _ _ (emit EMqttLoop) =>
      apply watch_emit; intro; apply step_mqtt_loop
  | |- respects _ _ (emit EWifiMode) =>
      apply watch_emit; intro; apply step_wifi_mode
  | |- respects _ _ (emit (EWifiBegin _ _)) =>
      apply watch_emit; intro; apply step_wifi_begin
  | |- respects _ _ (emit (EOtaSetHostname _)) =>
      apply watch_emit; intro; apply step_ota_hostname
  | |- respects _ _ (emit (EOtaSetPassword _)) =>
      apply watch_emit; intro; apply step_ota_password
  | |- respects _ _ (emit EOtaBegin) =>
      apply watch_emit; intro; apply step_ota_begin
  | |- respects _ _ (emit EOtaHandle) =>
      apply watch_emit; intro; apply step_ota_handle
  | |- respects _ _ (publishStatus _ true) =>
      apply watch_publishStatus;
      first [assumption | apply allowed_tokens; reflexivity]
  | |- respects _ _ (write_gv (set_button _ _)) =>
      apply respects_write_gv; intros; apply R_button; assumption
  | |- respects _ _ (write_gv (set_lastWifiAttemptMs _)) =>
      apply respects_write_gv; intros; apply R_wifi; assumption
  | |- respects _ _ (write_gv (set_tAlive _)) =>
      apply respects_write_gv; intros; apply R_alive; assumption
  | |- respects _ _ (write_gv (set_otaStarted _)) =>
      apply respects_write_gv; intros; apply R_ota; assumption
  | |- respects _ _ (write_hw (set_inbox _)) =>
      apply watch_write_hw; intros; apply R_inbox; assumption
  | |- respects _ _ (write_hw (set_ota_pending _)) =>
      apply watch_write_hw; intros; apply R_ota_pending; assumption
  | |- respects _ _ (write_hw (apply_stimulus _)) =>
      apply watch_write_hw; intros; apply R_stimulus; assumption
  end.

Ltac watch := repeat watch_prim.

Lemma watch_sendCmd (code : Z) (tag : string) :
  allowed ("sent:" +++ tag) = true -> respects step R (sendCmd cfg code tag).
Proof. intros Ha. unfold sendCmd, sendNEC. watch. Qed.

(** A labelled transmission with one of the tags of the sketch. *)
Ltac watch_sent := apply watch_sendCmd; apply allowed_tokens; reflexivity.

Lemma watch_waitLoop (fuel : nat) (start ms : Z) :
  respects step R (waitLoop fuel start ms).
Proof.
  induction fuel as [|fuel IH]; cbn [waitLoop].
  - intros s w w' a evs _ H. discriminate.
  - watch. exact IH.
Qed.

Lemma watch_macro (tag : string) (pre : Z) :
  allowed ("restore:start:" +++ tag) = true ->
  allowed ("restore:done:" +++ tag) = true ->
  respects step R (restoreTo45AndOff cfg tag pre).
Proof.
  intros Hs Hd. unfold restoreTo45AndOff, waitMsWithYield. watch;
    try watch_sent; try apply watch_waitLoop.
  apply respects_repeatM. watch. watch_sent.
Qed.

(** The macro with one of the trigger tags of the sketch. *)
Ltac watch_restore :=
  apply watch_macro; apply allowed_tokens; reflexivity.

Lemma watch_handleCommand (cmd : string) :
  respects step R (handleCommand cfg cmd).
Proof.
  unfold handleCommand. watch;
    try watch_sent; try watch_restore.
Qed.

Lemma watch_mqtt_loop : respects step R (mqtt_loop cfg).
Proof.
  unfold mqtt_loop. watch.
  match goal with |- respects _ _ (match ?q with _ => _ end) =>
    destruct q as [|payload rest] end; watch.
  unfold mqttCallback. apply watch_handleCommand.
Qed.

Lemma watch_pollRestoreButton : respects step R (pollRestoreButton cfg).
Proof. unfold pollRestoreButton. watch. watch_restore. Qed.

Lemma watch_ensureWiFi : respects step R (ensureWiFiNonBlocking cfg).
Proof. unfold ensureWiFiNonBlocking. watch. Qed.

Lemma watch_loop_alive : respects step R loop_alive.
Proof. unfold loop_alive. watch. Qed.

Lemma watch_loop_ota : respects step R (loop_ota cfg).
Proof.
  unfold loop_ota, setupOTA, ArduinoOTA_handle. watch.
  match goal with |- respects _ _ (match ?p with _ => _ end) =>
    destruct p as [[| |error]|] end;
    unfold ota_onStart, ota_onEnd, ota_onError; watch.
Qed.

Lemma watch_loop_bootRestore : respects step R (loop_bootRestore cfg).
Proof.
  unfold loop_bootRestore. watch.
  - apply respects_write_gv. exact R_boot_cleared.
  - watch_restore.
Qed.

(** The session block, from its two parts. *)
Lemma watch_loop_session :
  respects step R (mqtt_loop cfg) -> respects step R loop_discovery ->
  respects step R (loop_session cfg).
Proof. intros Hm Hd. unfold loop_session. watch; assumption. Qed.

(** [loop], from its blocks. *)
Lemma watch_loop :
  respects step R loop_alive ->
  respects step R (ensureWiFiNonBlocking cfg) ->
  respects step R (loop_ota cfg) ->
  respects step R (ensureMQTTNonBlocking cfg) ->
  respects step R (loop_session cfg) ->
  respects step R (loop_bootRestore cfg) ->
  respects step R (pollRestoreButton cfg) ->
  respects step R (loop cfg).
Proof. intros. unfold loop. watch; assumption. Qed.

Lemma watch_passes (ss : list Stimulus) :
  respects step R (loop cfg) -> respects step R (passes cfg ss).
Proof.
  intros Hloop. induction ss as [|s ss IH]; cbn [passes]; watch.
  - unfold pass. watch. exact Hloop.
  - exact IH.
Qed.

(** Every run of passes, for a monitor with its own proof of the OTA block,
    of the connection block and of the discovery block. *)
Lemma watch_run (ss : list Stimulus) :
  respects step R (loop_ota cfg) ->
  respects step R (ensureMQTTNonBlocking cfg) ->
  respects step R loop_discovery ->
  respects step R (passes cfg ss).
Proof.
  intros Hota Hmqtt Hdisc. apply watch_passes. apply watch_loop.
  - apply watch_loop_alive.
  - apply watch_ensureWiFi.
  - exact Hota.
  - exact Hmqtt.
  - apply watch_loop_session; [apply watch_mqtt_loop|exact Hdisc].
  - apply watch_loop_bootRestore.
  - apply watch_pollRestoreButton.
Qed.

End Watch.

(* ------------------------------------------------------------------ *)
(** *** OTA along the supervisor *)

Lemma bind_inv {A B : Type} (m : M A) (k : A -> M B) (w w' : World) (b : B)
    (evs : list Event) :
  bind m k w = Some (b, w', evs) ->
  exists a w1 e1 e2,
    m w = Some (a, w1, e1) /\ k a w1 = Some (b, w', e2) /\ evs = e1 ++ e2.
Proof.
  unfold bind. intros H.
  destruct (m w) as [[[a w1] e1]|]; [|discriminate].
  destruct (k a w1) as [[[b' w2] e2]|] eqn:E2; [|discriminate].
  injection H as <- <- <-. exists a, w1, e1, e2. auto.
Qed.

Lemma ota_begins_app (a b : list Event) :
  ota_begins (a ++ b) = (ota_begins a + ota_begins b)%nat.
Proof.
  induction a as [|e a IH]; [reflexivity|].
  destruct e; cbn [app ota_begins]; rewrite IH; reflexivity.
Qed.

(** What the OTA monitor accepts has at most one start, and none once OTA
    is started. *)
Lemma monitor_ota_begins (evs : list Event) :
  forall s s' : bool,
    monitor ota_step s evs = Some s' ->
    ota_begins evs = (if negb s && s' then 1 else 0)%nat /\
    (s = true -> s' = true).
Proof.
  induction evs as [|e evs IH]; intros s s' H; cbn [monitor] in H.
  - injection H as <-. destruct s; split; auto.
  - destruct e; cbn [ota_step] in H; cbn [ota_begins];
      try (destruct (IH _ _ H) as [H1 H2]; split; assumption);
      destruct s; try discriminate H;
      destruct (IH _ _ H) as [H1 H2]; try (split; assumption).
    split; [|discriminate]. rewrite H1, (H2 eq_refl). reflexivity.
Qed.

Section OtaMonitor.

Variable cfg : Config.

Lemma ota_loop_ota : respects ota_step ota_rel (loop_ota cfg).
Proof.
  intros s w w' a evs HR H. rewrite loop_ota_run in H.
  unfold ota_rel in *. subst s.
  unfold ota_due, ota_handle_trace, ota_serviced, status_event in H.
  destruct (wifi_connected (hw w)), (otaStarted (gv w)) eqn:Hs;
    cbn [andb negb] in H; injection H as <- <- <-;
    destruct (ota_pending (hw w)) as [[| |error]|];
    destruct (mqtt_connected (hw w));
    first [ exists true; split; [reflexivity|]; cbn; congruence
          | exists false; split; [reflexivity|]; cbn; congruence ].
Qed.

Lemma ota_ensureMQTT :
  respects ota_step ota_rel (ensureMQTTNonBlocking cfg).
Proof.
  intros s w w' a evs HR H. rewrite ensureMQTTNonBlocking_run in H.
  unfold mqtt_attempt_trace, after_mqtt_attempt in H.
  destruct (mqtt_due w), (broker_accepts (hw w)); injection H as <- <- <-;
    exists s; (split; [reflexivity|exact HR]).
Qed.

Lemma ota_loop_discovery : respects ota_step ota_rel loop_discovery.
Proof.
  intros s w w' a evs HR H. rewrite loop_discovery_run in H.
  destruct (discoveryPublished (gv w)); injection H as <- <- <-; exists s;
    (split; [|exact HR]); [reflexivity|].
  unfold discovery_block_trace, discovery_trace, button_publish,
    config_publish, status_event.
  destruct (mqtt_connected (hw w)), (publish_ok (hw w)); reflexivity.
Qed.

(** Every run of passes keeps the OTA monitor going, and the monitor agrees
    with [otaStarted] at the end. *)
Lemma ota_passes (ss : list Stimulus) :
  respects ota_step ota_rel (passes cfg ss).
Proof.
  apply (watch_run ota_step ota_rel (fun _ => true) cfg);
    try (intros; reflexivity); try (intros; assumption).
  - apply ota_loop_ota.
  - apply ota_ensureMQTT.
  - apply ota_loop_discovery.
Qed.

(** *** The frame around the OTA block *)

Lemma ota_frame_ensureMQTT (b c : bool) :
  respects any_step (ota_frame b c) (ensureMQTTNonBlocking cfg).
Proof.
  intros [] w w' a evs HR H. rewrite ensureMQTTNonBlocking_run in H.
  unfold after_mqtt_attempt in H.
  destruct (mqtt_due w), (broker_accepts (hw w)); injection H as <- <- <-;
    exists tt; (split; [apply monitor_any|exact HR]).
Qed.

Lemma ota_frame_loop_discovery (b c : bool) :
  respects any_step (ota_frame b c) loop_discovery.
Proof.
  intros [] w w' a evs HR H. rewrite loop_discovery_run in H.
  destruct (discoveryPublished (gv w)); injection H as <- <- <-; exists tt;
    (split; [apply monitor_any|exact HR]).
Qed.

Lemma ota_frame_before (b : bool) (s : Stimulus) (w w' : World)
    (evs : list Event) :
  otaStarted (gv w) = b ->
  before_ota cfg s w = Some (tt, w', evs) ->
  ota_frame b (s_wifi s) tt w'.
Proof.
  intros Hb H. unfold before_ota in H. rewrite bind_write_hw in H.
  assert (Hrest : respects any_step (ota_frame b (s_wifi s))
                    (loop_alive ;; ensureWiFiNonBlocking cfg)).
  { apply respects_bind; [|intros _].
    - apply (watch_loop_alive any_step (ota_frame b (s_wifi s)));
        try (intros; reflexivity); try (intros; assumption).
    - apply (watch_ensureWiFi any_step (ota_frame b (s_wifi s)) cfg);
        try (intros; reflexivity); try (intros; assumption). }
  destruct (Hrest tt (on_hw (apply_stimulus s) w) w' tt evs) as ([] & _ & HR).
  - split; [exact Hb|reflexivity].
  - exact H.
  - exact HR.
Qed.

Lemma ota_frame_after (b c : bool) :
  respects any_step (ota_frame b c) (after_ota cfg).
Proof.
  unfold after_ota.
  apply respects_bind; [apply ota_frame_ensureMQTT|intros _].
  apply respects_bind; [|intros _].
  { apply watch_loop_session; [|apply ota_frame_loop_discovery].
    apply (watch_mqtt_loop any_step (ota_frame b c) (fun _ => true) cfg);
      try (intros; reflexivity); try (intros; assumption). }
  apply respects_bind; [|intros _].
  { apply (watch_loop_bootRestore any_step (ota_frame b c) (fun _ => true) cfg);
      try (intros; reflexivity); try (intros; assumption). }
  apply respects_bind; [|intros _].
  { apply (watch_pollRestoreButton any_step (ota_frame b c) (fun _ => true)
             cfg);
      try (intros; reflexivity); try (intros; assumption). }
  apply (watch_delay any_step (ota_frame b c));
    try (intros; reflexivity); try (intros; assumption).
Qed.

Lemma pass_split_ota (s : Stimulus) (w : World) :
  pass cfg s w = (before_ota cfg s ;; loop_ota cfg ;; after_ota cfg) w.
Proof.
  unfold pass, loop, before_ota, after_ota.
  symmetry. rewrite bind_assoc.
  repeat (apply bind_cong; intros; try rewrite bind_assoc).
  reflexivity.
Qed.

(** After a pass, OTA is started exactly when it was before or the pass
    found the link up. *)
Lemma pass_otaStarted (s : Stimulus) (w w' : World) (evs : list Event) :
  pass cfg s w = Some (tt, w', evs) ->
  otaStarted (gv w') = otaStarted (gv w) || s_wifi s.
Proof.
  intros H. rewrite pass_split_ota in H.
  apply bind_inv in H as ([] & w1 & e1 & e2 & H1 & H2 & _).
  apply bind_inv in H2 as ([] & w2 & e3 & e4 & H2 & H3 & _).
  destruct (ota_frame_before _ s w w1 e1 eq_refl H1) as [Hb Hc].
  assert (H4 : ota_frame (otaStarted (gv w) || s_wifi s) (s_wifi s) tt w2).
  { rewrite loop_ota_run in H2. unfold ota_due, ota_serviced in H2.
    rewrite Hb, Hc in H2.
    destruct (s_wifi s), (otaStarted (gv w)); cbn [andb negb] in H2;
      injection H2 as <- _;
      destruct (ota_pending (hw w1)); (split; [|exact Hc]);
      cbn; congruence. }
  destruct (ota_frame_after _ _ tt w2 w' tt e4 H4 H3) as ([] & _ & [Hs _]).
  exact Hs.
Qed.

Lemma passes_otaStarted (ss : list Stimulus) :
  forall (w w' : World) (evs : list Event),
    passes cfg ss w = Some (tt, w', evs) ->
    otaStarted (gv w') = otaStarted (gv w) || existsb s_wifi ss.
Proof.
  induction ss as [|s ss IH]; intros w w' evs H; cbn [passes existsb] in *.
  - injection H as <- _. rewrite orb_false_r. reflexivity.
  - apply bind_inv in H as ([] & w1 & e1 & e2 & H1 & H2 & _).
    rewrite (IH _ _ _ H2), (pass_otaStarted _ _ _ _ H1), orb_assoc.
    reflexivity.
Qed.

End OtaMonitor.

(** X10. In every run of passes, [ArduinoOTA.begin] is called at most once:
    once when OTA was not started and some pass finds the link up, never
    otherwise.  No OTA configuration call follows the start, and
    [ArduinoOTA.handle] is never called before it.  At the end [otaStarted]
    is set exactly when it was set before or some pass found the link up: the
    flag is never cleared. *)
Theorem ota_is_started_once_with_the_link (cfg : Config)
    (ss : list Stimulus) (w : World) :
  wf_config cfg ->
  exists w' evs,
    passes cfg ss w = Some (tt, w', evs) /\
    monitor ota_step (otaStarted (gv w)) evs = Some (otaStarted (gv w')) /\
    otaStarted (gv w') = otaStarted (gv w) || existsb s_wifi ss /\
    ota_begins evs =
      (if negb (otaStarted (gv w)) && existsb s_wifi ss then 1 else 0)%nat.
Proof.
  intros Hwf.
  destruct (terminates_passes cfg Hwf ss w) as ([] & w' & evs & H).
  exists w', evs. split; [exact H|].
  destruct (ota_passes cfg ss (otaStarted (gv w)) w w' tt evs eq_refl H)
    as (s' & Hm & Hs).
  unfold ota_rel in Hs. subst s'.
  pose proof (passes_otaStarted cfg ss w w' evs H) as Hflag.
  split; [exact Hm|]. split; [exact Hflag|].
  destruct (monitor_ota_begins evs _ _ Hm) as [Hn _].
  rewrite Hn, Hflag.
  destruct (otaStarted (gv w)), (existsb s_wifi ss); reflexivity.
Qed.

Lemma ota_is_started_once_with_the_link_witness :
  exists w' evs,
    passes shipped_config
      [nothing_up 4800; link_and_broker_up 1000; link_and_broker_up 1000]
      after_soft_reset = Some (tt, w', evs) /\
    monitor ota_step false evs = Some (otaStarted (gv w')) /\
    otaStarted (gv w') = true /\
    ota_begins evs = 1%nat.
Proof.
  exact (ota_is_started_once_with_the_link shipped_config
           [nothing_up 4800; link_and_broker_up 1000; link_and_broker_up 1000]
           after_soft_reset shipped_config_wf).
Defined.

(** X11. The OTA block of [loop] calls [ArduinoOTA.handle] in every pass in
    which the link is up or OTA has been started, whatever the state of the
    session, and starts OTA first when it has not been started.  What the
    OTA session reports is consumed by that call and handed to
    [publishStatus] as [ota:start], [ota:end] or [ota:error:<code>]; with
    the link down and OTA not started the block does nothing. *)
Theorem ota_block_services_and_reports (cfg : Config) (w : World) :
  loop_ota cfg w =
    (if wifi_connected (hw w) || otaStarted (gv w)
     then Some (tt,
                ota_serviced
                  (if otaStarted (gv w) then w
                   else on_gv (set_otaStarted true) w),
                (if otaStarted (gv w) then [] else ota_start_trace cfg w) ++
                ota_handle_trace w)
     else Some (tt, w, [])) /\
  published_on (mqttTopicStatus (gv w)) (events (loop_ota cfg) w) =
    (if (wifi_connected (hw w) || otaStarted (gv w)) && mqtt_connected (hw w)
     then match ota_pending (hw w) with
          | Some ev => [ota_token ev]
          | None => []
          end
     else []) /\
  (forall w' evs,
      loop_ota cfg w = Some (tt, w', evs) ->
      otaStarted (gv w') = wifi_connected (hw w) || otaStarted (gv w) /\
      (otaStarted (gv w') = true -> ota_pending (hw w') = None) /\
      ir_codes evs = []).
Proof.
  assert (Hrun :
            loop_ota cfg w =
            (if wifi_connected (hw w) || otaStarted (gv w)
             then Some (tt,
                        ota_serviced
                          (if otaStarted (gv w) then w
                           else on_gv (set_otaStarted true) w),
                        (if otaStarted (gv w) then []
                         else ota_start_trace cfg w) ++
                        ota_handle_trace w)
             else Some (tt, w, []))).
  { rewrite loop_ota_run. unfold ota_due.
    destruct (wifi_connected (hw w)), (otaStarted (gv w)); reflexivity. }
  split; [exact Hrun|]. split.
  - unfold events. rewrite Hrun.
    unfold ota_handle_trace, ota_start_trace, status_event.
    destruct (wifi_connected (hw w)), (otaStarted (gv w)),
      (mqtt_connected (hw w)), (ota_pending (hw w)) as [[| |error]|];
      cbn [orb andb app published_on ota_log ota_token];
      rewrite ?String.eqb_refl; reflexivity.
  - intros w' evs H. rewrite Hrun in H.
    unfold ota_serviced, ota_handle_trace, ota_start_trace, status_event
      in H.
    destruct (wifi_connected (hw w)), (otaStarted (gv w)) eqn:Hs,
      (mqtt_connected (hw w));
      cbn [orb hw gv on_gv] in H;
      destruct (ota_pending (hw w)) as [[| |error]|] eqn:Hp;
      injection H as <- <-;
      (split; [cbn; congruence|split; [|reflexivity]]);
      cbn; congruence.
Qed.

(* ------------------------------------------------------------------ *)
(** *** MQTT traffic along the supervisor *)

Lemma monitor_unit_all (step : unit -> Event -> option unit)
    (evs : list Event) :
  (forall e, In e evs -> step tt e = Some tt) ->
  monitor step tt evs = Some tt.
Proof.
  induction evs as [|e evs IH]; intros H; cbn [monitor]; [reflexivity|].
  rewrite (H e (or_introl eq_refl)). apply IH.
  intros e' He'. apply H. right. exact He'.
Qed.

Lemma monitor_unit_In (step : unit -> Event -> option unit)
    (evs : list Event) (e : Event) :
  monitor step tt evs = Some tt -> In e evs -> step tt e = Some tt.
Proof.
  induction evs as [|e' evs IH]; cbn [monitor In]; [contradiction|].
  destruct (step tt e') as [[]|] eqn:E; [|discriminate].
  intros Hm [<-|Hin]; [exact E|exact (IH Hm Hin)].
Qed.

Section MqttMonitor.

Variable cfg : Config.

Lemma mqtt_step_status (msg : string) :
  mqtt_step cfg tt (EMqttPublish (status_topic cfg) msg true) = Some tt.
Proof.
  cbn [mqtt_step andb]. unfold publish_topics. cbn [app existsb].
  rewrite String.eqb_refl. cbn [orb andb].
  unfold status_topic, availability_topic. rewrite eqb_append_l.
  reflexivity.
Qed.

Lemma mqtt_step_online :
  mqtt_step cfg tt (EMqttPublish (availability_topic cfg) AVAIL_ONLINE true) =
  Some tt.
Proof.
  cbn [mqtt_step andb]. unfold publish_topics. cbn [app existsb].
  rewrite !String.eqb_refl. cbn [orb]. rewrite !orb_true_r. reflexivity.
Qed.

Lemma mqtt_step_subscribe :
  mqtt_step cfg tt (EMqttSubscribe (command_topic cfg)) = Some tt.
Proof. cbn [mqtt_step]. rewrite String.eqb_refl. reflexivity. Qed.

Lemma mqtt_step_connect (c u p : string) :
  mqtt_step cfg tt
    (EMqttConnect c u p (availability_topic cfg) 0 true AVAIL_OFFLINE) =
  Some tt.
Proof. cbn [mqtt_step]. rewrite String.eqb_refl. reflexivity. Qed.

Ltac mqtt_event :=
  first [ reflexivity
        | apply mqtt_step_status
        | apply mqtt_step_online
        | apply mqtt_step_subscribe
        | apply mqtt_step_connect ].

Ltac mqtt_events He :=
  cbn [app In] in He;
  repeat (destruct He as [<-|He]; [mqtt_event|]);
  try contradiction.

Lemma mqtt_ensureMQTT :
  respects (mqtt_step cfg) (topics_rel cfg) (ensureMQTTNonBlocking cfg).
Proof.
  intros [] w w' a evs HR H. rewrite ensureMQTTNonBlocking_run in H.
  destruct (topics_built_eq cfg _ HR) as (Hc & Hs & Ha).
  unfold mqtt_attempt_trace, after_mqtt_attempt, connect_event in H.
  rewrite Hc, Hs, Ha in H.
  destruct (mqtt_due w), (broker_accepts (hw w)); injection H as <- <- <-;
    exists tt; (split; [|exact HR]);
    apply monitor_unit_all; intros e He; mqtt_events He.
Qed.

Lemma mqtt_loop_discovery :
  respects (mqtt_step cfg) (topics_rel cfg) loop_discovery.
Proof.
  intros [] w w' a evs HR H. rewrite loop_discovery_run in H.
  destruct (topics_built_eq cfg _ HR) as (Hc & Hs & Ha).
  destruct (discoveryPublished (gv w)); injection H as <- <- <-; exists tt;
    (split; [|exact HR]); [reflexivity|].
  unfold discovery_block_trace, discovery_trace, button_publish,
    config_publish, status_event.
  rewrite Hc, Hs, Ha.
  apply monitor_unit_all; intros e He.
  destruct (mqtt_connected (hw w)), (publish_ok (hw w));
    cbn [andb] in He; mqtt_events He.
Qed.

Lemma mqtt_status_ok (s : unit) (w : World) (msg : string) :
  topics_rel cfg s w -> true = true ->
  mqtt_step cfg s (EMqttPublish (mqttTopicStatus (gv w)) msg true) = Some s.
Proof.
  intros HR _. destruct s. destruct (topics_built_eq cfg _ HR) as (_ & Hs & _).
  rewrite Hs. apply mqtt_step_status.
Qed.

(** Every run of passes keeps the MQTT monitor going. *)
Lemma mqtt_passes (ss : list Stimulus) :
  respects (mqtt_step cfg) (topics_rel cfg) (passes cfg ss).
Proof.
  apply (watch_run (mqtt_step cfg) (topics_rel cfg) (fun _ => true) cfg);
    try (intros; reflexivity); try (intros; assumption).
  - apply mqtt_status_ok.
  - apply (watch_loop_ota (mqtt_step cfg) (topics_rel cfg) (fun _ => true)
             cfg);
      try (intros; reflexivity); try (intros; assumption).
    apply mqtt_status_ok.
  - apply mqtt_ensureMQTT.
  - apply mqtt_loop_discovery.
Qed.

Lemma mqtt_setup (w : World) :
  monitor (mqtt_step cfg) tt (setup_trace cfg w) = Some tt.
Proof.
  apply monitor_unit_all. intros e He. unfold setup_trace in He.
  destruct (shouldRunRestoreOnBoot (reset_reason (hw w))),
    (wifi_due (later 200 w)); mqtt_events He.
Qed.

(** From any world, a boot followed by any passes keeps the MQTT monitor
    going. *)
Lemma mqtt_boot (ss : list Stimulus) (w : World) :
  wf_config cfg ->
  exists w' evs,
    boot cfg ss w = Some (tt, w', evs) /\
    monitor (mqtt_step cfg) tt evs = Some tt.
Proof.
  intros Hwf.
  destruct (terminates_passes cfg Hwf ss (after_setup cfg w))
    as ([] & w' & e1 & Hpasses).
  exists w', (setup_trace cfg w ++ e1). split.
  - unfold boot. rewrite (bind_known _ _ _ _ _ _ (setup_run_trace cfg w)).
    rewrite Hpasses. reflexivity.
  - rewrite monitor_app, mqtt_setup.
    destruct (mqtt_passes ss tt (after_setup cfg w) w' tt e1) as ([] & Hm & _).
    + apply after_setup_topics.
    + exact Hpasses.
    + exact Hm.
Qed.

End MqttMonitor.

(** X12. From startup on, whatever the environment does, every message the
    device publishes is retained and goes to one of its eleven topics
    (status, availability, the nine discovery topics), and the only topic it
    subscribes to is the command topic, which is none of the eleven: the
    device never receives what it publishes. *)
Theorem publications_stay_off_the_command_topic (cfg : Config)
    (ss : list Stimulus) (w : World) :
  wf_config cfg ->
  exists w' evs,
    boot cfg ss w = Some (tt, w', evs) /\
    (forall topic payload retain,
        In (EMqttPublish topic payload retain) evs ->
        retain = true /\ In topic (publish_topics cfg)) /\
    (forall topic,
        In (EMqttSubscribe topic) evs -> topic = command_topic cfg) /\
    existsb (String.eqb (command_topic cfg)) (publish_topics cfg) = false.
Proof.
  intros Hwf. destruct (mqtt_boot cfg ss w Hwf) as (w' & evs & Hrun & Hm).
  exists w', evs. split; [exact Hrun|].
  split; [|split; [|apply command_topic_not_published]].
  - intros topic payload retain Hin.
    pose proof (monitor_unit_In _ _ _ Hm Hin) as H. cbn [mqtt_step] in H.
    destruct retain; [|discriminate H]. split; [reflexivity|].
    destruct (existsb (String.eqb topic) (publish_topics cfg)) eqn:E;
      [|discriminate H].
    apply existsb_exists in E as (t & Ht & Heq).
    apply String.eqb_eq in Heq. subst t. exact Ht.
  - intros topic Hin.
    pose proof (monitor_unit_In _ _ _ Hm Hin) as H. cbn [mqtt_step] in H.
    destruct (String.eqb_spec topic (command_topic cfg)) as [E|_];
      [exact E|discriminate H].
Qed.

Lemma publications_stay_off_the_command_topic_witness :
  exists w' evs,
    boot shipped_config [link_and_broker_up 4800; link_and_broker_up 1000]
      (power_up ESP_RST_POWERON) = Some (tt, w', evs) /\
    (forall topic payload retain,
        In (EMqttPublish topic payload retain) evs ->
        retain = true /\ In topic (publish_topics shipped_config)) /\
    (forall topic,
        In (EMqttSubscribe topic) evs ->
        topic = command_topic shipped_config) /\
    existsb (String.eqb (command_topic shipped_config))
      (publish_topics shipped_config) = false.
Proof.
  exact (publications_stay_off_the_command_topic shipped_config
           [link_and_broker_up 4800; link_and_broker_up 1000]
           (power_up ESP_RST_POWERON) shipped_config_wf).
Defined.

(** X13. From startup on, every connection request registers the same last
    will: the retained message [offline] on the availability topic, at QoS
    0.  The device itself publishes nothing but [online] on that topic, so
    [offline] can only come from the broker. *)
Theorem availability_is_online_or_the_last_will (cfg : Config)
    (ss : list Stimulus) (w : World) :
  wf_config cfg ->
  exists w' evs,
    boot cfg ss w = Some (tt, w', evs) /\
    (forall clientId user pass willTopic willQos willRetain willMessage,
        In (EMqttConnect clientId user pass willTopic willQos willRetain
              willMessage) evs ->
        willTopic = availability_topic cfg /\ willQos = 0 /\
        willRetain = true /\ willMessage = AVAIL_OFFLINE) /\
    (forall payload retain,
        In (EMqttPublish (availability_topic cfg) payload retain) evs ->
        payload = AVAIL_ONLINE).
Proof.
  intros Hwf. destruct (mqtt_boot cfg ss w Hwf) as (w' & evs & Hrun & Hm).
  exists w', evs. split; [exact Hrun|]. split.
  - intros c u p wt q r m Hin.
    pose proof (monitor_unit_In _ _ _ Hm Hin) as H. cbn [mqtt_step] in H.
    destruct (String.eqb_spec wt (availability_topic cfg)) as [E1|_];
      [|discriminate H].
    destruct (Z.eqb_spec q 0) as [E2|_]; [|discriminate H].
    destruct r; [|discriminate H].
    destruct (String.eqb_spec m AVAIL_OFFLINE) as [E3|_]; [|discriminate H].
    auto.
  - intros payload retain Hin.
    pose proof (monitor_unit_In _ _ _ Hm Hin) as H. cbn [mqtt_step] in H.
    rewrite String.eqb_refl in H. cbn [negb orb] in H.
    destruct (String.eqb_spec payload AVAIL_ONLINE) as [E|_]; [exact E|].
    rewrite andb_false_r in H. discriminate H.
Qed.

Lemma availability_is_online_or_the_last_will_witness :
  exists w' evs,
    boot shipped_config [broker_down 4800; link_and_broker_up 3000]
      (power_up ESP_RST_SW) = Some (tt, w', evs) /\
    (forall clientId user pass willTopic willQos willRetain willMessage,
        In (EMqttConnect clientId user pass willTopic willQos willRetain
              willMessage) evs ->
        willTopic = availability_topic shipped_config /\ willQos = 0 /\
        willRetain = true /\ willMessage = AVAIL_OFFLINE) /\
    (forall payload retain,
        In (EMqttPublish (availability_topic shipped_config) payload retain)
          evs ->
        payload = AVAIL_ONLINE).
Proof.
  exact (availability_is_online_or_the_last_will shipped_config
           [broker_down 4800; link_and_broker_up 3000]
           (power_up ESP_RST_SW) shipped_config_wf).
Defined.

(* ------------------------------------------------------------------ *)
(** *** The device at rest *)

Lemma monitor_no_ir (evs : list Event) :
  monitor no_ir_step tt evs = Some tt -> ir_codes evs = [].
Proof.
  induction evs as [|e evs IH]; cbn [monitor]; [reflexivity|].
  destruct e; cbn [no_ir_step ir_codes]; try exact IH. discriminate.
Qed.

Section AtRest.

Variable cfg : Config.

Lemma rest_ensureMQTT :
  respects no_ir_step at_rest (ensureMQTTNonBlocking cfg).
Proof.
  intros [] w w' a evs HR H. rewrite ensureMQTTNonBlocking_run in H.
  unfold mqtt_attempt_trace, after_mqtt_attempt in H.
  destruct (mqtt_due w), (broker_accepts (hw w)); injection H as <- <- <-;
    exists tt; (split; [reflexivity|exact HR]).
Qed.

Lemma rest_loop_discovery : respects no_ir_step at_rest loop_discovery.
Proof.
  intros [] w w' a evs HR H. rewrite loop_discovery_run in H.
  destruct (discoveryPublished (gv w)); injection H as <- <- <-; exists tt;
    (split; [|exact HR]); [reflexivity|].
  unfold discovery_block_trace, discovery_trace, button_publish,
    config_publish, status_event.
  destruct (mqtt_connected (hw w)), (publish_ok (hw w)); reflexivity.
Qed.

(** With no message waiting, [mqtt.loop] hands nothing to the callback. *)
Lemma rest_mqtt_loop : respects no_ir_step at_rest (mqtt_loop cfg).
Proof.
  intros [] w w' a evs HR H.
  destruct HR as (Hoff & Hlast & Hpin & Hin).
  rewrite (mqtt_loop_idle cfg w Hin) in H. injection H as <- <- <-.
  exists tt. split; [reflexivity|]. repeat split; assumption.
Qed.

(** With the trigger off, the boot block does nothing. *)
Lemma rest_loop_bootRestore :
  respects no_ir_step at_rest (loop_bootRestore cfg).
Proof.
  intros [] w w' a evs HR H. rewrite loop_bootRestore_run in H.
  rewrite (boot_due_off w (proj1 HR)) in H. injection H as <- <- <-.
  exists tt. split; [reflexivity|exact HR].
Qed.

(** With the button released as it was last seen, the poll does nothing. *)
Lemma rest_pollRestoreButton :
  respects no_ir_step at_rest (pollRestoreButton cfg).
Proof.
  intros [] w w' a evs HR H.
  destruct HR as (Hoff & Hlast & Hpin & Hin).
  rewrite pollRestoreButton_quiet in H.
  - injection H as <- <- <-. exists tt. split; [reflexivity|].
    repeat split; assumption.
  - unfold button_accepts. rewrite Hlast, Hpin. reflexivity.
Qed.

Lemma rest_loop : respects no_ir_step at_rest (loop cfg).
Proof.
  apply (watch_loop no_ir_step at_rest cfg);
    try (intros; reflexivity); try (intros; assumption).
  - apply (watch_loop_alive no_ir_step at_rest);
      try (intros; reflexivity); try (intros; assumption).
  - apply (watch_ensureWiFi no_ir_step at_rest cfg);
      try (intros; reflexivity); try (intros; assumption).
  - apply (watch_loop_ota no_ir_step at_rest (fun _ => true) cfg);
      try (intros; reflexivity); try (intros; assumption).
  - apply rest_ensureMQTT.
  - apply watch_loop_session; [apply rest_mqtt_loop|apply rest_loop_discovery].
  - apply rest_loop_bootRestore.
  - apply rest_pollRestoreButton.
Qed.

Lemma rest_stimulus (s : Stimulus) (w : World) :
  calm_stimulus s = true -> at_rest tt w ->
  at_rest tt (on_hw (apply_stimulus s) w).
Proof.
  unfold calm_stimulus. intros Hs (Hoff & Hlast & Hpin & Hin).
  apply andb_prop in Hs as [Hb Ha]. apply Bool.eqb_prop in Hb.
  repeat split; try assumption.
  cbn [on_hw hw apply_stimulus inbox]. rewrite Hin.
  destruct (s_arrivals s); [reflexivity|discriminate Ha].
Qed.

Lemma rest_passes (ss : list Stimulus) :
  forallb calm_stimulus ss = true ->
  respects no_ir_step at_rest (passes cfg ss).
Proof.
  induction ss as [|s ss IH]; cbn [passes forallb]; intros Hss.
  - apply respects_ret.
  - apply andb_prop in Hss as [Hs Hss].
    apply respects_bind; [|intros _; exact (IH Hss)].
    unfold pass. apply respects_bind; [|intros _; apply rest_loop].
    intros [] w w' a evs HR H. injection H as <- <- <-.
    exists tt. split; [reflexivity|apply rest_stimulus; assumption].
Qed.

Lemma rest_setup (w : World) :
  shouldRunRestoreOnBoot (reset_reason (hw w)) = false ->
  at_rest tt w -> at_rest tt (after_setup cfg w).
Proof.
  intros Hr HR. rewrite after_setup_wifi_due. cbv zeta. rewrite Hr.
  destruct (wifi_due (later 200 w)); exact HR.
Qed.

End AtRest.

(** X14. After a reset that is not a power loss, as long as the button stays
    released and no message arrives, the device sends no IR code: not in
    [setup] and not in any pass of [loop], whatever the link, the broker, the
    OTA session and the clock do. *)
Theorem no_transmission_unless_asked (cfg : Config) (ss : list Stimulus)
    (w : World) :
  wf_config cfg ->
  shouldRunRestoreOnBoot (reset_reason (hw w)) = false ->
  at_rest tt w ->
  forallb calm_stimulus ss = true ->
  exists w' evs,
    boot cfg ss w = Some (tt, w', evs) /\
    ir_codes evs = [] /\
    at_rest tt w'.
Proof.
  intros Hwf Hr HR Hss.
  destruct (terminates_passes cfg Hwf ss (after_setup cfg w))
    as ([] & w' & e1 & Hpasses).
  destruct (rest_passes cfg ss Hss tt (after_setup cfg w) w' tt e1
              (rest_setup cfg w Hr HR) Hpasses) as ([] & Hm & HR').
  exists w', (setup_trace cfg w ++ e1). split; [|split].
  - unfold boot. rewrite (bind_known _ _ _ _ _ _ (setup_run_trace cfg w)).
    rewrite Hpasses. reflexivity.
  - rewrite ir_codes_app, ir_codes_setup. apply monitor_no_ir. exact Hm.
  - exact HR'.
Qed.

Lemma no_transmission_unless_asked_witness :
  exists w' evs,
    boot shipped_config
      [nothing_up 4800; link_and_broker_up 1000; broker_down 20000]
      (power_up ESP_RST_SW) = Some (tt, w', evs) /\
    ir_codes evs = [] /\
    at_rest tt w'.
Proof.
  apply (no_transmission_unless_asked shipped_config
           [nothing_up 4800; link_and_broker_up 1000; broker_down 20000]
           (power_up ESP_RST_SW) shipped_config_wf).
  - reflexivity.
  - repeat split.
  - reflexivity.
Defined.

(* ------------------------------------------------------------------ *)
(** *** Commands and the macro *)

(** The calls that service the session and OTA. *)
Lemma service_calls_app (a b : list Event) :
  service_calls (a ++ b) = (service_calls a + service_calls b)%nat.
Proof.
  induction a as [|e a IH]; [reflexivity|].
  destruct e; cbn [app service_calls]; rewrite IH; reflexivity.
Qed.

Lemma service_calls_rounds (ev : list Event) (n : nat) :
  service_calls ev = 0%nat ->
  service_calls (List.concat (repeat ev n)) = 0%nat.
Proof.
  intros H. induction n as [|n IH]; [reflexivity|].
  cbn [repeat List.concat]. rewrite service_calls_app, H, IH. reflexivity.
Qed.

Lemma service_calls_status (w : World) (msg : string) :
  service_calls (status_event w msg) = 0%nat.
Proof. unfold status_event. destruct (mqtt_connected (hw w)); reflexivity. Qed.

Lemma service_calls_labelled (cfg : Config) (w : World) (code : Z)
    (tag : string) :
  service_calls (labelled_trace cfg w code tag) = 0%nat.
Proof.
  unfold labelled_trace. rewrite !service_calls_app, service_calls_status.
  reflexivity.
Qed.

Lemma service_calls_macro (cfg : Config) (w : World) (tag : string)
    (pre : Z) :
  service_calls (macro_trace cfg w tag pre) = 0%nat.
Proof.
  unfold macro_trace, wait_trace.
  rewrite !service_calls_app, !service_calls_status,
    !service_calls_labelled.
  rewrite !service_calls_rounds; [reflexivity| |reflexivity].
  rewrite service_calls_app, service_calls_labelled. reflexivity.
Qed.

Lemma delay_total_app (a b : list Event) :
  delay_total (a ++ b) = delay_total a + delay_total b.
Proof.
  induction a as [|e a IH]; [reflexivity|].
  destruct e; cbn [app delay_total]; rewrite IH; lia.
Qed.

Lemma delay_total_rounds (ev : list Event) (n : nat) :
  delay_total (List.concat (repeat ev n)) = Z.of_nat n * delay_total ev.
Proof.
  induction n as [|n IH]; [reflexivity|].
  cbn [repeat List.concat]. rewrite delay_total_app, IH. lia.
Qed.

Lemma delay_total_status (w : World) (msg : string) :
  delay_total (status_event w msg) = 0.
Proof. unfold status_event. destruct (mqtt_connected (hw w)); reflexivity. Qed.

Lemma delay_total_labelled (cfg : Config) (w : World) (code : Z)
    (tag : string) :
  delay_total (labelled_trace cfg w code tag) = 51 + IR_GAP_MS cfg.
Proof.
  unfold labelled_trace. rewrite !delay_total_app, delay_total_status.
  cbn [delay_total transmit_trace]. lia.
Qed.

Lemma delay_total_macro (cfg : Config) (w : World) (tag : string) (pre : Z) :
  delay_total (macro_trace cfg w tag pre) =
  5 * Z.of_nat (wait_rounds pre) +
  (Z.of_nat (Z.to_nat (TEMP_STEPS_TO_45 cfg)) + 3) * (51 + IR_GAP_MS cfg) +
  Z.of_nat (Z.to_nat (TEMP_STEPS_TO_45 cfg)).
Proof.
  unfold macro_trace, wait_trace.
  rewrite !delay_total_app, !delay_total_rounds, !delay_total_app,
    !delay_total_status, !delay_total_labelled.
  cbn [delay_total]. lia.
Qed.

Lemma length_twice (codes : list Z) :
  List.length (twice codes) = (2 * List.length codes)%nat.
Proof.
  induction codes as [|c codes IH]; [reflexivity|].
  change (twice (c :: codes)) with (c :: c :: twice codes).
  cbn [List.length]. rewrite IH. lia.
Qed.

(** X15. The macro blocks the supervisor: from its first status token to its
    last, a run makes no call of [mqtt.loop] and none of
    [ArduinoOTA.handle], and changes nothing but the clock.  It sends
    [2 * (N + 3)] IR frames, and the delays it asks for in between add up to
    the pre-delay rounded up to 5 ms, plus [51 + IR_GAP_MS] ms for each of
    the [N + 3] transmissions, plus 1 ms for each of the [N] temperature
    steps: the supervisor is blocked for at least that long, the time the
    frames themselves take not counted. *)
Theorem macro_blocks_the_supervisor (cfg : Config) (tag : string) (pre : Z)
    (w : World) :
  0 <= pre <= 2 ^ 32 - 5 ->
  0 <= TEMP_STEPS_TO_45 cfg ->
  exists d evs,
    restoreTo45AndOff cfg tag pre w = Some (tt, later d w, evs) /\
    service_calls evs = 0%nat /\
    Z.of_nat (List.length (ir_codes evs)) = 2 * (TEMP_STEPS_TO_45 cfg + 3) /\
    delay_total evs =
      5 * ((pre + 4) / 5) +
      (TEMP_STEPS_TO_45 cfg + 3) * (51 + IR_GAP_MS cfg) +
      TEMP_STEPS_TO_45 cfg.
Proof.
  intros Hpre Hn.
  exists (macro_ms cfg pre), (macro_trace cfg w tag pre).
  split; [apply restoreTo45AndOff_run; exact Hpre|].
  split; [apply service_calls_macro|]. split.
  - rewrite ir_codes_macro, length_twice. unfold macro_codes.
    rewrite !length_app, repeat_length. cbn [List.length].
    rewrite Nat2Z.inj_mul, !Nat2Z.inj_add, Z2Nat.id by exact Hn.
    change (Z.of_nat 2) with 2. change (Z.of_nat 1) with 1. lia.
  - rewrite delay_total_macro. unfold wait_rounds.
    rewrite !Z2Nat.id by (try apply Z.div_pos; lia). lia.
Qed.

Lemma macro_blocks_the_supervisor_witness :
  exists d evs,
    restoreTo45AndOff shipped_config "mqtt" 500 session_up =
      Some (tt, later d session_up, evs) /\
    service_calls evs = 0%nat /\
    Z.of_nat (List.length (ir_codes evs)) = 46 /\
    delay_total evs = 5833.
Proof.
  apply (macro_blocks_the_supervisor shipped_config "mqtt" 500 session_up).
  - vm_compute. split; discriminate.
  - vm_compute. discriminate.
Defined.

Lemma command_code_table (token : string) (code : Z) :
  In (token, code) command_table -> command_code token = Some code.
Proof.
  unfold command_table. cbn [In]. intros H.
  repeat (destruct H as [H|H]; [injection H as <- <-; reflexivity|]).
  contradiction.
Qed.

Lemma command_code_none (key : string) :
  ~ In key (map fst command_table) -> command_code key = None.
Proof.
  unfold command_code, command_table. cbn [map fst In find].
  intros H.
  repeat match goal with
         | |- context [String.eqb ?t key] =>
             destruct (String.eqb_spec t key) as [E|_];
             [exfalso; apply H; rewrite <- E; tauto|]
         end.
  reflexivity.
Qed.

(** X16. Whatever the payload, the command handler returns and changes no
    variable of the sketch and nothing of the connection state; only the
    clock moves.  It echoes the normalised text whole on the serial port and
    then acts on that text as a C string, that is up to its first NUL
    character: one labelled transmission of the token's code for a
    single-code token, one run of the macro (tag mqtt, manual pre-delay) for
    [restore_state], and for anything else only the status token
    [error:unknown_cmd] and its log line. *)
Theorem command_changes_only_the_clock (cfg : Config) (topic : string)
    (payload : list Byte.byte) (w : World) :
  wf_config cfg ->
  exists d,
    mqttCallback cfg topic payload w =
      Some (tt, later d w,
            [EPrint "MQTT cmd: "; EPrintln (normalize payload)] ++
            match command_code (c_str (normalize payload)) with
            | Some code =>
                labelled_trace cfg w code (c_str (normalize payload))
            | None =>
                if String.eqb (c_str (normalize payload)) "restore_state"
                then macro_trace cfg w "mqtt" (MANUAL_DELAY_MS cfg)
                else status_event w "error:unknown_cmd" ++
                     [EPrintln "error:unknown_cmd"]
            end).
Proof.
  intros Hwf. rewrite mqttCallback_normalizes.
  set (cmd := normalize payload).
  destruct (in_dec string_dec (c_str cmd) (map fst command_table))
    as [Hin|Hnot].
  - apply in_map_iff in Hin as ([token code] & Ht & Hin). cbn [fst] in Ht.
    subst token. rewrite (command_code_table _ code Hin).
    exists (labelled_ms cfg).
    apply (handleCommand_cut cfg cmd _ code w eq_refl Hin).
  - rewrite (command_code_none _ Hnot).
    destruct (String.eqb_spec (c_str cmd) "restore_state") as [Hr|Hr].
    + exists (macro_ms cfg (MANUAL_DELAY_MS cfg)).
      apply (handleCommand_cut_restore cfg cmd w Hwf Hr).
    + exists 0. rewrite later_0. apply handleCommand_unknown.
      unfold recognized. rewrite in_app_iff. intros [H|[H|[]]].
      * exact (Hnot H).
      * exact (Hr (eq_sym H)).
Qed.

Lemma command_changes_only_the_clock_witness :
  exists d,
    mqttCallback shipped_config "hvac/bathroom/geyser/command"
      (list_byte_of_string (" Temp_Up" +++ String Ascii.zero "JUNK "))
      session_up =
      Some (tt, later d session_up,
            [EPrint "MQTT cmd: ";
             EPrintln ("temp_up" +++ String Ascii.zero "JUNK")] ++
            labelled_trace shipped_config session_up IR_TEMP_UP "temp_up").
Proof.
  exact (command_changes_only_the_clock shipped_config
           "hvac/bathroom/geyser/command"
           (list_byte_of_string (" Temp_Up" +++ String Ascii.zero "JUNK "))
           session_up shipped_config_wf).
Defined.

(* ------------------------------------------------------------------ *)
(** *** Discovery when publishing fails *)

(** X17. The discovery block does not look at the result of its
    publications: when the client refuses them, each of the nine discovery
    messages is still handed to [mqtt.publish] once, each failure is logged
    on the serial port, and [discoveryPublished] is set all the same, so
    that the next pass of the same session publishes nothing again. *)
Theorem failed_discovery_is_logged_not_retried (w : World) :
  discoveryPublished (gv w) = false ->
  publish_ok (hw w) = false ->
  exists evs,
    loop_discovery w =
      Some (tt, on_gv (set_discoveryPublished true) w, evs) /\
    publish_failures evs = 9%nat /\
    publish_count evs = (if mqtt_connected (hw w) then 12 else 9)%nat /\
    loop_discovery (on_gv (set_discoveryPublished true) w) =
      Some (tt, on_gv (set_discoveryPublished true) w, []).
Proof.
  intros Hd Hp. eexists. split; [|split; [|split]].
  - rewrite loop_discovery_run, Hd. reflexivity.
  - unfold discovery_block_trace, discovery_trace, button_publish,
      config_publish, status_event.
    rewrite Hp, andb_false_r.
    destruct (mqtt_connected (hw w)); reflexivity.
  - unfold discovery_block_trace, discovery_trace, button_publish,
      config_publish, status_event.
    rewrite Hp, andb_false_r.
    destruct (mqtt_connected (hw w)); reflexivity.
  - rewrite loop_discovery_run. reflexivity.
Qed.

Lemma failed_discovery_is_logged_not_retried_witness :
  exists evs,
    loop_discovery publish_refused =
      Some (tt, on_gv (set_discoveryPublished true) publish_refused, evs) /\
    publish_failures evs = 9%nat /\
    publish_count evs = 12%nat /\
    loop_discovery (on_gv (set_discoveryPublished true) publish_refused) =
      Some (tt, on_gv (set_discoveryPublished true) publish_refused, []).
Proof.
  exact (failed_discovery_is_logged_not_retried publish_refused
           eq_refl eq_refl).
Defined.

(* ------------------------------------------------------------------ *)
(** *** The status vocabulary along the supervisor *)

Section VocabularyMonitor.

Variable cfg : Config.

Lemma vocabulary_step_status (msg : string) :
  status_token msg = true ->
  vocabulary_step cfg tt (EMqttPublish (status_topic cfg) msg true) = Some tt.
Proof.
  intros H. cbn [vocabulary_step]. rewrite H, andb_false_r. reflexivity.
Qed.

Lemma vocabulary_step_availability (payload : string) :
  vocabulary_step cfg tt
    (EMqttPublish (availability_topic cfg) payload true) = Some tt.
Proof.
  cbn [vocabulary_step]. unfold availability_topic, status_topic.
  rewrite eqb_append_l. reflexivity.
Qed.

Lemma reset_reason_token (r : esp_reset_reason_t) :
  status_token ("boot:reset_reason:" +++ resetReasonToString r) = true.
Proof. destruct r; reflexivity. Qed.

Ltac vocabulary_event :=
  first [ reflexivity
        | apply vocabulary_step_availability
        | apply vocabulary_step_status;
          first [reflexivity | apply reset_reason_token] ].

Ltac vocabulary_events He :=
  cbn [app In] in He;
  repeat (destruct He as [<-|He]; [vocabulary_event|]);
  try contradiction.

Lemma vocabulary_ensureMQTT :
  respects (vocabulary_step cfg) (topics_rel cfg) (ensureMQTTNonBlocking cfg).
Proof.
  intros [] w w' a evs HR H. rewrite ensureMQTTNonBlocking_run in H.
  destruct (topics_built_eq cfg _ HR) as (Hc & Hs & Ha).
  unfold mqtt_attempt_trace, after_mqtt_attempt, connect_event in H.
  rewrite Hc, Hs, Ha in H.
  destruct (mqtt_due w), (broker_accepts (hw w)); injection H as <- <- <-;
    exists tt; (split; [|exact HR]);
    apply monitor_unit_all; intros e He; vocabulary_events He.
Qed.

Lemma vocabulary_loop_discovery :
  respects (vocabulary_step cfg) (topics_rel cfg) loop_discovery.
Proof.
  intros [] w w' a evs HR H. rewrite loop_discovery_run in H.
  destruct (topics_built_eq cfg _ HR) as (Hc & Hs & Ha).
  destruct (discoveryPublished (gv w)); injection H as <- <- <-; exists tt;
    (split; [|exact HR]); [reflexivity|].
  unfold discovery_block_trace, discovery_trace, button_publish,
    config_publish, status_event.
  rewrite Hc, Hs, Ha.
  apply monitor_unit_all; intros e He.
  destruct (mqtt_connected (hw w)), (publish_ok (hw w));
    cbn [andb] in He; vocabulary_events He.
Qed.

Lemma vocabulary_status_ok (s : unit) (w : World) (msg : string) :
  topics_rel cfg s w -> status_token msg = true ->
  vocabulary_step cfg s (EMqttPublish (mqttTopicStatus (gv w)) msg true) =
  Some s.
Proof.
  intros HR Hm. destruct s.
  destruct (topics_built_eq cfg _ HR) as (_ & Hs & _).
  rewrite Hs. apply vocabulary_step_status. exact Hm.
Qed.

(** Every run of passes keeps the vocabulary monitor going. *)
Lemma vocabulary_passes (ss : list Stimulus) :
  respects (vocabulary_step cfg) (topics_rel cfg) (passes cfg ss).
Proof.
  apply (watch_run (vocabulary_step cfg) (topics_rel cfg) status_token cfg);
    try (intros; reflexivity); try (intros; assumption).
  - apply vocabulary_status_ok.
  - apply (watch_loop_ota (vocabulary_step cfg) (topics_rel cfg) status_token
             cfg);
      try (intros; reflexivity); try (intros; assumption).
    apply vocabulary_status_ok.
  - apply vocabulary_ensureMQTT.
  - apply vocabulary_loop_discovery.
Qed.

Lemma vocabulary_setup (w : World) :
  monitor (vocabulary_step cfg) tt (setup_trace cfg w) = Some tt.
Proof.
  apply monitor_unit_all. intros e He. unfold setup_trace in He.
  destruct (shouldRunRestoreOnBoot (reset_reason (hw w))),
    (wifi_due (later 200 w)); vocabulary_events He.
Qed.

End VocabularyMonitor.

(** X18. From startup on, whatever arrives and whatever the environment
    does, every payload the device publishes on the status topic is one of
    the status tokens of the sketch: [online], [discovery:published],
    [ready], [boot:reset_reason:<text>] for one of the ten reason texts,
    [sent:<tag>] for one of the nine transmission tags, [restore:start:<tag>]
    and [restore:done:<tag>] for one of the three trigger tags,
    [button:restore_pressed], [boot:powerloss_restore:run],
    [error:unknown_cmd], [ota:start], [ota:end], or [ota:error:] followed by
    the error code.  No payload received is ever echoed to the status
    topic. *)
Theorem status_payloads_are_status_tokens (cfg : Config)
    (ss : list Stimulus) (w : World) :
  wf_config cfg ->
  exists w' evs,
    boot cfg ss w = Some (tt, w', evs) /\
    (forall payload retain,
        In (EMqttPublish (status_topic cfg) payload retain) evs ->
        In payload status_tokens \/ starts_with "ota:error:" payload = true) /\
    List.length status_tokens = 33%nat.
Proof.
  intros Hwf.
  destruct (terminates_passes cfg Hwf ss (after_setup cfg w))
    as ([] & w' & e1 & Hpasses).
  exists w', (setup_trace cfg w ++ e1). split; [|split; [|reflexivity]].
  - unfold boot. rewrite (bind_known _ _ _ _ _ _ (setup_run_trace cfg w)).
    rewrite Hpasses. reflexivity.
  - assert (Hm : monitor (vocabulary_step cfg) tt (setup_trace cfg w ++ e1) =
                 Some tt).
    { rewrite monitor_app, vocabulary_setup.
      destruct (vocabulary_passes cfg ss tt (after_setup cfg w) w' tt e1)
        as ([] & Hm & _);
        [apply after_setup_topics|exact Hpasses|exact Hm]. }
    intros payload retain Hin.
    pose proof (monitor_unit_In _ _ _ Hm Hin) as H.
    cbn [vocabulary_step] in H. rewrite String.eqb_refl in H.
    cbn [andb] in H.
    destruct (status_token payload) eqn:E; [|discriminate H].
    unfold status_token in E. apply orb_prop in E as [E|E]; [left|right].
    + apply existsb_exists in E as (t & Ht & Heq).
      apply String.eqb_eq in Heq. subst t. exact Ht.
    + exact E.
Qed.

Lemma status_payloads_are_status_tokens_witness :
  exists w' evs,
    boot shipped_config
      [mkStimulus 4800 true false true true HIGH
         [list_byte_of_string "  Temp_Up  "; list_byte_of_string "reboot"]
         (Some (OtaError 2));
       link_and_broker_up 1000]
      (power_up ESP_RST_BROWNOUT) = Some (tt, w', evs) /\
    (forall payload retain,
        In (EMqttPublish (status_topic shipped_config) payload retain) evs ->
        In payload status_tokens \/ starts_with "ota:error:" payload = true) /\
    List.length status_tokens = 33%nat.
Proof.
  exact (status_payloads_are_status_tokens shipped_config
           [mkStimulus 4800 true false true true HIGH
              [list_byte_of_string "  Temp_Up  ";
               list_byte_of_string "reboot"]
              (Some (OtaError 2));
            link_and_broker_up 1000]
           (power_up ESP_RST_BROWNOUT) shipped_config_wf).
Defined.

(* ------------------------------------------------------------------ *)
(** *** The shape of the discovery payloads *)

Lemma button_json_members (c a id n p : string) :
  buttonDiscoveryJson c a id n p =
  ("{" +++ quoted "name" +++ ":" +++ quoted n +++ "," +++
   press_members c p) +++
  availability_members a +++ identity_members id.
Proof.
  unfold buttonDiscoveryJson, press_members, availability_members,
    identity_members.
  rewrite !append_assoc. reflexivity.
Qed.

Lemma sensor_json_members (s a id : string) :
  statusSensorDiscoveryJson s a id =
  ("{" +++ quoted "name" +++ ":" +++ quoted "IR Heater Status" +++ "," +++
   quoted "state_topic" +++ ":" +++ quoted s +++ ",") +++
  availability_members a +++ identity_members id.
Proof.
  unfold statusSensorDiscoveryJson, availability_members, identity_members.
  rewrite !append_assoc. reflexivity.
Qed.

(** X19. Each of the nine discovery messages goes to
    [homeassistant/<component>/<object id>/config], and its payload ends
    with the same members: the availability topic of the device with the
    payloads [online] and [offline] (what the device publishes there and its
    last will), the object id of the topic as [unique_id], and one and the
    same device block, so that the nine entities belong to one device. *)
Theorem discovery_payloads_share_availability_and_device (w : World)
    (topic payload : string) :
  In (topic, payload) (discovery_messages w) ->
  exists component object_id members,
    topic =
      HA_DISCOVERY_PREFIX +++ "/" +++ component +++ "/" +++ object_id +++
      "/config" /\
    payload =
      members +++ availability_members (mqttTopicAvail (gv w)) +++
      identity_members object_id /\
    (component = "sensor"%string \/ component = "button"%string).
Proof.
  unfold discovery_messages. cbn [In]. intros [H|H].
  - unfold sensor_message in H. injection H as <- <-.
    exists "sensor"%string, "olimpia_ir_status_01"%string. eexists.
    split; [reflexivity|]. split; [apply sensor_json_members|].
    left. reflexivity.
  - apply in_map_iff in H as (b & Hb & _). unfold button_message in Hb.
    injection Hb as <- <-.
    exists "button"%string, (button_id b). eexists.
    split; [reflexivity|]. split; [apply button_json_members|].
    right. reflexivity.
Qed.

Lemma discovery_payloads_share_availability_and_device_witness :
  exists component object_id members,
    button_config_topic "ir_btn_temp_up_01" =
      HA_DISCOVERY_PREFIX +++ "/" +++ component +++ "/" +++ object_id +++
      "/config" /\
    buttonDiscoveryJson "hvac/bathroom/geyser/command"
      "hvac/bathroom/geyser/availability" "ir_btn_temp_up_01" "IR Temp Up"
      "temp_up" =
      members +++ availability_members "hvac/bathroom/geyser/availability" +++
      identity_members object_id /\
    (component = "sensor"%string \/ component = "button"%string).
Proof.
  apply (discovery_payloads_share_availability_and_device session_up).
  unfold discovery_messages, discovery_buttons. cbn [map In].
  do 6 right. left. reflexivity.
Defined.
